(** * The orchestration loop of the Strategic Intelligence Assistant

    A shallow embedding of [backend/graph_engine.py], [backend/orchestrator.py],
    [backend/memory_manager.py] and [backend/rag_engine.py]: the cache gate,
    the planner and executor nodes, their routing functions, the context
    pruning and distillation of the reasoning adapter, and [ResearchGraph.run].

    Conventions.
    - A Python [str] is a [string], one element for each character, for
      the characters up to U+00FF (the two glyphs before the markers of the
      gate's messages lie beyond, and are given by their bytes in the
      source file). [s[:n]] is [Py.slice_to n s].
    - A Python [int] is a [Z].
    - A similarity score is an IEEE double ([float]), as Pinecone returns it.
    - Everything outside the repository (the language models, the embedding
      service, the vector index, the document store, the capability
      implementations) is a field of [Collaborators]: a function of the
      external [World] that returns a value or raises, and a new [World].
    - A computation is a function of the environment that returns a result
      or an exception, the environment it leaves behind (effects done before
      an exception stay done, as in Python), and the trace of the calls to
      collaborators that it made. *)

From Stdlib Require Import String Ascii List ZArith Lia Bool Floats.
From Stdlib Require Import DecimalString DecimalNat.
Import ListNotations.

Local Open Scope string_scope.
Local Open Scope Z_scope.

(** ** Python strings and lists *)

Module Py.

(** [needle in hay] *)
Fixpoint contains (needle hay : string) : bool :=
  if prefix needle hay then true
  else match hay with
       | EmptyString => false
       | String _ rest => contains needle rest
       end.

(** The first [n] characters of [s], all of [s] when it is shorter. *)
Fixpoint str_take (n : nat) (s : string) : string :=
  match n, s with
  | O, _ => EmptyString
  | S _, EmptyString => EmptyString
  | S n', String c rest => String c (str_take n' rest)
  end.

(** [s[:i]] for any integer [i], negative ones counting from the end. *)
Definition slice_to (i : Z) (s : string) : string :=
  let len := Z.of_nat (String.length s) in
  let stop := if i <? 0 then Z.max 0 (len + i) else Z.min i len in
  str_take (Z.to_nat stop) s.

(** [bool(s)] *)
Definition truthy (s : string) : bool :=
  match s with EmptyString => false | String _ _ => true end.

(** [c.isspace()], the characters [str.strip()] removes: U+0009 to
    U+000D, U+001C to U+0020, U+0085 (next line) and U+00A0 (no-break
    space). The other white space of Unicode is beyond U+00FF. *)
Definition is_space (c : ascii) : bool :=
  let n := nat_of_ascii c in
  ((9 <=? n) && (n <=? 13) || (28 <=? n) && (n <=? 32)
   || (n =? 133) || (n =? 160))%nat.

(** [bool(s.strip())]: some character of [s] is not white space. *)
Fixpoint strip_truthy (s : string) : bool :=
  match s with
  | EmptyString => false
  | String c rest => if is_space c then strip_truthy rest else true
  end.

(** [sep.join(parts)] *)
Fixpoint join (sep : string) (parts : list string) : string :=
  match parts with
  | [] => EmptyString
  | [p] => p
  | p :: rest => p ++ sep ++ join sep rest
  end.

(** [l[i:]] for any integer [i], negative ones counting from the end. *)
Definition slice_from {A} (i : Z) (l : list A) : list A :=
  let len := Z.of_nat (length l) in
  let start := if i <? 0 then Z.max 0 (len + i) else Z.min i len in
  skipn (Z.to_nat start) l.

Definition LF : string := String (ascii_of_nat 10) EmptyString.

End Py.

(** ** Messages *)

(** The [args] dict of a tool call, in key order. *)
Definition Args := list (string * string).

(** [args.get(key, default)] *)
Fixpoint args_get (args : Args) (key default : string) : string :=
  match args with
  | [] => default
  | (k, v) :: rest => if String.eqb k key then v else args_get rest key default
  end.

Record ToolCall := mkToolCall {
  tc_name : string;
  tc_args : Args;
  tc_id : string
}.

Inductive BaseMessage :=
| HumanMessage (content : string)
| AIMessage (content : string) (tool_calls : list ToolCall)
| SystemMessage (content : string)
| ToolMessage (content : string) (tool_call_id : string).

Definition content (m : BaseMessage) : string :=
  match m with
  | HumanMessage c | AIMessage c _ | SystemMessage c | ToolMessage c _ => c
  end.

(** [getattr(m, "tool_calls", None)]: only an [AIMessage] has the attribute. *)
Definition get_tool_calls (m : BaseMessage) : option (list ToolCall) :=
  match m with
  | AIMessage _ tcs => Some tcs
  | _ => None
  end.

(** Truth value of [getattr(m, "tool_calls", None)]. *)
Definition has_tool_calls (m : BaseMessage) : bool :=
  match get_tool_calls m with
  | Some (_ :: _) => true
  | _ => false
  end.

Definition isinstance_AIMessage (m : BaseMessage) : bool :=
  match m with AIMessage _ _ => true | _ => false end.

(** [type(m).__name__] *)
Definition type_name (m : BaseMessage) : string :=
  match m with
  | HumanMessage _ => "HumanMessage"
  | AIMessage _ _ => "AIMessage"
  | SystemMessage _ => "SystemMessage"
  | ToolMessage _ _ => "ToolMessage"
  end.

(** ** Exceptions, results *)

(** The exceptions of class [Exception] that the code meets. Those that
    Python raises carry what their text is made of; those that a library
    raises ([GraphRecursionError] of langgraph, [ServiceError] for any
    other) carry the text the library gave them. *)
Inductive exn :=
| IndexError
| UnboundLocalError (variable : string)
| AttributeError (class attribute : string)
| GraphRecursionError (message : string)
| ServiceError (message : string).

(** [str(e)] *)
Definition exn_str (e : exn) : string :=
  match e with
  | IndexError => "list index out of range"
  | UnboundLocalError v =>
      "cannot access local variable '" ++ v ++ "' where it is not associated with a value"
  | AttributeError t a => "'" ++ t ++ "' object has no attribute '" ++ a ++ "'"
  | GraphRecursionError m => m
  | ServiceError m => m
  end.

Inductive Res (A : Type) :=
| Ok (a : A)
| Raise (e : exn).
Arguments Ok {A} a.
Arguments Raise {A} e.

(** [l[0]] and [l[-1]] *)
Definition first_item {A} (l : list A) : Res A :=
  match l with
  | [] => Raise IndexError
  | x :: _ => Ok x
  end.

Fixpoint last_item {A} (l : list A) : Res A :=
  match l with
  | [] => Raise IndexError
  | [x] => Ok x
  | _ :: rest => last_item rest
  end.

(** ** Calls to collaborators *)

Inductive Node := memory_check | planner | executor.

Record Match := mkMatch {
  score : float;
  report : string
}.

Inductive Event :=
| EvNode (n : Node)
| EvReason (context : list BaseMessage)
| EvDistill (prompt : string)
| EvCapability (name : string) (args : Args)
| EvCacheQuery (query user_id : string)
| EvRetrieve (query user_id : string)
| EvUpsert (query report user_id : string)
| EvLoad (thread_id user_id : string)
| EvSave (thread_id user_id : string) (messages : list (string * string)).

(** ** The computation monad *)

Section Engine.

(** The state of the services outside the repository, and the content of
    the vector index that holds the archived reports. *)
Variables World Store : Type.

Record Env := mkEnv {
  store : Store;
  world : World
}.

Record Out (A : Type) := mkOut {
  res : Res A;
  env : Env;
  trace : list Event
}.
Arguments mkOut {A} res env trace.
Arguments res {A} o.
Arguments env {A} o.
Arguments trace {A} o.

Definition M (A : Type) := Env -> Out A.

Definition ret {A} (a : A) : M A := fun e => mkOut (Ok a) e [].

Definition raise {A} (x : exn) : M A := fun e => mkOut (Raise x) e [].

Definition bind {A B} (m : M A) (k : A -> M B) : M B :=
  fun e =>
    let o := m e in
    match res o with
    | Ok a => let o' := k a (env o) in mkOut (res o') (env o') ((trace o ++ trace o')%list)
    | Raise x => mkOut (Raise x) (env o) (trace o)
    end.

(** [try: m  except Exception as e: handler(e)] *)
Definition try_except {A} (m : M A) (handler : exn -> M A) : M A :=
  fun e =>
    let o := m e in
    match res o with
    | Ok a => o
    | Raise x => let o' := handler x (env o) in mkOut (res o') (env o') ((trace o ++ trace o')%list)
    end.

Definition emit (ev : Event) : M unit := fun e => mkOut (Ok tt) e [ev].

Definition lift {A} (r : Res A) : M A := fun e => mkOut r e [].

(** A call to a service that cannot touch the report index. *)
Definition call {A} (f : World -> Res A * World) : M A :=
  fun e => let (r, w) := f (world e) in mkOut r (mkEnv (store e) w) [].

(** A read of the report index. *)
Definition call_read {A} (f : Store -> World -> Res A * World) : M A :=
  fun e => let (r, w) := f (store e) (world e) in mkOut r (mkEnv (store e) w) [].

(** A write to the report index. *)
Definition call_write {A} (f : Store -> World -> Res A * (Store * World)) : M A :=
  fun e => let (r, sw) := f (store e) (world e) in mkOut r (mkEnv (fst sw) (snd sw)) [].

Notation "x <- m ;; k" := (bind m (fun x => k))
  (at level 61, m at next level, right associativity).
Notation "m ;;; k" := (bind m (fun _ => k))
  (at level 61, right associativity).

(** ** Collaborators *)

Definition Vector := list float.

Record Metadata := mkMetadata {
  md_report : string;
  md_query : string;
  md_user_id : string
}.

Record Collaborators := mkCollaborators {
  (** [self.model_with_tools.invoke(messages)]: content and tool calls of
      the [AIMessage] it returns *)
  model_with_tools_invoke : list BaseMessage -> World -> Res (string * list ToolCall) * World;
  (** [self.distiller.invoke(prompt).content] *)
  distiller_invoke : string -> World -> Res string * World;
  (** [self.embeddings.embed_query(text)] *)
  embed_query : string -> World -> Res Vector * World;
  (** [self.index.query(vector, top_k, include_metadata=True, namespace, filter)]:
      the list under ['matches'] *)
  index_query : Vector -> nat -> string -> string -> Store -> World -> Res (list Match) * World;
  (** [self.index.upsert(vectors=[{id, values, metadata}], namespace)] *)
  index_upsert : string -> Vector -> Metadata -> string -> Store -> World -> Res unit * (Store * World);
  (** [hashlib.md5(text.encode()).hexdigest()] *)
  md5_hexdigest : string -> string;
  (** [PineconeVectorStore(namespace).asimilarity_search(query, k)]: the
      [page_content] of each document *)
  asimilarity_search : string -> string -> nat -> World -> Res (list string) * World;
  (** [self.db.conversations.find_one(...)]: the [(role, content)] pairs
      under ['messages'], when the thread exists *)
  find_conversation : string -> string -> World -> Res (option (list (string * string))) * World;
  (** [self.db.conversations.update_one(..., upsert=True)] *)
  update_conversation : string -> string -> list (string * string) -> World -> Res unit * World;
  (** the capabilities, each returning [str()] of what the tool returned *)
  scrape_site : Args -> World -> Res string * World;
  read_pdf_document : Args -> World -> Res string * World;
  web_search : Args -> World -> Res string * World;
  execute_python : Args -> World -> Res string * World;
  (** [glob.glob("*.png")] *)
  glob_png : World -> list string;
  (** [str()] of the [GraphRecursionError] of langgraph: the text is the
      library's *)
  recursion_error_text : string
}.

Variable C : Collaborators.

(** ** orchestrator.py: [StrategicBrain] *)

Definition instruction : BaseMessage :=
  SystemMessage
    ("You are a Strategic Researcher. Your objective is to solve complex queries "
     ++ "autonomously using the available tools." ++ Py.LF ++ Py.LF
     ++ "GUIDELINES:" ++ Py.LF
     ++ "1. DISCOVERY: Use 'web_search' for current facts. If a URL is found, 'scrape_site' to read it." ++ Py.LF
     ++ "2. LOCAL INTEL: Use 'read_pdf_document' if the user provides a file path or document reference." ++ Py.LF
     ++ "3. PDF CONTEXT: If you see '[FROM YOUR DOCUMENTS]' in the context, that means relevant information "
     ++ "from the user's uploaded PDFs has been retrieved. PRIORITIZE this information and use it to answer the query. "
     ++ "Do NOT search the web if the answer is in the documents." ++ Py.LF
     ++ "4. ANALYSIS: Use 'execute_python' to calculate growth rates, statistics, or generate charts." ++ Py.LF
     ++ "5. VISUALIZATION: When asked for a chart, write valid matplotlib code and "
     ++ "ALWAYS include plt.savefig('output_chart.png')." ++ Py.LF
     ++ "6. CONTEXT AWARENESS: You have access to a long-term memory (Pinecone). "
     ++ "If the information is retrieved from memory, summarize it immediately." ++ Py.LF
     ++ "7. TERMINATION: Once the information is gathered, provide a comprehensive textual report. "
     ++ "Do not call tools if the answer is already in the context history.").

(** The context pruning of [get_response]. *)
Definition prune (messages : list BaseMessage) : Res (list BaseMessage) :=
  if (5 <? Z.of_nat (length messages)) then
    match first_item messages with
    | Ok m0 => Ok ([m0] ++ Py.slice_from (-4) messages)%list
    | Raise x => Raise x
    end
  else Ok messages.

Definition get_response (messages : list BaseMessage) : M BaseMessage :=
  pruned <- lift (prune messages) ;;
  emit (EvReason ([instruction] ++ pruned)%list) ;;;
  r <- call (model_with_tools_invoke C ([instruction] ++ pruned)%list) ;;
  ret (AIMessage (fst r) (snd r)).

Definition distill_prompt (query truncated_text : string) : string :=
  "Topic: " ++ query
  ++ ". Extract specific metrics, dates, and core facts from this raw text:"
  ++ Py.LF ++ Py.LF ++ truncated_text.

Definition distill_scrape (raw_text query : string) : M string :=
  let truncated_text := Py.slice_to 15000 raw_text in
  let prompt := distill_prompt query truncated_text in
  try_except
    (emit (EvDistill prompt) ;;;
     call (distiller_invoke C prompt))
    (fun e => ret ("Context distillation failed: " ++ Py.slice_to 100 (exn_str e))).

(** ** memory_manager.py: [StrategicMemory] *)

Definition save_to_memory (query report user_id : string) : M unit :=
  vector <- call (embed_query C query) ;;
  let query_hash := md5_hexdigest C (user_id ++ "_" ++ query) in
  emit (EvUpsert query report user_id) ;;;
  call_write
    (index_upsert C (user_id ++ "_" ++ query_hash) vector
       (mkMetadata (Py.slice_to 50000 report) (Py.slice_to 1000 query) user_id)
       ("reports_" ++ user_id)).

Definition query_memory (query user_id : string) (threshold : float) : M (option string) :=
  emit (EvCacheQuery query user_id) ;;;
  query_vector <- call (embed_query C query) ;;
  matches <- call_read (index_query C query_vector 1 ("reports_" ++ user_id) user_id) ;;
  match matches with
  | m :: _ => if PrimFloat.leb threshold (score m) then ret (Some (report m)) else ret None
  | [] => ret None
  end.

Definition save_conversation (thread_id user_id : string)
    (messages : list (string * string)) : M unit :=
  try_except
    (emit (EvSave thread_id user_id messages) ;;;
     call (update_conversation C thread_id user_id messages))
    (fun _ => ret tt).

Definition load_conversation (thread_id user_id : string) : M (list (string * string)) :=
  try_except
    (emit (EvLoad thread_id user_id) ;;;
     doc <- call (find_conversation C thread_id user_id) ;;
     match doc with
     | Some messages => ret messages
     | None => ret []
     end)
    (fun _ => ret []).

(** ** rag_engine.py: [RAGEngine] *)

Definition retrieve_relevant_context (query user_id : string) (top_k : nat)
    : M (option string) :=
  try_except
    (emit (EvRetrieve query user_id) ;;;
     results <- call (asimilarity_search C query user_id top_k) ;;
     match results with
     | _ :: _ =>
         let context := Py.join (Py.LF ++ Py.LF) results in
         ret (if Py.strip_truthy context then Some context else None)
     | [] => ret None
     end)
    (fun _ => ret None).

(** ** graph_engine.py: [ResearchGraph] *)

Record AgentState := mkAgentState {
  messages : list BaseMessage;
  user_id : string;
  thread_id : string;
  steps : Z
}.

(** What a node returns: the messages to add, and the new step count when
    the node sets it. *)
Record Update := mkUpdate {
  upd_messages : list BaseMessage;
  upd_steps : option Z
}.

(** The reducers of [AgentState]: [operator.add] on [messages], overwrite
    on [steps]. *)
Definition apply_update (st : AgentState) (u : Update) : AgentState :=
  mkAgentState
    (messages st ++ upd_messages u)%list
    (user_id st)
    (thread_id st)
    (match upd_steps u with Some n => n | None => steps st end).

Definition FROM_MEMORY : string := "[FROM MEMORY]".

(** The bytes that precede the two markers in the source file. *)
Definition glyph (codes : list nat) : string :=
  string_of_list_ascii (map ascii_of_nat codes).

Definition memory_message (cached_report : string) : BaseMessage :=
  AIMessage
    (glyph [195; 176; 197; 184; 194; 167; 194; 160]%nat
     ++ " [FROM MEMORY]" ++ Py.LF ++ cached_report)
    [].

Definition documents_message (pdf_context : string) : BaseMessage :=
  SystemMessage
    (glyph [195; 176; 197; 184; 226; 128; 156; 226; 128; 158]%nat
     ++ " [FROM YOUR DOCUMENTS]" ++ Py.LF
     ++ "Relevant context from your uploaded PDFs:" ++ Py.LF ++ Py.LF
     ++ pdf_context ++ Py.LF ++ Py.LF
     ++ "IMPORTANT: Use this information from the user's documents to answer their query. "
     ++ "If the answer can be found in these documents, use it directly without searching the web.").

(** The default [threshold] of [query_memory]: the double nearest to 0.85. *)
Definition threshold : float := 0x1.b333333333333p-1%float.

(** The messages [check_cache] builds from the two lookups. *)
Definition context_messages (cached_report pdf_context : option string)
    : list BaseMessage :=
  ((match cached_report with
    | Some r => if Py.truthy r then [memory_message r] else []
    | None => []
    end)
   ++
   (match pdf_context with
    | Some c => if Py.truthy c && Py.strip_truthy c then [documents_message c] else []
    | None => []
    end))%list.

(** Every node returns the state as it leaves it (a node may append to
    the list under ['messages'] in place) and its update. *)
Definition check_cache (state : AgentState) : M (AgentState * Update) :=
  m0 <- lift (first_item (messages state)) ;;
  let query := content m0 in
  cached_report <- query_memory query (user_id state) threshold ;;
  pdf_context <- retrieve_relevant_context query (user_id state) 5 ;;
  ret (state, mkUpdate (context_messages cached_report pdf_context) None).

Inductive Known := known | unknown.

Definition is_it_known (state : AgentState) : Known :=
  match last_item (messages state) with
  | Raise _ => unknown
  | Ok last_msg =>
      if isinstance_AIMessage last_msg && Py.contains FROM_MEMORY (content last_msg)
      then known else unknown
  end.

Definition warning : BaseMessage :=
  SystemMessage
    ("URGENT: You have only 2 steps left. STOP researching immediately. "
     ++ "Use the information you already have to provide the best possible final answer.").

Definition call_model (state : AgentState) : M (AgentState * Update) :=
  let current_steps := steps state in
  let state :=
    if 8 <? current_steps
    then mkAgentState (messages state ++ [warning])%list
                      (user_id state) (thread_id state) (steps state)
    else state in
  response <- get_response (messages state) ;;
  ret (state, mkUpdate [response] (Some (current_steps + 1))).

(** The [if]/[elif] chain of [call_tool]: the value of the local variable
    [result] after it, [None] while the variable is unbound. No branch
    matches an unlisted name, which leaves [result] as it was. *)
Definition dispatch (original_query user_id : string) (tool_call : ToolCall)
    (result : option string) : M (option string) :=
  let tool_name := tc_name tool_call in
  let args := tc_args tool_call in
  if String.eqb tool_name "scrape_site" then
    emit (EvCapability tool_name args) ;;;
    raw_result <- call (scrape_site C args) ;;
    r <- distill_scrape raw_result original_query ;;
    ret (Some r)
  else if String.eqb tool_name "read_pdf_document" then
    emit (EvCapability tool_name args) ;;;
    raw_result <- call (read_pdf_document C args) ;;
    r <- distill_scrape raw_result original_query ;;
    ret (Some r)
  else if String.eqb tool_name "query_user_pdfs" then
    emit (EvCapability tool_name args) ;;;
    let query_text := args_get args "query" original_query in
    pdf_context <- retrieve_relevant_context query_text user_id 5 ;;
    ret (Some (match pdf_context with
               | Some c => if Py.truthy c then c
                           else "No relevant information found in your uploaded documents."
               | None => "No relevant information found in your uploaded documents."
               end))
  else if String.eqb tool_name "web_search" then
    emit (EvCapability tool_name args) ;;;
    r <- call (web_search C args) ;;
    ret (Some r)
  else if String.eqb tool_name "execute_python" then
    emit (EvCapability tool_name args) ;;;
    r <- call (execute_python C args) ;;
    ret (Some r)
  else ret result.

(** The [for] loop of [call_tool]. *)
Fixpoint for_tool_calls (original_query user_id : string) (tool_calls : list ToolCall)
    (result : option string) (tool_outputs : list BaseMessage)
    : M (list BaseMessage) :=
  match tool_calls with
  | [] => ret tool_outputs
  | tool_call :: rest =>
      result <- dispatch original_query user_id tool_call result ;;
      match result with
      | None => raise (UnboundLocalError "result")
      | Some r =>
          for_tool_calls original_query user_id rest (Some r)
            (tool_outputs ++ [ToolMessage r (tc_id tool_call)])%list
      end
  end.

Definition call_tool (state : AgentState) : M (AgentState * Update) :=
  last_message <- lift (last_item (messages state)) ;;
  m0 <- lift (first_item (messages state)) ;;
  let original_query := content m0 in
  match get_tool_calls last_message with
  | None => raise (AttributeError (type_name last_message) "tool_calls")
  | Some tool_calls =>
      tool_outputs <- for_tool_calls original_query (user_id state) tool_calls None [] ;;
      ret (state, mkUpdate tool_outputs None)
  end.

(** The two answers of [should_continue]; [finish] is the string ["end"]. *)
Inductive Continue := continue | finish.

Definition should_continue (state : AgentState) : Res Continue :=
  match last_item (messages state) with
  | Raise x => Raise x
  | Ok last_message =>
      if 12 <=? steps state then Ok finish
      else Ok (if has_tool_calls last_message then continue else finish)
  end.

(** ** The compiled graph

    Entry point [memory_check]; [memory_check] routes through
    [is_it_known] ([known] to END, [unknown] to [planner]); [planner]
    routes through [should_continue] ([continue] to [executor], ["end"] to
    END); [executor] always goes back to [planner]. [None] is END. *)

Definition run_node (node : Node) (state : AgentState) : M (AgentState * Update) :=
  match node with
  | memory_check => check_cache state
  | planner => call_model state
  | executor => call_tool state
  end.

Definition route (node : Node) (state : AgentState) : Res (option Node) :=
  match node with
  | memory_check =>
      match is_it_known state with
      | known => Ok None
      | unknown => Ok (Some planner)
      end
  | planner =>
      match should_continue state with
      | Ok continue => Ok (Some executor)
      | Ok finish => Ok None
      | Raise x => Raise x
      end
  | executor => Ok (Some planner)
  end.

(** One super-step: run the node, fold its update into the state with the
    reducers, take the outgoing edge. *)
Definition super_step (node : Node) (state : AgentState)
    : M (Update * AgentState * option Node) :=
  emit (EvNode node) ;;;
  r <- run_node node state ;;
  let state' := apply_update (fst r) (snd r) in
  next <- lift (route node state') ;;
  ret (snd r, state', next).

(** [self.app.astream(initial_state, config)]: the updates of the nodes in
    the order they ran, and the final state. The graph may take
    [recursion_limit] super-steps, and the stream ends when the graph has
    reached END in fewer: after the last super-step the limit allows the
    stream raises [GraphRecursionError], also when that step led to END. *)
Fixpoint astream (recursion_limit : nat) (node : Node) (state : AgentState)
    : M (list (Node * Update) * AgentState) :=
  match recursion_limit with
  | O => raise (GraphRecursionError (recursion_error_text C))
  | S limit =>
      r <- super_step node state ;;
      let '(value, state', next) := r in
      match next with
      | None =>
          match limit with
          | O => raise (GraphRecursionError (recursion_error_text C))
          | S _ => ret ([(node, value)], state')
          end
      | Some node' =>
          rest <- astream limit node' state' ;;
          ret ((node, value) :: fst rest, snd rest)
      end
  end.

(** The body of the loop over the stream in [run]: the new [final_msg]. *)
Definition observe (final_msg : string) (output : Node * Update) : string :=
  let (key, value) := output in
  match last_item (upd_messages value) with
  | Raise _ => final_msg
  | Ok last_m =>
      match key with
      | planner | memory_check =>
          if has_tool_calls last_m then final_msg else content last_m
      | executor => final_msg
      end
  end.

Definition history_messages (history : list (string * string)) : list BaseMessage :=
  flat_map
    (fun msg =>
       if String.eqb (fst msg) "user" then [HumanMessage (snd msg)]
       else if String.eqb (fst msg) "assistant" then [AIMessage (snd msg) []]
       else [])
    history.

Definition messages_for_storage (all_messages : list BaseMessage)
    : list (string * string) :=
  flat_map
    (fun m =>
       match m with
       | HumanMessage c => [("user", c)]
       | AIMessage c _ => [("assistant", c)]
       | SystemMessage c => [("system", c)]
       | ToolMessage _ _ => []
       end)
    all_messages.

Record RunResult := mkRunResult {
  answer : string;
  generated_files : list string
}.

Definition initial_messages (history : list (string * string)) (query : string)
    : list BaseMessage :=
  (history_messages history ++ [HumanMessage query])%list.

Definition initial_state (history : list (string * string))
    (query thread_id user_id : string) : AgentState :=
  mkAgentState (initial_messages history query) user_id thread_id 0.

(** The post-processing of [run] once the stream has ended. *)
Definition archive (query thread_id user_id : string)
    (initial : list BaseMessage) (final_msg : string) : M unit :=
  if Py.truthy final_msg then
    (if negb (Py.contains FROM_MEMORY final_msg)
     then save_to_memory query final_msg user_id
     else ret tt) ;;;
    save_conversation thread_id user_id
      (messages_for_storage (initial ++ [AIMessage final_msg []])%list)
  else ret tt.

Definition apology : string :=
  "I apologize, but I couldn't generate a response. Please try again.".

(** [run] up to the end of the loop over the stream: the messages of the
    initial state, the charts that existed before, and [final_msg]. *)
Definition research (recursion_limit : nat) (query thread_id user_id : string)
    : M (list BaseMessage * list string * string) :=
  history <- load_conversation thread_id user_id ;;
  let state0 := initial_state history query thread_id user_id in
  existing_files <- call (fun w => (Ok (glob_png C w), w)) ;;
  outputs <- astream recursion_limit memory_check state0 ;;
  ret (messages state0, existing_files, fold_left observe (fst outputs) EmptyString).

Definition run_with_limit (recursion_limit : nat) (query thread_id user_id : string)
    : M RunResult :=
  r <- research recursion_limit query thread_id user_id ;;
  let '(initial, existing_files, final_msg) := r in
  all_png_files <- call (fun w => (Ok (glob_png C w), w)) ;;
  let generated :=
    filter (fun f => negb (existsb (String.eqb f) existing_files)) all_png_files in
  archive query thread_id user_id initial final_msg ;;;
  ret (mkRunResult (if Py.truthy final_msg then final_msg else apology) generated).

(** [config = {"recursion_limit": 20}] *)
Definition run (query thread_id user_id : string) : M RunResult :=
  run_with_limit 20 query thread_id user_id.

(** ** Executions of the graph

    [runs_to node state e p x next state' e']: from [node] in [state] and
    environment [e], a sequence of super-steps that all returned, [p] of
    them of the planner and [x] of the executor, leads to [state'] and
    [e'] with [next] the node to run (or END). *)

Definition is_planner (n : Node) : nat :=
  match n with planner => 1 | _ => 0 end.

Definition is_executor (n : Node) : nat :=
  match n with executor => 1 | _ => 0 end.

Inductive runs_to (node : Node) (state : AgentState) (e : Env)
    : nat -> nat -> option Node -> AgentState -> Env -> Prop :=
| runs_here : runs_to node state e 0 0 (Some node) state e
| runs_step p x n1 s1 e1 value s2 next :
    runs_to node state e p x (Some n1) s1 e1 ->
    res (super_step n1 s1 e1) = Ok (value, s2, next) ->
    runs_to node state e (p + is_planner n1) (x + is_executor n1)
      next s2 (env (super_step n1 s1 e1)).

End Engine.

Arguments mkOut {World Store A} res env trace.
Arguments res {World Store A} o.
Arguments env {World Store A} o.
Arguments trace {World Store A} o.
Arguments mkEnv {World Store} store world.
Arguments store {World Store} e.
Arguments world {World Store} e.
Arguments get_response {World Store} C messages e.
Arguments distill_scrape {World Store} C raw_text query e.
Arguments save_to_memory {World Store} C query report user_id e.
Arguments query_memory {World Store} C query user_id threshold e.
Arguments save_conversation {World Store} C thread_id user_id messages e.
Arguments load_conversation {World Store} C thread_id user_id e.
Arguments retrieve_relevant_context {World Store} C query user_id top_k e.
Arguments check_cache {World Store} C state e.
Arguments call_model {World Store} C state e.
Arguments dispatch {World Store} C original_query user_id tool_call result e.
Arguments for_tool_calls {World Store} C original_query user_id tool_calls result tool_outputs e.
Arguments call_tool {World Store} C state e.
Arguments run_node {World Store} C node state e.
Arguments super_step {World Store} C node state e.
Arguments astream {World Store} C recursion_limit node state e.
Arguments archive {World Store} C query thread_id user_id initial final_msg e.
Arguments research {World Store} C recursion_limit query thread_id user_id e.
Arguments run_with_limit {World Store} C recursion_limit query thread_id user_id e.
Arguments run {World Store} C query thread_id user_id e.
Arguments runs_to {World Store} C node state e _ _ _ _ _.

(** ** Reading traces and tool observations *)

Definition is_distill (ev : Event) : bool :=
  match ev with EvDistill _ => true | _ => false end.

Definition is_capability (ev : Event) : bool :=
  match ev with EvCapability _ _ => true | _ => false end.

Definition is_upsert (ev : Event) : bool :=
  match ev with EvUpsert _ _ _ => true | _ => false end.

Definition is_lookup (ev : Event) : bool :=
  match ev with EvCacheQuery _ _ | EvRetrieve _ _ => true | _ => false end.

Definition enters (n : Node) (ev : Event) : bool :=
  match ev, n with
  | EvNode memory_check, memory_check
  | EvNode planner, planner
  | EvNode executor, executor => true
  | _, _ => false
  end.

(** The names the [if]/[elif] chain of [call_tool] routes. *)
Definition routed (name : string) : bool :=
  String.eqb name "scrape_site" || String.eqb name "read_pdf_document"
  || String.eqb name "query_user_pdfs" || String.eqb name "web_search"
  || String.eqb name "execute_python".

(** The two capabilities whose result goes through [distill_scrape]. *)
Definition distilled_capability (name : string) : bool :=
  String.eqb name "scrape_site" || String.eqb name "read_pdf_document".

(** [outputs] answers [requests]: one [ToolMessage] per request, in the
    order of the requests, each with the identifier of its request. *)
Definition answers (outputs : list BaseMessage) (requests : list ToolCall) : Prop :=
  Forall2 (fun m tc => exists text, m = ToolMessage text (tc_id tc)) outputs requests.

(** The value a capability returns for a request: the text the source
    calls [raw_result] for the two scraping capabilities, and [result] for
    the search and the sandbox. The document retrieval has no raw text of
    its own (it answers with the context or a fixed sentence). *)
Definition raw_result {World Store : Type} (C : Collaborators World Store)
    (tc : ToolCall) (w : World) : option string :=
  let returned (r : Res string * World) :=
    match fst r with Ok text => Some text | Raise _ => None end in
  if String.eqb (tc_name tc) "scrape_site" then returned (scrape_site _ _ C (tc_args tc) w)
  else if String.eqb (tc_name tc) "read_pdf_document"
       then returned (read_pdf_document _ _ C (tc_args tc) w)
  else if String.eqb (tc_name tc) "web_search" then returned (web_search _ _ C (tc_args tc) w)
  else if String.eqb (tc_name tc) "execute_python"
       then returned (execute_python _ _ C (tc_args tc) w)
  else None.


(** Whether the invocation that [call_tool] makes for the request [tc] in
    the world [w] raises. The document retrieval catches its failures, and
    no invocation is made for a name that is not routed. *)
Definition invocation_raises {World Store : Type} (C : Collaborators World Store)
    (tc : ToolCall) (w : World) : bool :=
  let raised (r : Res string * World) :=
    match fst r with Ok _ => false | Raise _ => true end in
  if String.eqb (tc_name tc) "scrape_site" then raised (scrape_site _ _ C (tc_args tc) w)
  else if String.eqb (tc_name tc) "read_pdf_document"
       then raised (read_pdf_document _ _ C (tc_args tc) w)
  else if String.eqb (tc_name tc) "web_search" then raised (web_search _ _ C (tc_args tc) w)
  else if String.eqb (tc_name tc) "execute_python"
       then raised (execute_python _ _ C (tc_args tc) w)
  else false.

(** The invocations made for [requests], one after the other in the order
    of the requests and each in the environment the one before it left,
    all return. *)
Fixpoint invocations_from {World Store : Type} (C : Collaborators World Store)
    (original_query user : string) (requests : list ToolCall) (e : Env World Store)
    : bool :=
  match requests with
  | [] => true
  | tc :: rest =>
      negb (invocation_raises C tc (world e))
      && invocations_from C original_query user rest
           (env (dispatch C original_query user tc None e))
  end.


(** The dispatcher answers the requests of the last message of [state]. *)
Definition one_observation_per_request {World Store : Type}
    (C : Collaborators World Store) (state : AgentState) (requests : list ToolCall)
    (e : Env World Store) : Prop :=
  exists outputs,
    res (call_tool C state e) = Ok (state, mkUpdate outputs None) /\
    answers outputs requests.

(** The reading of "the first message is the original user query, or a
    cache-hit or document-context message placed before it". *)
Definition query_or_gate_message (query : string) (m : BaseMessage) : Prop :=
  m = HumanMessage query \/
  (exists cached_report, m = memory_message cached_report) \/
  (exists pdf_context, m = documents_message pdf_context).

(** The first message of the context a run starts from. *)
Definition anchor (history : list (string * string)) (query : string) : BaseMessage :=
  match history_messages history with
  | m :: _ => m
  | [] => HumanMessage query
  end.

(** A computation that leaves the report index as it found it and makes
    no upsert. *)
Definition quiet {World Store A : Type} (m : M World Store A) : Prop :=
  forall e, store (env (m e)) = store e /\ existsb is_upsert (trace (m e)) = false.

(** The number of planner updates in a stream. *)
Definition planner_runs (outputs : list (Node * Update)) : nat :=
  fold_right (fun output k => (is_planner (fst output) + k)%nat) 0%nat outputs.

(** ** Scripted collaborators

    A closed world to run the engine in: the world counts the calls made to
    the reasoning model, which answers call [n] with [script n]; the index
    holds the matches it returns for any query; [docs] is what the document
    retrieval finds; [embedding_up] and [search_up] tell whether the
    embedding service and the web search answer or raise. *)

Definition scripted (script : nat -> string * list ToolCall) (docs : list string)
    (embedding_up search_up : bool) : Collaborators nat (list Match) :=
  mkCollaborators nat (list Match)
    (fun _ w => (Ok (script w), S w))
    (fun prompt w => (Ok "distilled", w))
    (fun _ w => if embedding_up then (Ok [], w)
                else (Raise (ServiceError "embedding service unavailable"), w))
    (fun _ top_k _ _ st w => (Ok (firstn top_k st), w))
    (fun _ _ md _ st w => (Ok tt, (mkMatch 1%float (md_report md) :: st, w)))
    (fun text => text)
    (fun _ _ top_k w => (Ok (firstn top_k docs), w))
    (fun _ _ w => (Ok None, w))
    (fun _ _ _ w => (Ok tt, w))
    (fun _ w => (Ok "page", w))
    (fun _ w => (Ok "page", w))
    (fun _ w => if search_up then (Ok "page", w)
                else (Raise (ServiceError "1 validation error for web_search"), w))
    (fun _ w => (Ok "4", w))
    (fun _ => [])
    "Recursion limit of 20 reached without hitting a stop condition.".

Definition answer_at_once (n : nat) : string * list ToolCall :=
  ("Fresh answer", []).

Definition always_search (n : nat) : string * list ToolCall :=
  ("Searching", [mkToolCall "web_search" [("query", "revenue")] "call_1"]).

Definition search_then_answer (n : nat) : string * list ToolCall :=
  match n with
  | O => ("Searching", [mkToolCall "web_search" [("query", "revenue")] "call_1";
                        mkToolCall "scrape_site" [("url", "http://example.org")] "call_2"])
  | _ => ("Final report", [])
  end.

Definition ask_xyz (n : nat) : string * list ToolCall :=
  ("Trying", [mkToolCall "xyz" [] "call_1"]).

(** A model that asks for a search [k] times and answers at call [k + 1]. *)
Definition search_times (k n : nat) : string * list ToolCall :=
  if (n <? k)%nat
  then ("Searching", [mkToolCall "web_search" [("query", "revenue")] "call_1"])
  else ("Final report", []).

Definition env0 (cache : list Match) : Env nat (list Match) := mkEnv cache 0%nat.

Definition hit : Match := mkMatch 0.875%float "Cached report".

Definition search_call : ToolCall :=
  mkToolCall "web_search" [("query", "revenue")] "call_1".

Definition scrape_call : ToolCall :=
  mkToolCall "scrape_site" [("url", "http://example.org")] "call_2".

(** The state the executor sees after the planner asked for [requests]. *)
Definition asked (requests : list ToolCall) : AgentState :=
  mkAgentState [HumanMessage "q"; AIMessage "Searching" requests] "u" "t" 1.

(** A thread that already holds one exchange. *)
Definition old_thread : list (string * string) :=
  [("user", "old question"); ("assistant", "old answer")].

(** The collaborators [C] with a document store that holds [history] for
    every thread. *)
Definition in_thread {World Store : Type} (history : list (string * string))
    (C : Collaborators World Store) : Collaborators World Store :=
  mkCollaborators World Store
    (model_with_tools_invoke _ _ C)
    (distiller_invoke _ _ C)
    (embed_query _ _ C)
    (index_query _ _ C)
    (index_upsert _ _ C)
    (md5_hexdigest _ _ C)
    (asimilarity_search _ _ C)
    (fun _ _ w => (Ok (Some history), w))
    (update_conversation _ _ C)
    (scrape_site _ _ C)
    (read_pdf_document _ _ C)
    (web_search _ _ C)
    (execute_python _ _ C)
    (glob_png _ _ C)
    (recursion_error_text _ _ C).

(** ** Shapes of streams and of stored conversations *)

(** The node sequences the graph can produce from the planner on: planner
    and executor alternate, and a planner comes last. *)
Fixpoint planner_tail (nodes : list Node) : bool :=
  match nodes with
  | [planner] => true
  | planner :: executor :: rest => planner_tail rest
  | _ => false
  end.

(** The node sequences of a whole stream: the gate alone, or the gate and
    then a planner tail. *)
Definition stream_shape (nodes : list Node) : bool :=
  match nodes with
  | [memory_check] => true
  | memory_check :: rest => planner_tail rest
  | _ => false
  end.

(** The node sequences of a stream started at [node]. *)
Definition shape_from (node : Node) (nodes : list Node) : bool :=
  match node with
  | memory_check => stream_shape nodes
  | planner => planner_tail nodes
  | executor =>
      match nodes with
      | executor :: rest => planner_tail rest
      | _ => false
      end
  end.

(** The entries of a stored thread that [run] turns into messages. *)
Definition stored_role (entry : string * string) : bool :=
  String.eqb (fst entry) "user" || String.eqb (fst entry) "assistant".

(** Messages that [messages_for_storage] and [history_messages] carry back
    and forth unchanged: user messages, and assistant messages without
    tool calls. *)
Definition plain_message (m : BaseMessage) : bool :=
  match m with
  | HumanMessage _ => true
  | AIMessage _ [] => true
  | _ => false
  end.

Definition is_save (ev : Event) : bool :=
  match ev with EvSave _ _ _ => true | _ => false end.

Definition is_reason (ev : Event) : bool :=
  match ev with EvReason _ => true | _ => false end.

(** The events of the research phase of a run: every call but the two
    writes of the post-processing. *)
Definition engine_event (ev : Event) : bool :=
  negb (is_upsert ev || is_save ev).

(** A computation whose trace holds only events that satisfy [P]. *)
Definition emits_only {World Store A : Type} (P : Event -> bool)
    (m : M World Store A) : Prop :=
  forall e, forallb P (trace (m e)) = true.

(** ** More Python strings *)

Module PyText.

(** [s.lstrip()], [s.rstrip()] and [s.strip()], for the white space of
    [Py.is_space]. *)
Fixpoint lstrip (s : string) : string :=
  match s with
  | EmptyString => EmptyString
  | String c rest => if Py.is_space c then lstrip rest else s
  end.

Fixpoint rstrip (s : string) : string :=
  match s with
  | EmptyString => EmptyString
  | String c rest =>
      match rstrip rest with
      | EmptyString => if Py.is_space c then EmptyString else String c EmptyString
      | kept => String c kept
      end
  end.

Definition strip (s : string) : string := rstrip (lstrip s).

(** [str(n)] for a natural number. *)
Definition str_of_nat (n : nat) : string :=
  NilEmpty.string_of_uint (Nat.to_uint n).

End PyText.

(** [d[key]] on a dict of strings: [None] stands for [KeyError]. *)
Fixpoint args_find (args : Args) (key : string) : option string :=
  match args with
  | [] => None
  | (k, v) :: rest => if String.eqb k key then Some v else args_find rest key
  end.

(** ** The capabilities: research_tools.py, pdf_tool.py, sandbox.py and the
    tool wrappers of orchestrator.py *)

Record SearchResult := mkSearchResult {
  title : string;
  url : string;
  snippet : string
}.

(** What [crawler.arun] returns: [success], [markdown], [error_message]. *)
Record CrawlResult := mkCrawlResult {
  success : bool;
  markdown : string;
  error_message : string
}.

(** The dict [run_code] returns. *)
Record SandboxResult := mkSandboxResult {
  status : string;
  output : string;
  error : string;
  files : list string
}.

(** How [exec(code, globals, locals)] ends: the code ran to its end, it
    raised an exception of class [Exception], or it raised one that is not
    of that class ([SystemExit] from [sys.exit()], [KeyboardInterrupt]),
    which no [except Exception] catches. *)
Inductive Executed :=
| Completed
| Raised (e : exn)
| Exited (exception : string).

(** What a call gives when code it executes may end in those ways: a
    value, an exception of class [Exception], or the exit. *)
Inductive Ran (A : Type) :=
| Returns (a : A)
| Raises (e : exn)
| Exits (exception : string).
Arguments Returns {A} a.
Arguments Raises {A} e.
Arguments Exits {A} exception.

Section Capabilities.

Variable World : Type.

(** The libraries under the capabilities. *)
Record Toolkit := mkToolkit {
  (** [list(DDGS().text(query, max_results=n, safesearch="off"))], each
      result a dict of strings *)
  ddgs_text : string -> nat -> World -> Res (list Args) * World;
  (** [AsyncWebCrawler(...).arun(url, config)] *)
  crawler_arun : string -> World -> Res CrawlResult * World;
  (** [os.path.exists(path)] *)
  path_exists : string -> World -> bool;
  (** [DocumentConverter().convert(path).document.export_to_markdown()] *)
  converter_convert : string -> World -> Res string * World;
  (** [exec(code, globals, locals)] with [sys.stdout] captured: how it
      ended, and what it printed until then *)
  exec_code : string -> World -> Executed * string * World;
  (** [re.findall] of the file names given to [plt.savefig] in the code *)
  savefig_targets : string -> list string;
  (** [plt.get_fignums()] *)
  get_fignums : World -> list nat;
  (** [plt.figure(fig_num); plt.savefig(fname)] *)
  savefig : nat -> string -> World -> Res unit * World;
  (** [os.path.splitext(path)[0]] *)
  splitext_root : string -> string;
  (** [str()] of a list of strings, of the list of search results and of
      the result of the sandbox *)
  str_list : list string -> string;
  str_search : list SearchResult -> string;
  str_sandbox : SandboxResult -> string
}.

Variable T : Toolkit.

(** research_tools.py: [ResearchToolkit.search_web] *)
Definition search_web (query : string) (max_results : nat) (w : World)
    : Res (list SearchResult) * World :=
  match ddgs_text T query max_results w with
  | (Ok results, w') =>
      (Ok (map (fun r => mkSearchResult (args_get r "title" EmptyString)
                                        (args_get r "href" EmptyString)
                                        (args_get r "body" EmptyString))
               results), w')
  | (Raise _, w') => (Ok [], w')
  end.

(** research_tools.py: [ResearchToolkit.scrape_url]; [None] is Python's. *)
Definition scrape_url (target : string) (w : World) : Res (option string) * World :=
  match crawler_arun T target w with
  | (Ok result, w') =>
      if success result then (Ok (Some (markdown result)), w') else (Ok None, w')
  | (Raise _, w') => (Ok None, w')
  end.

(** pdf_tool.py: the body of [read_pdf_document] *)
Definition read_pdf (file_path : string) (w : World) : Res string * World :=
  if negb (path_exists T file_path w)
  then (Ok ("Error: File " ++ file_path ++ " not found."), w)
  else match converter_convert T file_path w with
       | (Ok text, w') => (Ok text, w')
       | (Raise e, w') => (Ok ("Error parsing PDF: " ++ exn_str e), w')
       end.

(** sandbox.py: the name of the [i]-th of [count] figures saved by the
    auto-save fallback of [run_code]. *)
Definition fallback_name (output_filename : option string) (count i : nat) : string :=
  match output_filename with
  | Some f =>
      if Py.truthy f
      then if (count =? 1)%nat then f
           else splitext_root T f ++ "_" ++ PyText.str_of_nat i ++ ".png"
      else "output_chart_" ++ PyText.str_of_nat i ++ ".png"
  | None => "output_chart_" ++ PyText.str_of_nat i ++ ".png"
  end.

(** The loop [for i, fig_num in enumerate(figs, start=1)]. *)
Fixpoint save_figures (output_filename : option string) (count i : nat)
    (figs : list nat) (saved_files : list string) (w : World)
    : Res (list string) * World :=
  match figs with
  | [] => (Ok saved_files, w)
  | fig_num :: rest =>
      let fname := fallback_name output_filename count i in
      match savefig T fig_num fname w with
      | (Ok _, w') =>
          save_figures output_filename count (S i) rest (saved_files ++ [fname])%list w'
      | (Raise e, w') => (Raise e, w')
      end
  end.

Definition sandbox_error (stdout : string) (e : exn) : SandboxResult :=
  mkSandboxResult "error" (PyText.strip stdout) (exn_str e) [].

(** sandbox.py: [LogicSandbox.run_code]. Its handler is
    [except Exception]: an exit raised by the code passes through it. *)
Definition run_code (code : string) (output_filename : option string) (w : World)
    : Ran SandboxResult * World :=
  let '(ended, stdout, w1) := exec_code T code w in
  match ended with
  | Exited exception => (Exits exception, w1)
  | Raised e => (Returns (sandbox_error stdout e), w1)
  | Completed =>
      let saved_files :=
        if Py.contains "plt.savefig" code
        then filter (fun m => path_exists T m w1) (savefig_targets T code)
        else [] in
      let figs := get_fignums T w1 in
      let saving :=
        match figs, saved_files with
        | _ :: _, [] => save_figures output_filename (length figs) 1 figs [] w1
        | _, _ => (Ok saved_files, w1)
        end in
      match saving with
      | (Ok saved, w2) =>
          let chart_status :=
            match saved with
            | [] => "No chart generated"
            | _ :: _ => "Charts saved: " ++ str_list T saved
            end in
          (Returns (mkSandboxResult "success"
                      (PyText.strip stdout ++ Py.LF ++ "[" ++ chart_status ++ "]")
                      EmptyString saved), w2)
      | (Raise e, w2) => (Returns (sandbox_error stdout e), w2)
      end
  end.

(** orchestrator.py: the tools, as [call_tool] invokes them with the
    [args] of a request. A required argument that is missing makes the
    invocation raise (the argument validation of the tool library); the
    value a tool returns is given as its [str()]. *)
Definition missing (argument : string) : exn :=
  ServiceError ("1 validation error: " ++ argument ++ " field required").

Definition tool_web_search (args : Args) (w : World) : Res string * World :=
  match args_find args "query" with
  | None => (Raise (missing "query"), w)
  | Some query =>
      match search_web query 5 w with
      | (Ok results, w') => (Ok (str_search T results), w')
      | (Raise e, w') => (Raise e, w')
      end
  end.

Definition tool_scrape_site (args : Args) (w : World) : Res string * World :=
  match args_find args "url" with
  | None => (Raise (missing "url"), w)
  | Some target =>
      match scrape_url target w with
      | (Ok (Some text), w') => (Ok text, w')
      | (Ok None, w') => (Ok "None", w')
      | (Raise e, w') => (Raise e, w')
      end
  end.

Definition tool_read_pdf_document (args : Args) (w : World) : Res string * World :=
  match args_find args "file_path" with
  | None => (Raise (missing "file_path"), w)
  | Some file_path => read_pdf file_path w
  end.

Definition tool_execute_python (args : Args) (w : World) : Ran string * World :=
  match args_find args "code" with
  | None => (Raises (missing "code"), w)
  | Some code =>
      let output_filename :=
        match args_find args "output_filename" with
        | Some f => Some f
        | None => Some "output_chart.png"
        end in
      match run_code code output_filename w with
      | (Returns result, w') => (Returns (str_sandbox T result), w')
      | (Raises e, w') => (Raises e, w')
      | (Exits exception, w') => (Exits exception, w')
      end
  end.

End Capabilities.

Arguments search_web {World} T query max_results w.
Arguments scrape_url {World} T target w.
Arguments read_pdf {World} T file_path w.
Arguments fallback_name {World} T output_filename count i.
Arguments save_figures {World} T output_filename count i figs saved_files w.
Arguments run_code {World} T code output_filename w.
Arguments tool_web_search {World} T args w.
Arguments tool_scrape_site {World} T args w.
Arguments tool_read_pdf_document {World} T args w.
Arguments tool_execute_python {World} T args w.

(** The collaborators of the engine with the repository's own search,
    scraping and PDF capabilities in place of the fields of [C]. The
    sandbox capability stays the field of [C]: the code it executes may
    exit, which no [Res] describes. *)
Definition with_toolkit {World Store : Type} (T : Toolkit World)
    (C : Collaborators World Store) : Collaborators World Store :=
  mkCollaborators World Store
    (model_with_tools_invoke _ _ C)
    (distiller_invoke _ _ C)
    (embed_query _ _ C)
    (index_query _ _ C)
    (index_upsert _ _ C)
    (md5_hexdigest _ _ C)
    (asimilarity_search _ _ C)
    (find_conversation _ _ C)
    (update_conversation _ _ C)
    (tool_scrape_site T)
    (tool_read_pdf_document T)
    (tool_web_search T)
    (execute_python _ _ C)
    (glob_png _ _ C)
    (recursion_error_text _ _ C).

(** The argument a routed capability requires. *)
Definition required_argument (name : string) : option string :=
  if String.eqb name "scrape_site" then Some "url"
  else if String.eqb name "read_pdf_document" then Some "file_path"
  else if String.eqb name "web_search" then Some "query"
  else if String.eqb name "execute_python" then Some "code"
  else None.

(** A request for a routed capability that carries the argument the
    capability requires. *)
Definition well_formed_request (tc : ToolCall) : bool :=
  routed (tc_name tc)
  && match required_argument (tc_name tc) with
     | Some argument =>
         match args_find (tc_args tc) argument with Some _ => true | None => false end
     | None => true
     end.

(** A request that executes no code. *)
Definition executes_no_code (tc : ToolCall) : bool :=
  negb (String.eqb (tc_name tc) "execute_python").

(** ** The chat endpoint: main.py, with [AuthService.decode_token] of
    auth_service.py *)

(** What the service layer raises. *)
Inductive Failure :=
| HTTPException (status_code : Z) (detail : string)
| ValueError (message : string)
| KeyError (key : string)
| Escaped (e : exn).

(** [str(e)] *)
Definition failure_str (f : Failure) : string :=
  match f with
  | HTTPException _ detail => detail
  | ValueError message => message
  | KeyError key => "'" ++ key ++ "'"
  | Escaped e => exn_str e
  end.

Inductive Served (A : Type) :=
| Done (a : A)
| Failed (f : Failure).
Arguments Done {A} a.
Arguments Failed {A} f.

(** What [jwt.decode] does with a token. *)
Inductive Decoded :=
| Payload (claims : Args)
| ExpiredSignatureError
| InvalidTokenError
| OtherError (e : exn).

Record Image := mkImage {
  filename : string;
  data : string;
  type : string
}.

(** The JSON the endpoint answers with; [images] is absent when there is
    no image. *)
Record ChatResponse := mkChatResponse {
  response_answer : string;
  images : option (list Image)
}.

Section Service.

Variables World Store : Type.

Record Deployment := mkDeployment {
  (** the environment variables read at import *)
  GOOGLE_API_KEY : option string;
  PINECONE_API_KEY : option string;
  MONGODB_URI : option string;
  (** [jwt.decode(token, SECRET_KEY, algorithms=[ALGORITHM])] *)
  jwt_decode : string -> World -> Decoded * World;
  (** [ResearchGraph(api_key, pinecone_key, mongodb_uri)] *)
  construct : World -> Res unit * World;
  (** the collaborators of the graph it constructs *)
  graph : Collaborators World Store;
  (** [os.path.exists(path)] *)
  image_exists : string -> World -> bool;
  (** [base64.b64encode(open(path, "rb").read()).decode("utf-8")] *)
  read_base64 : string -> World -> Res string * World;
  (** [os.path.basename(path)] *)
  basename : string -> string
}.

Variable D : Deployment.

(** [not value] for an environment variable *)
Definition unset (value : option string) : bool :=
  match value with
  | Some text => negb (Py.truthy text)
  | None => true
  end.

(** auth_service.py: [AuthService.decode_token] *)
Definition decode_token (token : string) (w : World) : Served Args * World :=
  match jwt_decode D token w with
  | (Payload claims, w') => (Done claims, w')
  | (ExpiredSignatureError, w') => (Failed (ValueError "Token has expired"), w')
  | (InvalidTokenError, w') => (Failed (ValueError "Invalid token"), w')
  | (OtherError e, w') => (Failed (Escaped e), w')
  end.

(** The loop over [generated_files]. *)
Fixpoint encode_images (generated : list string) (image_data : list Image) (w : World)
    : list Image * World :=
  match generated with
  | [] => (image_data, w)
  | img_file :: rest =>
      if image_exists D img_file w
      then match read_base64 D img_file w with
           | (Ok img_base64, w') =>
               encode_images rest
                 (image_data ++ [mkImage (basename D img_file) img_base64 "image/png"])%list
                 w'
           | (Raise _, w') => encode_images rest image_data w'
           end
      else encode_images rest image_data w
  end.

(** What a call of the endpoint leaves: its outcome, the environment and
    the calls the engine made. *)
Record Call := mkCall {
  outcome : Served ChatResponse;
  after : Env World Store;
  calls : list Event
}.

(** The body of the outer [try] of [chat_endpoint]. *)
Definition chat_body (query thread_id token : string) (e : Env World Store) : Call :=
  if negb (Py.truthy query && Py.truthy (PyText.strip query))
  then mkCall (Failed (HTTPException 400 "Query cannot be empty")) e []
  else if negb (Py.truthy thread_id && Py.truthy (PyText.strip thread_id))
  then mkCall (Failed (HTTPException 400 "Thread ID cannot be empty")) e []
  else if unset (GOOGLE_API_KEY D)
  then mkCall (Failed (HTTPException 500 "GOOGLE_API_KEY not configured")) e []
  else if unset (PINECONE_API_KEY D)
  then mkCall (Failed (HTTPException 500 "PINECONE_API_KEY not configured")) e []
  else if unset (MONGODB_URI D)
  then mkCall (Failed (HTTPException 500 "MONGODB_URI not configured")) e []
  else
    let (decoded, w1) := decode_token token (world e) in
    let e1 := mkEnv (store e) w1 in
    match decoded with
    | Failed (ValueError message) => mkCall (Failed (HTTPException 401 message)) e1 []
    | Failed f => mkCall (Failed f) e1 []
    | Done user_data =>
        match args_find user_data "user_id" with
        | None => mkCall (Failed (KeyError "user_id")) e1 []
        | Some user =>
            let (system, w2) := construct D w1 in
            let e2 := mkEnv (store e) w2 in
            match system with
            | Raise x =>
                mkCall (Failed (HTTPException 500
                          ("Failed to initialize research system: " ++ exn_str x)))
                       e2 []
            | Ok _ =>
                let o := run (graph D) (PyText.strip query) (PyText.strip thread_id)
                             user e2 in
                match res o with
                | Raise x =>
                    mkCall (Failed (HTTPException 500
                              ("Error processing query: " ++ exn_str x)))
                           (env o) (trace o)
                | Ok result =>
                    let (image_data, w3) :=
                      encode_images (generated_files result) [] (world (env o)) in
                    mkCall (Done (mkChatResponse (answer result)
                                    (match image_data with
                                     | [] => None
                                     | _ :: _ => Some image_data
                                     end)))
                           (mkEnv (store (env o)) w3) (trace o)
                end
            end
        end
    end.

(** main.py: [chat_endpoint]. The outer handlers pass an [HTTPException]
    on and turn any other exception into status 500. *)
Definition chat_endpoint (query thread_id token : string) (e : Env World Store) : Call :=
  let c := chat_body query thread_id token e in
  match outcome c with
  | Done response => c
  | Failed (HTTPException _ _) => c
  | Failed f =>
      mkCall (Failed (HTTPException 500 ("Unexpected error: " ++ failure_str f)))
             (after c) (calls c)
  end.

End Service.

Arguments outcome {World Store} c.
Arguments after {World Store} c.
Arguments calls {World Store} c.
Arguments decode_token {World Store} D token w.
Arguments encode_images {World Store} D generated image_data w.
Arguments chat_body {World Store} D query thread_id token e.
Arguments chat_endpoint {World Store} D query thread_id token e.

(** ** Scripted capabilities and deployment

    A toolkit in which the search, the crawler and the converter all raise,
    no file exists, the executed code prints nothing and leaves two figures
    open, or exits when it calls [sys.exit]; and a deployment that accepts the token ["good"] for user ["u"]
    and runs the scripted graph. *)

Definition failing_toolkit : Toolkit nat :=
  mkToolkit nat
    (fun _ _ w => (Raise (ServiceError "search unavailable"), w))
    (fun _ w => (Raise (ServiceError "browser crashed"), w))
    (fun _ _ => false)
    (fun _ w => (Raise (ServiceError "cannot convert"), w))
    (fun code w => if Py.contains "sys.exit" code
                   then (Exited "SystemExit", EmptyString, w)
                   else (Completed, EmptyString, w))
    (fun _ => [])
    (fun _ => [1; 2]%nat)
    (fun _ _ w => (Ok tt, w))
    (fun path => path)
    (fun names => Py.join ", " names)
    (fun results => PyText.str_of_nat (length results))
    (fun result => status result).

(** A query of white space only: a no-break space, a next-line character
    and a space. *)
Definition blank_query : string :=
  String (ascii_of_nat 160) (String (ascii_of_nat 133) " ").

(** A query between no-break spaces. *)
Definition padded_query : string :=
  String (ascii_of_nat 160) ("q" ++ String (ascii_of_nat 160) EmptyString).

(** A request that runs code which exits. *)
Definition exit_call : ToolCall :=
  mkToolCall "execute_python" [("code", "import sys; sys.exit(1)")] "call_3".

Definition test_deployment (script : nat -> string * list ToolCall)
    : Deployment nat (list Match) :=
  mkDeployment nat (list Match)
    (Some "google-key") (Some "pinecone-key") (Some "mongodb://db")
    (fun token w => if String.eqb token "good"
                    then (Payload [("user_id", "u")], w)
                    else (InvalidTokenError, w))
    (fun w => (Ok tt, w))
    (scripted script [] true true)
    (fun _ _ => false)
    (fun _ w => (Ok EmptyString, w))
    (fun path => path).

Definition pdfs_call : ToolCall := mkToolCall "query_user_pdfs" [] "call_3".

(** * Properties *)

(** ** Strings and slices *)

Lemma str_take_prefix (n : nat) (s : string) :
  exists rest, s = Py.str_take n s ++ rest.
Proof.
  revert s; induction n as [|n IH]; intros s.
  - exists s; reflexivity.
  - destruct s as [|c s].
    + exists EmptyString; reflexivity.
    + destruct (IH s) as [rest Hrest].
      exists rest; simpl; congruence.
Qed.

Lemma str_take_length (n : nat) (s : string) :
  String.length (Py.str_take n s) = Nat.min n (String.length s).
Proof.
  revert s; induction n as [|n IH]; intros [|c s]; simpl; auto.
Qed.

Lemma slice_to_length (i : Z) (s : string) :
  0 <= i ->
  Z.of_nat (String.length (Py.slice_to i s)) = Z.min i (Z.of_nat (String.length s)).
Proof.
  intros Hi; unfold Py.slice_to.
  destruct (Z.ltb_spec i 0); [lia|].
  rewrite str_take_length; lia.
Qed.

Lemma contains_prefix (needle rest : string) :
  Py.contains needle (needle ++ rest) = true.
Proof.
  assert (H : prefix needle (needle ++ rest) = true).
  { induction needle as [|c n IH]; simpl.
    - destruct rest; reflexivity.
    - destruct (ascii_dec c c); [assumption | congruence]. }
  revert H; generalize (needle ++ rest); intros hay H.
  destruct hay; cbn [Py.contains]; rewrite H; reflexivity.
Qed.

Lemma contains_skip (needle front hay : string) :
  Py.contains needle hay = true -> Py.contains needle (front ++ hay) = true.
Proof.
  intros H; induction front as [|c f IH]; [assumption|].
  change (String c f ++ hay) with (String c (f ++ hay)).
  cbn [Py.contains]; rewrite IH.
  destruct (prefix needle (String c (f ++ hay))); reflexivity.
Qed.

Lemma last_item_app {A} (l : list A) (x : A) : last_item (l ++ [x])%list = Ok x.
Proof.
  induction l as [|y l IH]; simpl; [reflexivity|].
  rewrite IH; destruct (l ++ [x])%list eqn:E; [destruct l; discriminate | reflexivity].
Qed.

Lemma last_item_app_nonempty {A} (l r : list A) :
  r <> [] -> last_item (l ++ r)%list = last_item r.
Proof.
  intros Hr; induction l as [|y l IH]; simpl; [reflexivity|].
  rewrite IH; destruct (l ++ r)%list eqn:E; [|reflexivity].
  apply app_eq_nil in E; destruct E; contradiction.
Qed.

Lemma first_item_app {A} (l r : list A) (x : A) :
  first_item l = Ok x -> first_item (l ++ r)%list = Ok x.
Proof. destruct l; simpl; [discriminate | auto]. Qed.

(** ** The monad *)

Section MonadFacts.

Context {World Store : Type}.

Lemma bind_ok {A B} (m : M World Store A) (k : A -> M World Store B)
    (e : Env World Store) (b : B) :
  res (bind _ _ m k e) = Ok b ->
  exists a, res (m e) = Ok a /\ res (k a (env (m e))) = Ok b.
Proof.
  unfold bind; destruct (res (m e)) as [a|x] eqn:Hm; simpl; [|discriminate].
  intros H; exists a; auto.
Qed.

Lemma bind_run {A B} (m : M World Store A) (k : A -> M World Store B)
    (e : Env World Store) (a : A) :
  res (m e) = Ok a ->
  res (bind _ _ m k e) = res (k a (env (m e))) /\
  env (bind _ _ m k e) = env (k a (env (m e))) /\
  trace (bind _ _ m k e) = (trace (m e) ++ trace (k a (env (m e))))%list.
Proof. unfold bind; intros ->; simpl; auto. Qed.

Lemma bind_raise {A B} (m : M World Store A) (k : A -> M World Store B)
    (e : Env World Store) (x : exn) :
  res (m e) = Raise x ->
  res (bind _ _ m k e) = Raise x /\
  env (bind _ _ m k e) = env (m e) /\
  trace (bind _ _ m k e) = trace (m e).
Proof. unfold bind; intros ->; simpl; auto. Qed.

Lemma lift_ok {A} (r : Res A) (e : Env World Store) (a : A) :
  res (lift _ _ r e) = Ok a -> r = Ok a.
Proof. auto. Qed.

End MonadFacts.

Ltac bind_inv H :=
  let a := fresh "a" in
  let Ha := fresh "Ha" in
  apply bind_ok in H; destruct H as (a & Ha & H).

(** ** The reasoning adapter *)

Section Brain.

Context {World Store : Type} (C : Collaborators World Store).

Ltac step_monad :=
  unfold bind, ret, raise, lift, emit, call, call_read, call_write, try_except;
  simpl.

(** The shape of the pruned view, for every history. *)
Lemma prune_ok (h : list BaseMessage) :
  exists view,
    prune h = Ok view /\
    if (length h <=? 5)%nat then view = h
    else length view = 5%nat /\
         exists m0 middle last4,
           h = (m0 :: middle ++ last4)%list /\ length last4 = 4%nat /\ view = m0 :: last4.
Proof.
  unfold prune.
  destruct (Nat.leb_spec (length h) 5) as [Hle|Hgt].
  - exists h; split; [|reflexivity].
    destruct (Z.ltb_spec 5 (Z.of_nat (length h))); [lia | reflexivity].
  - destruct h as [|m0 rest]; simpl in Hgt; [lia|].
    destruct (Z.ltb_spec 5 (Z.of_nat (length (m0 :: rest)))) as [_|Hn];
      [|simpl in Hn; lia].
    cbn [first_item].
    set (k := (length rest - 4)%nat).
    assert (Hs : Py.slice_from (-4) (m0 :: rest) = skipn k rest).
    { unfold Py.slice_from.
      replace (Z.to_nat _) with (S k); [reflexivity|].
      cbn [Z.ltb Z.compare]; simpl length; subst k; lia. }
    rewrite Hs.
    exists (m0 :: skipn k rest); split; [reflexivity|].
    assert (Hlen : length (skipn k rest) = 4%nat)
      by (rewrite length_skipn; subst k; lia).
    split; [simpl; lia|].
    exists m0, (firstn k rest), (skipn k rest).
    rewrite firstn_skipn; auto.
Qed.

Lemma get_response_trace (h view : list BaseMessage) (e : Env World Store) :
  prune h = Ok view ->
  trace (get_response C h e) = [EvReason (instruction :: view)].
Proof.
  intros Hp; unfold get_response; step_monad; rewrite Hp; simpl.
  destruct (model_with_tools_invoke _ _ C (instruction :: view) (world e)) as [[r|x] w];
    reflexivity.
Qed.

(** [get_response] is one invocation of the reasoning model, on the
    instruction followed by the pruned view: what it returns, raises and
    leaves behind is what that invocation does. *)
Lemma get_response_run (h view : list BaseMessage) (e : Env World Store) :
  prune h = Ok view ->
  let r := model_with_tools_invoke _ _ C (instruction :: view) (world e) in
  res (get_response C h e)
  = match fst r with
    | Ok a => Ok (AIMessage (fst a) (snd a))
    | Raise x => Raise x
    end /\
  env (get_response C h e) = mkEnv (store e) (snd r).
Proof.
  intros Hp; unfold get_response; step_monad; rewrite Hp; simpl.
  destruct (model_with_tools_invoke _ _ C (instruction :: view) (world e)) as [[r|x] w];
    split; reflexivity.
Qed.

(** C4. [get_response] invokes the reasoning model once, on its own
    instruction message followed by a view of the history [h], and answers
    with what that invocation returns (or raises what it raises). The view
    is [h] itself when [h] has at most 5 messages; otherwise it has exactly
    5 messages: message 0 of [h] followed by the last 4 messages of [h], in
    order. *)
Theorem C4_pruned_view (h : list BaseMessage) (e : Env World Store) :
  exists view,
    prune h = Ok view /\
    trace (get_response C h e) = [EvReason (instruction :: view)] /\
    (let r := model_with_tools_invoke _ _ C (instruction :: view) (world e) in
     res (get_response C h e)
     = match fst r with
       | Ok a => Ok (AIMessage (fst a) (snd a))
       | Raise x => Raise x
       end /\
     env (get_response C h e) = mkEnv (store e) (snd r)) /\
    if (length h <=? 5)%nat then view = h
    else length view = 5%nat /\
         exists m0 middle last4,
           h = (m0 :: middle ++ last4)%list /\ length last4 = 4%nat /\ view = m0 :: last4.
Proof.
  destruct (prune_ok h) as (view & Hp & Hshape).
  exists view; split; [assumption|]; split; [|split; [|assumption]].
  - apply get_response_trace; assumption.
  - apply get_response_run; assumption.
Qed.

(** C9. [distill_scrape] sends the secondary model one prompt, built from
    the query and a prefix of the raw text of at most 15000 characters
    (the first 15000 when the text is longer), and always returns a
    string: the model's answer, or, when the call raises, a diagnostic
    that is not empty. *)
Theorem C9_distill_scrape_total (raw_text query : string) (e : Env World Store) :
  let text := Py.slice_to 15000 raw_text in
  let o := distill_scrape C raw_text query e in
  (exists rest, raw_text = text ++ rest) /\
  Z.of_nat (String.length text) = Z.min 15000 (Z.of_nat (String.length raw_text)) /\
  trace o = [EvDistill (distill_prompt query text)] /\
  match fst (distiller_invoke _ _ C (distill_prompt query text) (world e)) with
  | Ok summary => res o = Ok summary
  | Raise x =>
      exists diagnostic,
        res o = Ok diagnostic /\
        diagnostic <> EmptyString /\
        diagnostic = "Context distillation failed: " ++ Py.slice_to 100 (exn_str x)
  end.
Proof.
  intros text o; subst o.
  split; [apply str_take_prefix|].
  split; [apply slice_to_length; lia|].
  unfold distill_scrape; fold text; step_monad.
  destruct (distiller_invoke _ _ C (distill_prompt query text) (world e)) as [[s|x] w];
    simpl; split; try reflexivity.
  eexists; split; [reflexivity|]; split; [discriminate | reflexivity].
Qed.

End Brain.

(** ** The step budget *)

Section Budget.

Context {World Store : Type} (C : Collaborators World Store).

Ltac step_monad :=
  unfold bind, ret, raise, lift, emit, call, call_read, call_write, try_except;
  simpl.

Lemma call_model_steps (s s1 : AgentState) (u : Update) (e : Env World Store) :
  res (call_model C s e) = Ok (s1, u) ->
  steps s1 = steps s /\ upd_steps u = Some (steps s + 1).
Proof.
  unfold call_model; intros H; bind_inv H.
  injection H as <- <-.
  destruct (8 <? steps s); auto.
Qed.

Lemma call_tool_steps (s s1 : AgentState) (u : Update) (e : Env World Store) :
  res (call_tool C s e) = Ok (s1, u) -> s1 = s /\ upd_steps u = None.
Proof.
  unfold call_tool; intros H; do 2 bind_inv H.
  destruct (get_tool_calls a) as [tcs|]; [|discriminate].
  bind_inv H; injection H as <- <-; auto.
Qed.

Lemma check_cache_steps (s s1 : AgentState) (u : Update) (e : Env World Store) :
  res (check_cache C s e) = Ok (s1, u) -> s1 = s /\ upd_steps u = None.
Proof.
  unfold check_cache; intros H; do 3 bind_inv H.
  injection H as <- <-; auto.
Qed.

(** What a super-step that returns has done. *)
Lemma super_step_inv (n : Node) (s s2 : AgentState) (value : Update)
    (next : option Node) (e : Env World Store) :
  res (super_step C n s e) = Ok (value, s2, next) ->
  exists s1,
    res (run_node C n s e) = Ok (s1, value) /\
    s2 = apply_update s1 value /\
    route n s2 = Ok next.
Proof.
  unfold super_step; intros H; do 3 bind_inv H.
  injection H as <- <- <-.
  destruct a0 as [s1 u]; exists s1; simpl in *.
  repeat split; assumption.
Qed.

(** At or past the hard cap the planner's edge leads to END, whatever the
    last message asks for. *)
Lemma should_continue_cap (s : AgentState) (m : BaseMessage) :
  last_item (messages s) = Ok m -> 12 <= steps s -> should_continue s = Ok finish.
Proof.
  intros Hm Hs; unfold should_continue; rewrite Hm.
  destruct (Z.leb_spec 12 (steps s)); [reflexivity | lia].
Qed.

Lemma route_planner_cap (s : AgentState) (next : option Node) :
  route planner s = Ok next -> 12 <= steps s -> next = None.
Proof.
  unfold route, should_continue.
  destruct (last_item (messages s)); [|discriminate].
  destruct (Z.leb_spec 12 (steps s)); [|intros; lia].
  intros Heq _; congruence.
Qed.

Lemma budget_invariant (s0 : AgentState) (e : Env World Store) (p x : nat)
    (next : option Node) (s : AgentState) (e' : Env World Store) :
  runs_to C memory_check s0 e p x next s e' ->
  steps s0 = 0 ->
  steps s = Z.of_nat p /\
  (next <> None -> steps s <= 11) /\
  (next = Some memory_check -> steps s = 0).
Proof.
  intros R H0; induction R as [|p x n1 s1 e1 value s2 next R IH Hstep].
  - rewrite H0; repeat split; intros; lia.
  - destruct IH as (Hp & Hnext & _).
    assert (Hle : steps s1 <= 11) by (apply Hnext; discriminate).
    apply super_step_inv in Hstep; destruct Hstep as (s1' & Hrun & -> & Hroute).
    destruct n1; simpl in Hrun, Hroute.
    + apply check_cache_steps in Hrun; destruct Hrun as [-> Hu].
      unfold apply_update in *; simpl in *; rewrite Hu in *.
      destruct (is_it_known _); injection Hroute as <-;
        repeat split; intros; try discriminate; simpl; lia.
    + apply call_model_steps in Hrun; destruct Hrun as [Hs Hu].
      assert (Hsteps : steps (apply_update s1' value) = steps s1 + 1)
        by (unfold apply_update; simpl; rewrite Hu; reflexivity).
      split; [rewrite Hsteps; simpl is_planner; lia|].
      split.
      * intros Hn.
        destruct (Z.le_gt_cases 12 (steps (apply_update s1' value))) as [Hc|Hc];
          [|lia].
        elim Hn; eapply route_planner_cap; eassumption.
      * intros ->; unfold route in Hroute.
        destruct (should_continue _) as [[|]|]; discriminate.
    + apply call_tool_steps in Hrun; destruct Hrun as [-> Hu].
      unfold apply_update in *; simpl in *; rewrite Hu in *.
      injection Hroute as <-.
      repeat split; intros; try discriminate; simpl; lia.
Qed.

(** C2. In every run the step counter starts at 0; after any number of
    super-steps it equals the number of planner executions among them
    (executor executions do not count), it is at most 12, and when it has
    reached 12 the planner's edge has led to END; the routing function
    answers ["end"] at 12 or more whatever tool calls the last message
    carries. *)
Theorem C2_step_budget (history : list (string * string))
    (query thread user : string) (e : Env World Store) (p x : nat)
    (next : option Node) (s : AgentState) (e' : Env World Store) :
  runs_to C memory_check (initial_state history query thread user) e p x next s e' ->
  steps (initial_state history query thread user) = 0 /\
  steps s = Z.of_nat p /\
  steps s <= 12 /\
  (12 <= steps s -> next = None) /\
  (forall st m, last_item (messages st) = Ok m -> 12 <= steps st ->
                should_continue st = Ok finish).
Proof.
  intros R.
  destruct (budget_invariant _ _ _ _ _ _ _ R eq_refl) as (Hp & Hnext & _).
  split; [reflexivity|]; split; [assumption|].
  assert (Hcap : 12 <= steps s -> next = None).
  { intros Hs; destruct next as [n|]; [|reflexivity].
    assert (steps s <= 11) by (apply Hnext; discriminate); lia. }
  split.
  - destruct next as [n|].
    + assert (steps s <= 11) by (apply Hnext; discriminate); lia.
    + inversion R as [|p' x' n1 s1 e1 value s2 nx R' Hstep]; subst.
      destruct (budget_invariant _ _ _ _ _ _ _ R' eq_refl) as (Hp1 & Hn1 & _).
      assert (steps s1 <= 11) by (apply Hn1; discriminate).
      apply super_step_inv in Hstep; destruct Hstep as (s1' & Hrun & -> & _).
      destruct n1; simpl in Hrun.
      * apply check_cache_steps in Hrun; destruct Hrun as [-> Hu].
        unfold apply_update; simpl; rewrite Hu; lia.
      * apply call_model_steps in Hrun; destruct Hrun as [Hs Hu].
        unfold apply_update; simpl; rewrite Hu; lia.
      * apply call_tool_steps in Hrun; destruct Hrun as [-> Hu].
        unfold apply_update; simpl; rewrite Hu; lia.
  - split; [assumption|].
    intros st m; apply should_continue_cap.
Qed.

End Budget.

(** ** The dispatcher *)

Section Dispatcher.

Context {World Store : Type} (C : Collaborators World Store).

Ltac step_monad :=
  unfold bind, ret, raise, lift, emit, call, call_read, call_write, try_except;
  simpl.

Lemma distill_scrape_returns (raw query : string) (e : Env World Store) :
  exists d,
    res (distill_scrape C raw query e) = Ok d /\
    trace (distill_scrape C raw query e)
    = [EvDistill (distill_prompt query (Py.slice_to 15000 raw))] /\
    store (env (distill_scrape C raw query e)) = store e.
Proof.
  unfold distill_scrape; step_monad.
  destruct (distiller_invoke _ _ C _ (world e)) as [[d|x] w]; simpl; eauto.
Qed.

Lemma retrieve_returns (query user : string) (k : nat) (e : Env World Store) :
  exists c,
    res (retrieve_relevant_context C query user k e) = Ok c /\
    trace (retrieve_relevant_context C query user k e) = [EvRetrieve query user] /\
    store (env (retrieve_relevant_context C query user k e)) = store e.
Proof.
  unfold retrieve_relevant_context; step_monad.
  destruct (asimilarity_search _ _ C query user k (world e)) as [[[|d ds]|x] w];
    simpl; eauto.
Qed.

Lemma dispatch_unrouted (query user : string) (tc : ToolCall)
    (result : option string) (e : Env World Store) :
  routed (tc_name tc) = false ->
  dispatch C query user tc result e = mkOut (Ok result) e [].
Proof.
  unfold routed, dispatch; intros H.
  repeat (apply orb_false_iff in H; destruct H as [H ?]).
  repeat match goal with Heq : String.eqb _ _ = false |- _ => rewrite Heq; clear Heq end.
  reflexivity.
Qed.

(** One turn of the loop of [call_tool]. *)
Lemma for_tool_calls_cons (query user : string) (tc : ToolCall)
    (rest : list ToolCall) (result : option string) (outs : list BaseMessage)
    (e : Env World Store) (r : string) :
  res (dispatch C query user tc result e) = Ok (Some r) ->
  let e1 := env (dispatch C query user tc result e) in
  let o := for_tool_calls C query user rest (Some r)
             (outs ++ [ToolMessage r (tc_id tc)])%list e1 in
  res (for_tool_calls C query user (tc :: rest) result outs e) = res o /\
  env (for_tool_calls C query user (tc :: rest) result outs e) = env o /\
  trace (for_tool_calls C query user (tc :: rest) result outs e)
  = (trace (dispatch C query user tc result e) ++ trace o)%list.
Proof.
  intros H; cbn [for_tool_calls].
  apply (bind_run _ (fun result0 =>
    match result0 with
    | Some r0 => for_tool_calls C query user rest (Some r0)
                   (outs ++ [ToolMessage r0 (tc_id tc)])%list
    | None => raise World Store (UnboundLocalError "result")
    end) e (Some r) H).
Qed.

(** C3. A request for a capability the dispatcher does not route, such as
    ["xyz"], coming first in the message, makes [call_tool] raise
    [UnboundLocalError] for its local [result]: no observation is appended
    and no capability is invoked. (The claim asks for an error observation
    naming the capability and a return to the reasoning step.) *)
Theorem C3_unknown_capability_raises (args : Args) (id query text user thread : string)
    (n : Z) (e : Env World Store) :
  let request := mkToolCall "xyz" args id in
  let state := mkAgentState [HumanMessage query; AIMessage text [request]] user thread n in
  res (call_tool C state e) = Raise (UnboundLocalError "result") /\
  trace (call_tool C state e) = [] /\
  res (super_step C executor state e) = Raise (UnboundLocalError "result").
Proof.
  intros request state; repeat split; reflexivity.
Qed.


(** What the dispatcher does with a capability that returned [raw]. *)
Lemma dispatch_returned (query user : string) (tc : ToolCall)
    (result : option string) (e : Env World Store) (raw : string) :
  raw_result C tc (world e) = Some raw ->
  let o := dispatch C query user tc result e in
  if distilled_capability (tc_name tc)
  then exists e1 d,
         res (distill_scrape C raw query e1) = Ok d /\
         res o = Ok (Some d) /\
         trace o = [EvCapability (tc_name tc) (tc_args tc);
                    EvDistill (distill_prompt query (Py.slice_to 15000 raw))]
  else res o = Ok (Some raw) /\
       trace o = [EvCapability (tc_name tc) (tc_args tc)].
Proof.
  unfold raw_result, distilled_capability, dispatch.
  destruct (String.eqb (tc_name tc) "scrape_site").
  { destruct (scrape_site _ _ C (tc_args tc) (world e)) as [[r|x] w] eqn:Hc;
      simpl; [|discriminate].
    intros H; injection H as ->.
    destruct (distill_scrape_returns raw query (mkEnv (store e) w)) as (d & Hd & Ht & _).
    exists (mkEnv (store e) w), d; split; [assumption|].
    step_monad; rewrite Hc; simpl.
    fold (distill_scrape C raw query (mkEnv (store e) w)).
    rewrite Hd, Ht; auto. }
  destruct (String.eqb (tc_name tc) "read_pdf_document").
  { destruct (read_pdf_document _ _ C (tc_args tc) (world e)) as [[r|x] w] eqn:Hc;
      simpl; [|discriminate].
    intros H; injection H as ->.
    destruct (distill_scrape_returns raw query (mkEnv (store e) w)) as (d & Hd & Ht & _).
    exists (mkEnv (store e) w), d; split; [assumption|].
    step_monad; rewrite Hc; simpl.
    fold (distill_scrape C raw query (mkEnv (store e) w)).
    rewrite Hd, Ht; auto. }
  simpl.
  destruct (String.eqb (tc_name tc) "web_search") eqn:Hw.
  { destruct (String.eqb (tc_name tc) "query_user_pdfs") eqn:Hq.
    { apply String.eqb_eq in Hw, Hq; rewrite Hw in Hq; discriminate. }
    destruct (web_search _ _ C (tc_args tc) (world e)) as [[r|x] w] eqn:Hc;
      simpl; [|discriminate].
    intros H; injection H as ->.
    step_monad; rewrite Hc; auto. }
  destruct (String.eqb (tc_name tc) "execute_python") eqn:Hp; [|discriminate].
  destruct (String.eqb (tc_name tc) "query_user_pdfs") eqn:Hq.
  { apply String.eqb_eq in Hp, Hq; rewrite Hp in Hq; discriminate. }
  destruct (execute_python _ _ C (tc_args tc) (world e)) as [[r|x] w] eqn:Hc;
    simpl; [|discriminate].
  intros H; injection H as ->.
  step_monad; rewrite Hc; auto.
Qed.



(** A routed request is answered when its invocation returns, and makes
    the dispatcher raise when its invocation raises. *)
Lemma dispatch_routed_cases (query user : string) (tc : ToolCall)
    (result : option string) (e : Env World Store) :
  routed (tc_name tc) = true ->
  if invocation_raises C tc (world e)
  then exists x, res (dispatch C query user tc result e) = Raise x
  else exists r, res (dispatch C query user tc result e) = Ok (Some r).
Proof.
  intros Hrouted.
  unfold routed in Hrouted; unfold invocation_raises, dispatch.
  destruct (String.eqb (tc_name tc) "scrape_site").
  { destruct (scrape_site _ _ C (tc_args tc) (world e)) as [[r1|x] w1] eqn:H1; simpl.
    - destruct (distill_scrape_returns r1 query (mkEnv (store e) w1)) as (d & Hd & _).
      exists d; step_monad; rewrite H1; simpl.
      fold (distill_scrape C r1 query (mkEnv (store e) w1)); rewrite Hd; reflexivity.
    - exists x; step_monad; rewrite H1; reflexivity. }
  destruct (String.eqb (tc_name tc) "read_pdf_document").
  { destruct (read_pdf_document _ _ C (tc_args tc) (world e)) as [[r2|x] w2] eqn:H2; simpl.
    - destruct (distill_scrape_returns r2 query (mkEnv (store e) w2)) as (d & Hd & _).
      exists d; step_monad; rewrite H2; simpl.
      fold (distill_scrape C r2 query (mkEnv (store e) w2)); rewrite Hd; reflexivity.
    - exists x; step_monad; rewrite H2; reflexivity. }
  destruct (String.eqb (tc_name tc) "query_user_pdfs") eqn:Hq.
  { assert (Hw : String.eqb (tc_name tc) "web_search" = false).
    { apply String.eqb_eq in Hq; rewrite Hq; reflexivity. }
    assert (Hp : String.eqb (tc_name tc) "execute_python" = false).
    { apply String.eqb_eq in Hq; rewrite Hq; reflexivity. }
    rewrite Hw, Hp.
    destruct (retrieve_returns (args_get (tc_args tc) "query" query) user 5 e)
      as (c & Hr & _).
    eexists; step_monad; rewrite Hr; reflexivity. }
  destruct (String.eqb (tc_name tc) "web_search").
  { destruct (web_search _ _ C (tc_args tc) (world e)) as [[r3|x] w3] eqn:H3; simpl.
    - exists r3; step_monad; rewrite H3; reflexivity.
    - exists x; step_monad; rewrite H3; reflexivity. }
  destruct (String.eqb (tc_name tc) "execute_python"); [|discriminate].
  destruct (execute_python _ _ C (tc_args tc) (world e)) as [[r4|x] w4] eqn:H4; simpl.
  - exists r4; step_monad; rewrite H4; reflexivity.
  - exists x; step_monad; rewrite H4; reflexivity.
Qed.



End Dispatcher.

(** ** The cache gate and the context *)

Section Gate.

Context {World Store : Type} (C : Collaborators World Store).

Lemma prune_first (h : list BaseMessage) (m0 : BaseMessage) :
  first_item h = Ok m0 ->
  exists view, prune h = Ok view /\ first_item view = Ok m0.
Proof.
  intros Hf; destruct (prune_ok h) as (view & Hp & Hshape).
  exists view; split; [assumption|].
  destruct (length h <=? 5)%nat.
  - subst view; assumption.
  - destruct Hshape as (_ & m & middle & last4 & -> & _ & ->).
    simpl in Hf; assumption.
Qed.

(** The planner sends the model a view that starts with the first message
    of the state. *)
Lemma call_model_view (s : AgentState) (m0 : BaseMessage) (e : Env World Store) :
  first_item (messages s) = Ok m0 ->
  exists view,
    trace (call_model C s e) = [EvReason (instruction :: view)] /\
    first_item view = Ok m0.
Proof.
  intros Hf; unfold call_model.
  set (s' := if 8 <? steps s then _ else s).
  assert (Hf' : first_item (messages s') = Ok m0).
  { subst s'; destruct (8 <? steps s); [|assumption].
    simpl; apply first_item_app; assumption. }
  destruct (prune_first _ _ Hf') as (view & Hp & Hv).
  exists view; split; [|assumption].
  pose proof (get_response_trace C _ _ e Hp) as Ht.
  unfold bind; destruct (res (get_response C (messages s') e)); simpl;
    rewrite Ht; reflexivity.
Qed.

(** Every node only appends to the messages. *)
Lemma super_step_appends (n : Node) (s s2 : AgentState) (value : Update)
    (next : option Node) (e : Env World Store) :
  res (super_step C n s e) = Ok (value, s2, next) ->
  exists added, messages s2 = (messages s ++ added)%list.
Proof.
  intros H; apply super_step_inv in H; destruct H as (s1 & Hrun & -> & _).
  destruct n; simpl in Hrun.
  - apply check_cache_steps in Hrun; destruct Hrun as [-> _].
    exists (upd_messages value); reflexivity.
  - unfold call_model in Hrun; bind_inv Hrun; injection Hrun as <- <-.
    destruct (8 <? steps s); simpl.
    + exists [warning; a]; rewrite <- app_assoc; reflexivity.
    + exists [a]; reflexivity.
  - apply call_tool_steps in Hrun; destruct Hrun as [-> _].
    exists (upd_messages value); reflexivity.
Qed.

Lemma runs_to_appends (n : Node) (s0 : AgentState) (e : Env World Store)
    (p x : nat) (next : option Node) (s : AgentState) (e' : Env World Store) :
  runs_to C n s0 e p x next s e' ->
  exists added, messages s = (messages s0 ++ added)%list.
Proof.
  induction 1 as [|p x n1 s1 e1 value s2 next R IH Hstep].
  - exists []; rewrite app_nil_r; reflexivity.
  - destruct IH as (a1 & Ha1).
    apply super_step_appends in Hstep; destruct Hstep as (a2 & Ha2).
    exists (a1 ++ a2)%list; rewrite Ha2, Ha1, app_assoc; reflexivity.
Qed.

Lemma anchor_first (history : list (string * string)) (query : string) :
  first_item (initial_messages history query) = Ok (anchor history query).
Proof.
  unfold initial_messages, anchor.
  destruct (history_messages history); reflexivity.
Qed.

(** The first message of the run's context is the first user or assistant
    message of the loaded thread history when there is one, and the user's
    query otherwise; everything the gate and the later nodes produce is
    appended after the query; this first message stays first throughout
    the run, and the view the planner sends to the reasoning model always
    starts with it. *)
Lemma first_message_kept (history : list (string * string))
    (query thread user : string) (e : Env World Store) (p x : nat)
    (next : option Node) (s : AgentState) (e' : Env World Store) :
  runs_to C memory_check (initial_state history query thread user) e p x next s e' ->
  (history_messages history = [] -> anchor history query = HumanMessage query) /\
  (exists added,
     messages s = (history_messages history ++ [HumanMessage query] ++ added)%list) /\
  first_item (messages s) = Ok (anchor history query) /\
  (exists view, prune (messages s) = Ok view /\
                first_item view = Ok (anchor history query)) /\
  (forall e1, exists view,
     trace (call_model C s e1) = [EvReason (instruction :: view)] /\
     first_item view = Ok (anchor history query)).
Proof.
  intros R.
  destruct (runs_to_appends _ _ _ _ _ _ _ _ R) as (added & Hadd).
  simpl in Hadd; unfold initial_messages in Hadd.
  assert (Hf : first_item (messages s) = Ok (anchor history query)).
  { rewrite Hadd; apply first_item_app, anchor_first. }
  split; [unfold anchor; intros ->; reflexivity|].
  split; [exists added; rewrite Hadd, <- app_assoc; reflexivity|].
  split; [assumption|].
  split; [apply prune_first; assumption|].
  intros e1; apply call_model_view; assumption.
Qed.

End Gate.

(** ** Writes to the report index *)

Section Archive.

Context {World Store : Type} (C : Collaborators World Store).

Lemma quiet_ret {A} (a : A) : quiet (ret World Store a).
Proof. intros e; auto. Qed.

Lemma quiet_raise {A} (x : exn) : quiet (@raise World Store A x).
Proof. intros e; auto. Qed.

Lemma quiet_lift {A} (r : Res A) : quiet (lift World Store r).
Proof. intros e; auto. Qed.

Lemma quiet_emit (ev : Event) : is_upsert ev = false -> quiet (emit World Store ev).
Proof. intros H e; simpl; rewrite H; auto. Qed.

Lemma quiet_call {A} (f : World -> Res A * World) : quiet (call World Store f).
Proof. intros e; unfold call; destruct (f (world e)); auto. Qed.

Lemma quiet_call_read {A} (f : Store -> World -> Res A * World) :
  quiet (call_read World Store f).
Proof. intros e; unfold call_read; destruct (f (store e) (world e)); auto. Qed.

Lemma quiet_bind {A B} (m : M World Store A) (k : A -> M World Store B) :
  quiet m -> (forall a, quiet (k a)) -> quiet (bind World Store m k).
Proof.
  intros Hm Hk e; unfold bind.
  destruct (Hm e) as [Hs Ht].
  destruct (res (m e)) as [a|x]; simpl; [|auto].
  destruct (Hk a (env (m e))) as [Hs' Ht'].
  rewrite existsb_app, Ht, Ht'; split; [congruence | reflexivity].
Qed.

Lemma quiet_try {A} (m : M World Store A) (h : exn -> M World Store A) :
  quiet m -> (forall x, quiet (h x)) -> quiet (try_except World Store m h).
Proof.
  intros Hm Hh e; unfold try_except.
  destruct (Hm e) as [Hs Ht].
  destruct (res (m e)) as [a|x]; simpl; [auto|].
  destruct (Hh x (env (m e))) as [Hs' Ht'].
  rewrite existsb_app, Ht, Ht'; split; [congruence | reflexivity].
Qed.

Ltac quiet_step :=
  first
    [ apply quiet_ret | apply quiet_raise | apply quiet_lift
    | apply quiet_call | apply quiet_call_read
    | apply quiet_emit; reflexivity
    | apply quiet_bind; [|intros]
    | apply quiet_try; [|intros]
    | match goal with
      | |- quiet (match ?x with _ => _ end) => destruct x
      end ].

Ltac quiet_all := repeat quiet_step.

Lemma quiet_get_response (h : list BaseMessage) : quiet (get_response C h).
Proof. unfold get_response; quiet_all. Qed.

Lemma quiet_distill_scrape (raw query : string) : quiet (distill_scrape C raw query).
Proof. unfold distill_scrape; quiet_all. Qed.

Lemma quiet_query_memory (query user : string) (t : float) :
  quiet (query_memory C query user t).
Proof. unfold query_memory; quiet_all. Qed.

Lemma quiet_retrieve (query user : string) (k : nat) :
  quiet (retrieve_relevant_context C query user k).
Proof. unfold retrieve_relevant_context; quiet_all. Qed.

Lemma quiet_load_conversation (thread user : string) :
  quiet (load_conversation C thread user).
Proof. unfold load_conversation; quiet_all. Qed.

Lemma quiet_save_conversation (thread user : string) (ms : list (string * string)) :
  quiet (save_conversation C thread user ms).
Proof. unfold save_conversation; quiet_all. Qed.

Lemma quiet_dispatch (query user : string) (tc : ToolCall) (result : option string) :
  quiet (dispatch C query user tc result).
Proof.
  unfold dispatch.
  repeat match goal with
         | |- quiet (if ?b then _ else _) => destruct b
         end;
    repeat first [ apply quiet_distill_scrape | apply quiet_retrieve | quiet_step ].
Qed.

Lemma quiet_for_tool_calls (query user : string) (tcs : list ToolCall) :
  forall result outs, quiet (for_tool_calls C query user tcs result outs).
Proof.
  induction tcs as [|tc rest IH]; intros result outs; cbn [for_tool_calls].
  - apply quiet_ret.
  - apply quiet_bind; [apply quiet_dispatch|].
    intros [r|]; [apply IH | apply quiet_raise].
Qed.

Lemma quiet_run_node (n : Node) (s : AgentState) : quiet (run_node C n s).
Proof.
  destruct n; simpl.
  - unfold check_cache;
      repeat first [ apply quiet_query_memory | apply quiet_retrieve | quiet_step ].
  - unfold call_model; repeat first [ apply quiet_get_response | quiet_step ].
  - unfold call_tool; repeat first [ apply quiet_for_tool_calls | quiet_step ].
Qed.

Lemma quiet_super_step (n : Node) (s : AgentState) : quiet (super_step C n s).
Proof.
  unfold super_step; repeat first [ apply quiet_run_node | quiet_step ].
Qed.

Lemma quiet_astream (limit : nat) :
  forall n s, quiet (astream C limit n s).
Proof.
  induction limit as [|limit IH]; intros n s; cbn [astream].
  - apply quiet_raise.
  - apply quiet_bind; [apply quiet_super_step|].
    intros [[value s'] [n'|]];
      [|destruct limit; [apply quiet_raise | apply quiet_ret]].
    apply quiet_bind; [apply IH | intros; apply quiet_ret].
Qed.

Lemma quiet_research (limit : nat) (query thread user : string) :
  quiet (research C limit query thread user).
Proof.
  unfold research;
    repeat first [ apply quiet_load_conversation | apply quiet_astream | quiet_step ].
Qed.

Ltac step_monad :=
  unfold bind, ret, raise, lift, emit, call, call_read, call_write, try_except;
  simpl.

Lemma truthy_nonempty (text : string) :
  Py.truthy text = true <-> text <> EmptyString.
Proof. destruct text; simpl; split; congruence. Qed.

(** The post-processing of [run]: the only upsert it can make is the one
    of the final message, which it makes when the message is not empty
    and does not carry the marker. *)
Lemma archive_spec (query thread user : string) (initial : list BaseMessage)
    (final_msg : string) (e : Env World Store) :
  let o := archive C query thread user initial final_msg e in
  (forall ev, In ev (trace o) -> is_upsert ev = true ->
     ev = EvUpsert query final_msg user /\
     Py.truthy final_msg = true /\ Py.contains FROM_MEMORY final_msg = false) /\
  (res o = Ok tt -> Py.truthy final_msg = true ->
   Py.contains FROM_MEMORY final_msg = false ->
   In (EvUpsert query final_msg user) (trace o)) /\
  (existsb is_upsert (trace o) = false -> store (env o) = store e).
Proof.
  unfold archive.
  destruct (Py.truthy final_msg) eqn:Ht; cycle 1.
  { simpl; split; [intros ev []|split; [discriminate | reflexivity]]. }
  destruct (Py.contains FROM_MEMORY final_msg) eqn:Hc; cbn [negb].
  - unfold save_conversation; step_monad.
    destruct (update_conversation _ _ C thread user _ (world e)) as [[[]|x] w]; simpl;
      (split; [intros ev [<-|[]]; discriminate
              |split; [discriminate | reflexivity]]).
  - unfold save_to_memory, save_conversation; step_monad.
    destruct (embed_query _ _ C query (world e)) as [[v|x] w]; simpl.
    + destruct (index_upsert _ _ C _ v _ _ (store e) w) as [[[]|x] [st w']]; simpl.
      * destruct (update_conversation _ _ C thread user _ w') as [[[]|x] w'']; simpl;
          (split; [intros ev [<-|[<-|[]]]; [auto | discriminate]
                  |split; [auto | discriminate]]).
      * split; [intros ev [<-|[]]; auto | split; [auto | discriminate]].
    + split; [intros ev [] | split; [discriminate | reflexivity]].
Qed.

(** What the post-processing of [run] does to the report index when it
    returns: for a final message that is not empty and does not carry the
    marker, the index is the one that the upsert of the message under the
    query left; otherwise it is untouched. *)
Lemma archive_store (query thread user : string) (initial : list BaseMessage)
    (final_msg : string) (e : Env World Store) :
  let o := archive C query thread user initial final_msg e in
  res o = Ok tt ->
  if Py.truthy final_msg && negb (Py.contains FROM_MEMORY final_msg)
  then exists vector w1 w2,
         embed_query _ _ C query (world e) = (Ok vector, w1) /\
         index_upsert _ _ C (user ++ "_" ++ md5_hexdigest _ _ C (user ++ "_" ++ query))
           vector
           (mkMetadata (Py.slice_to 50000 final_msg) (Py.slice_to 1000 query) user)
           ("reports_" ++ user) (store e) w1
         = (Ok tt, (store (env o), w2))
  else store (env o) = store e.
Proof.
  unfold archive.
  destruct (Py.truthy final_msg) eqn:Ht; cycle 1.
  { simpl; reflexivity. }
  destruct (Py.contains FROM_MEMORY final_msg) eqn:Hc; cbn [negb andb].
  - unfold save_conversation; step_monad.
    destruct (update_conversation _ _ C thread user _ (world e)) as [[[]|x] w]; reflexivity.
  - unfold save_to_memory, save_conversation; step_monad.
    destruct (embed_query _ _ C query (world e)) as [[v|x] w]; simpl; [|discriminate].
    destruct (index_upsert _ _ C _ v _ _ (store e) w) as [[[]|x] [st w']] eqn:Hup; simpl;
      [|discriminate].
    intros _; exists v, w, w'; split; [reflexivity|].
    destruct (update_conversation _ _ C thread user _ w') as [[[]|x] w'']; simpl;
      exact Hup.
Qed.

Lemma super_step_trace (n : Node) (s : AgentState) (e : Env World Store) :
  exists t, trace (super_step C n s e) = EvNode n :: t.
Proof.
  unfold super_step.
  set (k := fun _ : unit => _).
  destruct (bind_run (emit World Store (EvNode n)) k e tt eq_refl) as (_ & _ & Ht).
  rewrite Ht; simpl; eauto.
Qed.

Lemma astream_trace (limit : nat) (n : Node) (s : AgentState)
    (e : Env World Store) (r : list (Node * Update) * AgentState) :
  res (astream C limit n s e) = Ok r ->
  exists t, trace (astream C limit n s e) = EvNode n :: t.
Proof.
  destruct limit as [|limit]; [simpl; discriminate|].
  cbn [astream]; intros H.
  set (k := fun r : Update * AgentState * option Node => _) in *.
  apply bind_ok in H; destruct H as (a & Ha & _).
  destruct (bind_run _ k e _ Ha) as (_ & _ & Ht).
  destruct (super_step_trace n s e) as (t & Hs).
  rewrite Ht, Hs; simpl; eauto.
Qed.

Lemma check_cache_inv (s s1 : AgentState) (u : Update) (e : Env World Store) :
  res (check_cache C s e) = Ok (s1, u) ->
  s1 = s /\ exists cached pdf, u = mkUpdate (context_messages cached pdf) None.
Proof.
  unfold check_cache; intros H; do 3 bind_inv H.
  injection H as <- <-; eauto.
Qed.

(** A gate that answers [known] has just appended the cached report, and
    nothing after it. *)
Lemma known_is_cached (front : list BaseMessage) (query user thread : string)
    (n : Z) (cached pdf : option string) :
  is_it_known
    (apply_update (mkAgentState (front ++ [HumanMessage query]) user thread n)
                  (mkUpdate (context_messages cached pdf) None)) = known ->
  exists r, context_messages cached pdf = [memory_message r].
Proof.
  unfold is_it_known, apply_update, context_messages; simpl.
  set (mem := match cached with
              | Some r => if Py.truthy r then [memory_message r] else []
              | None => []
              end).
  set (doc := match pdf with
              | Some c => if Py.truthy c && Py.strip_truthy c
                          then [documents_message c] else []
              | None => []
              end).
  assert (Hdoc : doc = [] \/ exists c, doc = [documents_message c]).
  { subst doc; destruct pdf as [c|]; [|auto].
    destruct (Py.truthy c && Py.strip_truthy c); eauto. }
  assert (Hmem : mem = [] \/ exists r, mem = [memory_message r]).
  { subst mem; destruct cached as [r|]; [|auto].
    destruct (Py.truthy r); eauto. }
  destruct Hdoc as [->|(c & ->)].
  - rewrite app_nil_r.
    destruct Hmem as [->|(r & ->)]; [|eauto].
    rewrite app_nil_r, last_item_app; discriminate.
  - rewrite app_assoc, last_item_app; discriminate.
Qed.

Lemma memory_message_marked (r : string) :
  Py.contains FROM_MEMORY (content (memory_message r)) = true.
Proof. reflexivity. Qed.

(** A stream that ends without entering the planner ended at the gate,
    on a cache hit: its final message carries the marker. *)
Lemma astream_gate_done (limit : nat) (history : list (string * string))
    (query thread user : string) (e : Env World Store)
    (outs : list (Node * Update)) (s' : AgentState) :
  let o := astream C limit memory_check (initial_state history query thread user) e in
  res o = Ok (outs, s') ->
  existsb (enters planner) (trace o) = false ->
  Py.contains FROM_MEMORY (fold_left observe outs EmptyString) = true.
Proof.
  intros o; subst o.
  destruct limit as [|limit]; [simpl; discriminate|].
  cbn [astream]; intros Hres Hquiet.
  set (s0 := initial_state history query thread user) in *.
  set (k := fun r : Update * AgentState * option Node => _) in *.
  pose proof Hres as Hres'.
  apply bind_ok in Hres'; destruct Hres' as ([[value s1] next] & Hstep & Hk).
  destruct (bind_run _ k e _ Hstep) as (_ & _ & Htr).
  rewrite Htr, existsb_app in Hquiet; apply orb_false_iff in Hquiet.
  destruct Hquiet as [_ Hquiet].
  apply super_step_inv in Hstep; destruct Hstep as (s1' & Hrun & -> & Hroute).
  simpl in Hrun; apply check_cache_inv in Hrun.
  destruct Hrun as (-> & cached & pdf & ->).
  subst k; cbv beta iota in Hk, Hquiet.
  simpl route in Hroute.
  destruct (is_it_known _) eqn:Hknown; injection Hroute as <-.
  - destruct limit; [discriminate Hk|].
    simpl in Hk; injection Hk as <- <-.
    apply known_is_cached in Hknown; destruct Hknown as (r & Hctx).
    simpl; rewrite Hctx; apply memory_message_marked.
  - exfalso.
    set (e1 := env _) in *.
    set (s1 := apply_update _ _) in *.
    set (k2 := fun rest : list (Node * Update) * AgentState => _) in *.
    pose proof Hk as Hk'.
    apply bind_ok in Hk'; destruct Hk' as (b & Hb & _).
    destruct (bind_run _ k2 e1 _ Hb) as (_ & _ & Htr2).
    destruct (astream_trace _ _ _ _ _ Hb) as (t & Ht).
    rewrite Htr2, Ht in Hquiet; discriminate.
Qed.

(** The stream inside [research]. *)
Lemma research_inv (limit : nat) (query thread user : string) (e : Env World Store)
    (initial : list BaseMessage) (existing : list string) (final_msg : string) :
  res (research C limit query thread user e) = Ok (initial, existing, final_msg) ->
  exists history e2 outs s',
    res (astream C limit memory_check (initial_state history query thread user) e2)
    = Ok (outs, s') /\
    final_msg = fold_left observe outs EmptyString /\
    forall P,
      existsb P (trace (research C limit query thread user e)) = false ->
      existsb P (trace (astream C limit memory_check
                          (initial_state history query thread user) e2)) = false.
Proof.
  unfold research; intros H.
  set (k1 := fun history : list (string * string) => _) in *.
  pose proof H as H1; apply bind_ok in H1; destruct H1 as (history & Hload & H1).
  destruct (bind_run _ k1 e _ Hload) as (_ & _ & Ht1).
  subst k1; cbv beta in H1, Ht1.
  set (e1 := env (load_conversation C thread user e)) in *.
  set (k2 := fun existing_files : list string => _) in *.
  pose proof H1 as H2; apply bind_ok in H2; destruct H2 as (ex & Hglob & H2).
  destruct (bind_run _ k2 e1 _ Hglob) as (_ & _ & Ht2).
  subst k2; cbv beta in H2, Ht2.
  set (e2 := env (call World Store _ e1)) in *.
  set (k3 := fun outputs : list (Node * Update) * AgentState => _) in *.
  pose proof H2 as H3; apply bind_ok in H3; destruct H3 as ([outs s'] & Hstream & H3).
  destruct (bind_run _ k3 e2 _ Hstream) as (_ & _ & Ht3).
  subst k3; simpl in H3; injection H3 as _ _ <-.
  exists history, e2, outs, s'; split; [assumption|]; split; [reflexivity|].
  intros P HP.
  rewrite Ht1, Ht2, Ht3, !existsb_app in HP.
  repeat (apply orb_false_iff in HP; destruct HP as [? HP]).
  match goal with Hq : existsb P (trace (astream _ _ _ _ _)) = false |- _ => exact Hq end.
Qed.

(** The two phases of [run_with_limit]. *)
Lemma run_with_limit_inv (limit : nat) (query thread user : string)
    (e : Env World Store) (result : RunResult)
    (initial : list BaseMessage) (existing : list string) (final_msg : string) :
  res (run_with_limit C limit query thread user e) = Ok result ->
  res (research C limit query thread user e) = Ok (initial, existing, final_msg) ->
  exists e2,
    store e2 = store (env (research C limit query thread user e)) /\
    res (archive C query thread user initial final_msg e2) = Ok tt /\
    answer result = (if Py.truthy final_msg then final_msg else apology) /\
    trace (run_with_limit C limit query thread user e)
    = (trace (research C limit query thread user e)
       ++ trace (archive C query thread user initial final_msg e2))%list /\
    env (run_with_limit C limit query thread user e)
    = env (archive C query thread user initial final_msg e2).
Proof.
  unfold run_with_limit; intros H Hres.
  set (k := fun r : list BaseMessage * list string * string => _) in *.
  destruct (bind_run _ k e _ Hres) as (Hr & He & Ht).
  rewrite He, Ht; rewrite Hr in H; clear Hr He Ht.
  subst k; cbv beta iota in *.
  set (e1 := env (research C limit query thread user e)) in *.
  set (k2 := fun all_png_files : list string => _) in *.
  pose proof H as H2; apply bind_ok in H2; destruct H2 as (png & Hglob & H2).
  destruct (bind_run _ k2 e1 _ Hglob) as (_ & He2 & Ht2).
  rewrite He2, Ht2; clear He2 Ht2 H.
  subst k2; cbv beta in *.
  set (e2 := env (call World Store _ e1)) in *.
  set (k3 := fun _ : unit => _) in *.
  pose proof H2 as H3; apply bind_ok in H3; destruct H3 as ([] & Harch & H3).
  destruct (bind_run _ k3 e2 _ Harch) as (_ & He3 & Ht3).
  rewrite He3, Ht3; clear He3 Ht3 H2.
  subst k3; simpl in H3 |- *; injection H3 as <-.
  exists e2; rewrite app_nil_r; repeat split; assumption.
Qed.

(** C10. In a run that returns, the report index is written exactly when
    the final message is not empty and does not contain ["[FROM MEMORY]"]:
    the index the run leaves is then the one that a single upsert left,
    made on the index the run started from, of the final message (its
    first 50000 characters) under the query, in the user's report
    namespace, with the embedding of the query; otherwise the index is as
    the run found it. The trace agrees: its only upsert is the one of the
    final message under the query, made in that case and in no other. A
    run that ended at the gate without entering the planner (an answer from
    the cache) has a final message that carries the marker. *)
Theorem C10_only_fresh_answers_archived (limit : nat) (query thread user : string)
    (e : Env World Store) (result : RunResult) :
  let o := run_with_limit C limit query thread user e in
  res o = Ok result ->
  exists initial existing final_msg,
    res (research C limit query thread user e) = Ok (initial, existing, final_msg) /\
    answer result = (if Py.truthy final_msg then final_msg else apology) /\
    (if Py.truthy final_msg && negb (Py.contains FROM_MEMORY final_msg)
     then exists w0 vector w1 w2,
            embed_query _ _ C query w0 = (Ok vector, w1) /\
            index_upsert _ _ C (user ++ "_" ++ md5_hexdigest _ _ C (user ++ "_" ++ query))
              vector
              (mkMetadata (Py.slice_to 50000 final_msg) (Py.slice_to 1000 query) user)
              ("reports_" ++ user) (store e) w1
            = (Ok tt, (store (env o), w2))
     else store (env o) = store e) /\
    (In (EvUpsert query final_msg user) (trace o) <->
     final_msg <> EmptyString /\ Py.contains FROM_MEMORY final_msg = false) /\
    (forall ev, In ev (trace o) -> is_upsert ev = true ->
                ev = EvUpsert query final_msg user) /\
    (Py.contains FROM_MEMORY final_msg = true ->
     existsb is_upsert (trace o) = false /\ store (env o) = store e) /\
    (existsb (enters planner) (trace o) = false ->
     Py.contains FROM_MEMORY final_msg = true).
Proof.
  intros o H; subst o.
  assert (Hres : exists r, res (research C limit query thread user e) = Ok r).
  { unfold run_with_limit in H; apply bind_ok in H.
    destruct H as (r & Hr & _); eauto. }
  destruct Hres as ([[initial existing] final_msg] & Hres).
  destruct (run_with_limit_inv _ _ _ _ _ _ _ _ _ H Hres)
    as (e2 & Hstore2 & Harch & Hans & Ht & He).
  destruct (quiet_research limit query thread user e) as (Hstore & Hquiet).
  destruct (archive_spec query thread user initial final_msg e2)
    as (Honly & Hdoes & Hframe).
  pose proof (archive_store query thread user initial final_msg e2 Harch) as Hwrite.
  cbv zeta in Honly, Hdoes, Hframe, Hwrite.
  assert (Hin : forall ev, In ev (trace (research C limit query thread user e)) ->
                           is_upsert ev = true -> False).
  { intros ev Hev Hup.
    assert (existsb is_upsert (trace (research C limit query thread user e)) = true)
      by (apply existsb_exists; eauto).
    congruence. }
  exists initial, existing, final_msg.
  split; [assumption|]; split; [assumption|].
  rewrite Ht, He.
  split; [|split; [|split; [|split]]].
  - rewrite Hstore2, Hstore in Hwrite.
    destruct (Py.truthy final_msg && negb (Py.contains FROM_MEMORY final_msg));
      [|assumption].
    destruct Hwrite as (vector & w1 & w2 & Hembed & Hup).
    exists (world e2), vector, w1, w2; auto.
  - split.
    + intros Hev; apply in_app_or in Hev; destruct Hev as [Hev|Hev].
      * elim (Hin _ Hev eq_refl).
      * destruct (Honly _ Hev eq_refl) as (_ & Htr & Hc).
        split; [apply truthy_nonempty; assumption | assumption].
    + intros [Hne Hc]; apply in_or_app; right.
      apply Hdoes; [assumption | apply truthy_nonempty; assumption | assumption].
  - intros ev Hev Hup; apply in_app_or in Hev; destruct Hev as [Hev|Hev].
    + elim (Hin _ Hev Hup).
    + apply (Honly _ Hev Hup).
  - intros Hc.
    assert (Hno : existsb is_upsert
                    (trace (archive C query thread user initial final_msg e2)) = false).
    { destruct (existsb is_upsert
                  (trace (archive C query thread user initial final_msg e2))) eqn:Hex;
        [|reflexivity].
      apply existsb_exists in Hex; destruct Hex as (ev & Hev & Hup).
      destruct (Honly _ Hev Hup) as (_ & _ & Hc'); congruence. }
    split; [rewrite existsb_app, Hquiet, Hno; reflexivity|].
    rewrite (Hframe Hno), Hstore2; assumption.
  - intros Hp; rewrite existsb_app in Hp; apply orb_false_iff in Hp.
    destruct Hp as [Hp _].
    destruct (research_inv _ _ _ _ _ _ _ _ Hres)
      as (history & e0 & outs & s' & Hstream & -> & Hsub).
    eapply astream_gate_done; [exact Hstream | apply Hsub; assumption].
Qed.

End Archive.

(** ** Streams are executions *)

Section Streams.

Context {World Store : Type} (C : Collaborators World Store).

Lemma runs_to_prepend (n : Node) (s : AgentState) (e : Env World Store)
    (value : Update) (s1 : AgentState) (n1 : Node)
    (p x : nat) (next : option Node) (s' : AgentState) (e' : Env World Store) :
  res (super_step C n s e) = Ok (value, s1, Some n1) ->
  runs_to C n1 s1 (env (super_step C n s e)) p x next s' e' ->
  runs_to C n s e (is_planner n + p) (is_executor n + x) next s' e'.
Proof.
  intros Hstep R; induction R as [|p x n2 s2 e2 value2 s3 next R IH Hstep2].
  - replace (is_planner n + 0)%nat with (0 + is_planner n)%nat by lia.
    replace (is_executor n + 0)%nat with (0 + is_executor n)%nat by lia.
    eapply runs_step; [apply runs_here | eassumption].
  - replace (is_planner n + (p + is_planner n2))%nat
      with (is_planner n + p + is_planner n2)%nat by lia.
    replace (is_executor n + (x + is_executor n2))%nat
      with (is_executor n + x + is_executor n2)%nat by lia.
    eapply runs_step; eassumption.
Qed.

(** A stream that returns is an execution that reached END, with one
    planner super-step for each planner update it yielded. *)
Lemma astream_runs_to (limit : nat) :
  forall n s e outs s',
    res (astream C limit n s e) = Ok (outs, s') ->
    exists x,
      runs_to C n s e (planner_runs outs) x None s' (env (astream C limit n s e)).
Proof.
  induction limit as [|limit IH]; intros n s e outs s'; [simpl; discriminate|].
  cbn [astream]; intros H.
  set (k := fun r : Update * AgentState * option Node => _) in *.
  pose proof H as H1; apply bind_ok in H1.
  destruct H1 as ([[value s1] next] & Hstep & Hk).
  destruct (bind_run _ k e _ Hstep) as (_ & He & _).
  rewrite He; clear He H; subst k; cbv beta iota in *.
  destruct next as [n1|].
  - set (e1 := env (super_step C n s e)) in *.
    set (k2 := fun rest : list (Node * Update) * AgentState => _) in *.
    pose proof Hk as H2; apply bind_ok in H2; destruct H2 as ([outs1 s2] & Hrest & H2).
    destruct (bind_run _ k2 e1 _ Hrest) as (_ & He2 & _).
    rewrite He2; clear He2; subst k2; simpl in H2 |- *.
    injection H2 as <- <-.
    destruct (IH _ _ _ _ _ Hrest) as (x & R).
    exists (is_executor n + x)%nat.
    change (planner_runs ((n, value) :: outs1))
      with (is_planner n + planner_runs outs1)%nat.
    eapply runs_to_prepend; eassumption.
  - destruct limit; [discriminate Hk|].
    simpl in Hk |- *; injection Hk as <- <-.
    exists (0 + is_executor n)%nat.
    change (planner_runs [(n, value)]) with (is_planner n + 0)%nat.
    replace (is_planner n + 0)%nat with (0 + is_planner n)%nat by lia.
    eapply runs_step; [apply runs_here | eassumption].
Qed.

(** The counter at the end of a stream that returns. *)
Lemma astream_budget (limit : nat) (history : list (string * string))
    (query thread user : string) (e : Env World Store)
    (outs : list (Node * Update)) (s' : AgentState) :
  res (astream C limit memory_check (initial_state history query thread user) e)
  = Ok (outs, s') ->
  steps s' = Z.of_nat (planner_runs outs).
Proof.
  intros H; destruct (astream_runs_to _ _ _ _ _ _ H) as (x & R).
  destruct (budget_invariant C _ _ _ _ _ _ _ R eq_refl) as (Hp & _); assumption.
Qed.

(** The gate as designed: a cached report and no document context end
    the run at the gate, with the cached report as the only update. *)
Lemma gate_hit_alone (s : AgentState) (m0 : BaseMessage) (r : string)
    (e : Env World Store) :
  first_item (messages s) = Ok m0 ->
  res (query_memory C (content m0) (user_id s) threshold e) = Ok (Some r) ->
  Py.truthy r = true ->
  res (retrieve_relevant_context C (content m0) (user_id s) 5
         (env (query_memory C (content m0) (user_id s) threshold e))) = Ok None ->
  res (super_step C memory_check s e)
  = Ok (mkUpdate [memory_message r] None,
        apply_update s (mkUpdate [memory_message r] None),
        None).
Proof.
  intros Hf Hq Hr Hd.
  assert (Hcheck : res (check_cache C s e) = Ok (s, mkUpdate [memory_message r] None)).
  { unfold check_cache.
    set (k1 := fun m : BaseMessage => _).
    destruct (bind_run (lift World Store (first_item (messages s))) k1 e m0 Hf)
      as (-> & _ & _).
    subst k1; cbv beta.
    change (env (lift World Store (first_item (messages s)) e)) with e.
    set (k2 := fun cached_report : option string => _).
    destruct (bind_run _ k2 _ _ Hq) as (-> & _ & _).
    subst k2; cbv beta.
    set (k3 := fun pdf_context : option string => _).
    destruct (bind_run _ k3 _ _ Hd) as (-> & _ & _).
    subst k3; unfold ret, context_messages; cbn [res]; rewrite Hr; reflexivity. }
  unfold super_step.
  set (k := fun _ : unit => _).
  destruct (bind_run (emit World Store (EvNode memory_check)) k e tt eq_refl)
    as (-> & _ & _).
  subst k; cbv beta.
  change (env (emit World Store (EvNode memory_check) e)) with e.
  set (k' := fun r0 : AgentState * Update => _).
  destruct (bind_run (run_node C memory_check s) k' _ _ Hcheck) as (-> & _ & _).
  subst k'; simpl.
  unfold is_it_known, apply_update; simpl.
  rewrite last_item_app; reflexivity.
Qed.

End Streams.

(** * Scenarios *)

(** C1. A cache hit above the threshold together with retrieved document
    context: the gate appends the document message after the cached
    answer, [is_it_known] looks at the last message only and answers
    [unknown], and the run enters the planner and the executor, dispatches
    capabilities and answers with fresh text. (The claim asks for
    termination at the gate with the cached text.) *)
Theorem C1_cache_hit_with_documents_reaches_planner :
  let S := scripted search_then_answer ["doc"] true true in
  let state := initial_state [] "q" "t" "u" in
  let o := run S "q" "t" "u" (env0 [hit]) in
  PrimFloat.leb threshold (score hit) = true /\
  res (query_memory S "q" "u" threshold (env0 [hit])) = Ok (Some "Cached report") /\
  (exists value state',
     res (super_step S memory_check state (env0 [hit])) = Ok (value, state', Some planner) /\
     upd_messages value = [memory_message "Cached report"; documents_message "doc"]) /\
  res o = Ok (mkRunResult "Final report" []) /\
  existsb (enters planner) (trace o) = true /\
  existsb (enters executor) (trace o) = true /\
  existsb is_capability (trace o) = true.
Proof.
  repeat split; try (vm_compute; reflexivity).
  eexists _, _; split; vm_compute; reflexivity.
Qed.

(** C7. When the similarity-cache lookup raises (here the embedding call
    of [query_memory]), [check_cache] raises too and the run ends with the
    exception before the planner is entered; the document retrieval, by
    contrast, catches its failures. (The claim asks that both lookups
    degrade to no context.) *)
Theorem C7_cache_lookup_failure_aborts :
  let S := scripted answer_at_once [] false true in
  let o := run S "q" "t" "u" (env0 []) in
  res (query_memory S "q" "u" threshold (env0 []))
  = Raise (ServiceError "embedding service unavailable") /\
  res (check_cache S (initial_state [] "q" "t" "u") (env0 []))
  = Raise (ServiceError "embedding service unavailable") /\
  res o = Raise (ServiceError "embedding service unavailable") /\
  existsb (enters planner) (trace o) = false.
Proof. repeat split; vm_compute; reflexivity. Qed.

(** With a recursion limit that leaves room for it, a model that keeps
    asking for a search is stopped by the hard cap: twelve planner
    super-steps, the counter at 12, END although the last message carries a
    tool call. Under the limit of 20 that [run] sets, the stream raises
    before the counter gets there. *)
Example hard_cap_reached :
  let S := scripted always_search [] true true in
  let o := astream S 40 memory_check (initial_state [] "q" "t" "u") (env0 []) in
  (exists outs s', res o = Ok (outs, s') /\
                   planner_runs outs = 12%nat /\ steps s' = 12 /\
                   (exists m, last_item (messages s') = Ok m /\ has_tool_calls m = true)) /\
  res (run S "q" "t" "u" (env0 []))
  = Raise (GraphRecursionError (recursion_error_text _ _ S)).
Proof.
  split; [|vm_compute; reflexivity].
  eexists _, _; split; [vm_compute; reflexivity|].
  split; [vm_compute; reflexivity|]; split; [vm_compute; reflexivity|].
  eexists; split; vm_compute; reflexivity.
Qed.

(** An unrouted name after a routed one: the request is answered with the
    result of the request before it, and the name appears nowhere. *)
Example unknown_capability_reuses_result :
  let S := scripted ask_xyz [] true true in
  res (call_tool S (asked [search_call; mkToolCall "xyz" [] "call_9"]) (env0 []))
  = Ok (asked [search_call; mkToolCall "xyz" [] "call_9"],
        mkUpdate [ToolMessage "page" "call_1"; ToolMessage "page" "call_9"] None).
Proof. vm_compute; reflexivity. Qed.

(** C2, on a run: memory check, planner, executor, planner. *)
Lemma C2_step_budget_witness :
  let S := scripted search_then_answer [] true true in
  exists x s e',
    runs_to S memory_check (initial_state [] "q" "t" "u") (env0 []) 2 x None s e' /\
    (steps (initial_state [] "q" "t" "u") = 0 /\
     steps s = Z.of_nat 2 /\
     steps s <= 12 /\
     (12 <= steps s -> @None Node = None) /\
     (forall st m, last_item (messages st) = Ok m -> 12 <= steps st ->
                   should_continue st = Ok finish)).
Proof.
  intros S.
  destruct (astream_runs_to S 20 memory_check (initial_state [] "q" "t" "u") (env0 [])
              _ _ ltac:(vm_compute; reflexivity)) as (x & R).
  eexists x, _, _; split; [exact R|].
  exact (C2_step_budget S [] "q" "t" "u" (env0 []) 2 x None _ _ R).
Defined.



(** C6. In a thread that holds an earlier exchange, the first message of
    the run's context is the oldest message of the thread: not the query
    of the run, and not a message of the gate. [check_cache] and
    [call_tool] take the content of message 0 for the query, so the cache
    lookup, the document retrieval and the topic of the distillation are
    those of the old question, while the answer is archived under the new
    one. (The claim asks for the query of the run, or a gate message put
    before it, as the first message.) *)
Theorem C6_history_displaces_query :
  let S := in_thread old_thread (scripted search_then_answer [] true true) in
  let state := initial_state old_thread "new question" "t" "u" in
  let o := run S "new question" "t" "u" (env0 []) in
  first_item (messages state) = Ok (HumanMessage "old question") /\
  ~ query_or_gate_message "new question" (HumanMessage "old question") /\
  trace (check_cache S state (env0 []))
  = [EvCacheQuery "old question" "u"; EvRetrieve "old question" "u"] /\
  res o = Ok (mkRunResult "Final report" []) /\
  filter is_lookup (trace o)
  = [EvCacheQuery "old question" "u"; EvRetrieve "old question" "u"] /\
  filter is_distill (trace o) = [EvDistill (distill_prompt "old question" "page")] /\
  filter is_upsert (trace o) = [EvUpsert "new question" "Final report" "u"].
Proof.
  split; [reflexivity|]; split.
  { intros [Hq|[(r & Hq)|(c & Hq)]]; discriminate. }
  repeat split; vm_compute; reflexivity.
Qed.

(** The first message on a run in a thread with history. *)
Lemma first_message_kept_witness :
  let S := scripted search_then_answer ["doc"] true true in
  exists p x s e',
    runs_to S memory_check (initial_state old_thread "new question" "t" "u") (env0 [])
      p x None s e' /\
    anchor old_thread "new question" = HumanMessage "old question" /\
    (history_messages old_thread = [] ->
     anchor old_thread "new question" = HumanMessage "new question") /\
    (exists added,
       messages s
       = (history_messages old_thread ++ [HumanMessage "new question"] ++ added)%list) /\
    first_item (messages s) = Ok (anchor old_thread "new question") /\
    (exists view, prune (messages s) = Ok view /\
                  first_item view = Ok (anchor old_thread "new question")) /\
    (forall e1, exists view,
       trace (call_model S s e1) = [EvReason (instruction :: view)] /\
       first_item view = Ok (anchor old_thread "new question")).
Proof.
  intros S.
  destruct (astream_runs_to S 20 memory_check
              (initial_state old_thread "new question" "t" "u") (env0 [])
              _ _ ltac:(vm_compute; reflexivity)) as (x & R).
  eexists _, x, _, _; split; [exact R|]; split; [reflexivity|].
  exact (first_message_kept S old_thread "new question" "t" "u"
           (env0 []) _ x None _ _ R).
Defined.



(** C10, on a run with a fresh answer: the index ends with the answer in
    it. *)
Lemma C10_only_fresh_answers_archived_witness :
  let S := scripted answer_at_once [] true true in
  let o := run_with_limit S 20 "q" "t" "u" (env0 []) in
  exists result,
    res o = Ok result /\
    store (env o) = [mkMatch 1%float "Fresh answer"] /\
    exists initial existing final_msg,
      res (research S 20 "q" "t" "u" (env0 [])) = Ok (initial, existing, final_msg) /\
      answer result = (if Py.truthy final_msg then final_msg else apology) /\
      (if Py.truthy final_msg && negb (Py.contains FROM_MEMORY final_msg)
       then exists w0 vector w1 w2,
              embed_query _ _ S "q" w0 = (Ok vector, w1) /\
              index_upsert _ _ S ("u" ++ "_" ++ md5_hexdigest _ _ S ("u" ++ "_" ++ "q"))
                vector
                (mkMetadata (Py.slice_to 50000 final_msg) (Py.slice_to 1000 "q") "u")
                ("reports_" ++ "u") (store (env0 [])) w1
              = (Ok tt, (store (env o), w2))
       else store (env o) = store (env0 [])) /\
      (In (EvUpsert "q" final_msg "u") (trace o) <->
       final_msg <> EmptyString /\ Py.contains FROM_MEMORY final_msg = false) /\
      (forall ev, In ev (trace o) -> is_upsert ev = true ->
                  ev = EvUpsert "q" final_msg "u") /\
      (Py.contains FROM_MEMORY final_msg = true ->
       existsb is_upsert (trace o) = false /\ store (env o) = store (env0 [])) /\
      (existsb (enters planner) (trace o) = false ->
       Py.contains FROM_MEMORY final_msg = true).
Proof.
  intros S o.
  assert (H : exists result, res o = Ok result)
    by (eexists; vm_compute; reflexivity).
  destruct H as (result & H).
  exists result; split; [exact H|]; split; [vm_compute; reflexivity|].
  exact (C10_only_fresh_answers_archived S 20 "q" "t" "u" (env0 []) result H).
Defined.

(** * Further properties of the engine *)

Section Wiring.

Context {World Store : Type} (C : Collaborators World Store).

(** One turn of the stream. *)
Lemma astream_inv (limit : nat) (n : Node) (s : AgentState) (e : Env World Store)
    (outs : list (Node * Update)) (s' : AgentState) :
  res (astream C (S limit) n s e) = Ok (outs, s') ->
  exists value s1 next,
    res (super_step C n s e) = Ok (value, s1, next) /\
    match next with
    | None => outs = [(n, value)] /\ s' = s1 /\ limit <> 0%nat
    | Some n' =>
        exists outs1,
          res (astream C limit n' s1 (env (super_step C n s e))) = Ok (outs1, s') /\
          outs = (n, value) :: outs1
    end.
Proof.
  cbn [astream]; intros H.
  set (k := fun r : Update * AgentState * option Node => _) in *.
  apply bind_ok in H; destruct H as ([[value s1] next] & Hstep & Hk).
  exists value, s1, next; split; [assumption|].
  subst k; cbv beta iota in Hk.
  destruct next as [n'|].
  - set (k2 := fun rest : list (Node * Update) * AgentState => _) in *.
    apply bind_ok in Hk; destruct Hk as ([outs1 s2] & Hrest & Hk).
    subst k2; simpl in Hk; injection Hk as <- <-.
    exists outs1; auto.
  - destruct limit; [discriminate Hk|].
    simpl in Hk; injection Hk as <- <-; auto.
Qed.

(** The edges of the graph. *)
Lemma route_edges (n : Node) (s : AgentState) (next : option Node) :
  route n s = Ok next ->
  match n with
  | memory_check => next = None \/ next = Some planner
  | planner => next = None \/ next = Some executor
  | executor => next = Some planner
  end.
Proof.
  destruct n; simpl.
  - destruct (is_it_known s); intros H; injection H as <-; auto.
  - destruct (should_continue s) as [[|]|]; [| |discriminate];
      intros H; injection H as <-; auto.
  - intros H; injection H as <-; reflexivity.
Qed.

Lemma planner_tail_nonempty (nodes : list Node) :
  planner_tail nodes = true -> exists rest, nodes = planner :: rest.
Proof. destruct nodes as [|[] rest]; simpl; try discriminate; eauto. Qed.

Lemma astream_shape_from (limit : nat) :
  forall n s e outs s',
    res (astream C limit n s e) = Ok (outs, s') ->
    (length outs < limit)%nat /\ shape_from n (map fst outs) = true.
Proof.
  induction limit as [|limit IH]; intros n s e outs s' H; [simpl in H; discriminate|].
  apply astream_inv in H; destruct H as (value & s1 & next & Hstep & Hnext).
  apply super_step_inv in Hstep; destruct Hstep as (_ & _ & _ & Hroute).
  apply route_edges in Hroute.
  destruct next as [n'|].
  - destruct Hnext as (outs1 & Hrest & ->).
    destruct (IH _ _ _ _ _ Hrest) as (Hlen & Hshape).
    split; [simpl; lia|].
    destruct n; simpl map.
    + destruct Hroute as [Hr|Hr]; [discriminate|]; injection Hr as ->.
      simpl in Hshape; destruct (planner_tail_nonempty _ Hshape) as (rest & Heq).
      simpl; rewrite Heq in *; assumption.
    + destruct Hroute as [Hr|Hr]; [discriminate|]; injection Hr as ->.
      simpl in Hshape |- *.
      destruct (map fst outs1) as [|[] rest]; try discriminate; assumption.
    + injection Hroute as ->; assumption.
  - destruct Hnext as (-> & _ & Hlimit); split; [simpl; lia|].
    destruct n; [reflexivity | reflexivity | discriminate].
Qed.

Lemma planner_tail_runs (outs : list (Node * Update)) :
  planner_tail (map fst outs) = true ->
  (2 * planner_runs outs = S (length outs))%nat.
Proof.
  remember (length outs) as k eqn:Hk.
  revert outs Hk; induction k as [k IH] using lt_wf_ind; intros outs Hk Hshape.
  destruct outs as [|[[] v1] [|[[] v2] rest]]; simpl in Hshape; try discriminate.
  - subst k; reflexivity.
  - assert (Hrest : (2 * planner_runs rest = S (length rest))%nat)
      by (apply (IH (length rest)); [subst k; simpl; lia | reflexivity | assumption]).
    subst k; change (planner_runs ((planner, v1) :: (executor, v2) :: rest))
      with (1 + (0 + planner_runs rest))%nat.
    simpl length; lia.
Qed.

(** X1. The updates of a stream that returns follow the edges of the
    graph: the first is the gate's; either it is the only one, or planner
    and executor updates alternate after it, starting and ending with the
    planner, so every executor update is followed by a planner update. The
    stream has at most [recursion_limit] updates. *)
Theorem stream_follows_graph (limit : nat) (s : AgentState) (e : Env World Store)
    (outs : list (Node * Update)) (s' : AgentState) :
  res (astream C limit memory_check s e) = Ok (outs, s') ->
  stream_shape (map fst outs) = true /\ (length outs <= limit)%nat.
Proof.
  intros H; destruct (astream_shape_from _ _ _ _ _ _ H) as (Hlen & Hshape).
  split; [assumption | lia].
Qed.

Lemma astream_steps_bound (limit : nat) (history : list (string * string))
    (query thread user : string) (e : Env World Store)
    (outs : list (Node * Update)) (s' : AgentState) :
  res (astream C limit memory_check (initial_state history query thread user) e)
  = Ok (outs, s') ->
  steps s' = Z.of_nat (planner_runs outs) /\ 2 * steps s' < Z.of_nat limit.
Proof.
  intros H.
  pose proof (astream_budget C _ _ _ _ _ _ _ _ H) as Hsteps.
  destruct (astream_shape_from _ _ _ _ _ _ H) as (Hlen & Hshape).
  assert (Hruns : (2 * planner_runs outs <= length outs)%nat).
  { simpl in Hshape.
    destruct outs as [|[[] v] rest]; simpl in Hshape; try discriminate.
    destruct rest as [|o rest']; [simpl; lia|].
    apply planner_tail_runs in Hshape.
    change (planner_runs ((memory_check, v) :: o :: rest'))
      with (0 + planner_runs (o :: rest'))%nat.
    simpl length in *; lia. }
  split; [assumption | lia].
Qed.

(** X2. A run whose stream returns under the recursion limit [limit] has
    taken fewer than [limit] super-steps, so twice its planner runs stay
    below [limit], and its step counter ends at that number of planner
    runs: under the limit of 20 that [run] sets the counter ends at 9 or
    less, below the hard cap of 12. *)
Theorem stream_planner_bound (limit : nat) (history : list (string * string))
    (query thread user : string) (e : Env World Store)
    (outs : list (Node * Update)) (s' : AgentState) :
  res (astream C limit memory_check (initial_state history query thread user) e)
  = Ok (outs, s') ->
  (length outs < limit)%nat /\
  steps s' = Z.of_nat (planner_runs outs) /\
  2 * steps s' < Z.of_nat limit /\
  (limit = 20%nat -> steps s' <= 9).
Proof.
  intros H; destruct (astream_steps_bound _ _ _ _ _ _ _ _ H) as (Hs & Hb).
  destruct (astream_shape_from _ _ _ _ _ _ H) as (Hlen & _).
  split; [assumption|]; split; [assumption|]; split; [assumption|]; intros ->; lia.
Qed.

(** X3. The executor is entered only from the planner, on a state whose
    last message is an assistant message carrying at least one tool call,
    with the step counter below 12; its context is not empty. *)
Theorem executor_entered_on_requests (n : Node) (s : AgentState)
    (e : Env World Store) (value : Update) (s' : AgentState) :
  res (super_step C n s e) = Ok (value, s', Some executor) ->
  n = planner /\
  steps s' < 12 /\
  exists text request requests,
    last_item (messages s') = Ok (AIMessage text (request :: requests)).
Proof.
  intros H; apply super_step_inv in H; destruct H as (s1 & _ & _ & Hroute).
  destruct n; simpl in Hroute.
  - destruct (is_it_known s'); discriminate.
  - split; [reflexivity|].
    unfold should_continue in Hroute.
    destruct (last_item (messages s')) as [m|x]; [|discriminate].
    destruct (Z.leb_spec 12 (steps s')); [discriminate|].
    split; [assumption|].
    destruct m as [c|c [|tc tcs]|c|c i]; simpl in Hroute; try discriminate.
    exists c, tc, tcs; reflexivity.
  - discriminate.
Qed.

Lemma prune_last (h view : list BaseMessage) (m : BaseMessage) :
  prune h = Ok view -> last_item h = Ok m -> last_item view = Ok m.
Proof.
  intros Hp Hl; destruct (prune_ok h) as (v & Hv & Hshape).
  rewrite Hp in Hv; injection Hv as <-.
  destruct (length h <=? 5)%nat; [subst view; assumption|].
  destruct Hshape as (_ & m0 & middle & last4 & -> & Hlen & ->).
  assert (Hne : last4 <> []) by (destruct last4; [discriminate | congruence]).
  change (m0 :: middle ++ last4)%list with ((m0 :: middle) ++ last4)%list in Hl.
  rewrite last_item_app_nonempty in Hl by assumption.
  change (m0 :: last4) with ([m0] ++ last4)%list.
  rewrite last_item_app_nonempty by assumption; assumption.
Qed.

Lemma get_response_inv (h : list BaseMessage) (e : Env World Store) (m : BaseMessage) :
  res (get_response C h e) = Ok m -> exists text calls, m = AIMessage text calls.
Proof.
  unfold get_response; intros H; do 3 bind_inv H.
  injection H as <-; eauto.
Qed.

Lemma call_model_inv (s s1 : AgentState) (u : Update) (e : Env World Store) :
  res (call_model C s e) = Ok (s1, u) ->
  s1 = (if 8 <? steps s
        then mkAgentState (messages s ++ [warning])%list
                          (user_id s) (thread_id s) (steps s)
        else s) /\
  exists text calls, u = mkUpdate [AIMessage text calls] (Some (steps s + 1)).
Proof.
  unfold call_model; intros H; bind_inv H.
  injection H as <- <-; split; [reflexivity|].
  apply get_response_inv in Ha; destruct Ha as (text & calls & ->); eauto.
Qed.

(** X4. The soft threshold. With more than 8 steps taken, [call_model]
    appends the warning to the history before it calls the model: the model
    is invoked on the instruction and the pruned view of the history with
    the warning, a view that ends with the warning (pruning keeps the last
    message), and the warning stays in the state, just before the model's
    response. With 8 steps or fewer the model is invoked on the pruned view
    of the history and the state is left as it was. Either way the update
    is the message that this invocation returned, with the counter one
    higher, and [call_model] raises what the invocation raises. *)
Theorem soft_warning (s : AgentState) (e : Env World Store) :
  exists view,
    trace (call_model C s e) = [EvReason (instruction :: view)] /\
    (if 8 <? steps s
     then prune (messages s ++ [warning]) = Ok view /\ last_item view = Ok warning
     else prune (messages s) = Ok view) /\
    match fst (model_with_tools_invoke _ _ C (instruction :: view) (world e)) with
    | Ok a =>
        let response := AIMessage (fst a) (snd a) in
        let u := mkUpdate [response] (Some (steps s + 1)) in
        exists s1,
          res (call_model C s e) = Ok (s1, u) /\
          messages (apply_update s1 u)
          = (if 8 <? steps s
             then messages s ++ [warning; response]
             else messages s ++ [response])%list
    | Raise x => res (call_model C s e) = Raise x
    end.
Proof.
  set (h := if 8 <? steps s then (messages s ++ [warning])%list else messages s).
  destruct (prune_ok h) as (view & Hp & _).
  pose proof (get_response_trace C _ _ e Hp) as Ht.
  destruct (get_response_run C _ _ e Hp) as (Hr & _).
  assert (Hh : messages (if 8 <? steps s
                         then mkAgentState (messages s ++ [warning])%list
                                (user_id s) (thread_id s) (steps s)
                         else s) = h)
    by (subst h; destruct (8 <? steps s); reflexivity).
  exists view; split; [|split].
  - unfold call_model; rewrite Hh.
    unfold bind; destruct (res (get_response C h e)); simpl; rewrite Ht; reflexivity.
  - subst h; destruct (8 <? steps s).
    + split; [assumption | eapply prune_last; [eassumption | apply last_item_app]].
    + assumption.
  - unfold call_model; rewrite Hh; unfold bind; rewrite Hr.
    destruct (fst (model_with_tools_invoke _ _ C (instruction :: view) (world e)))
      as [a|x]; simpl; [|reflexivity].
    eexists; split; [reflexivity|].
    destruct (8 <? steps s); simpl; [rewrite <- app_assoc|]; reflexivity.
Qed.

(** How a stream that returns ends. *)
Lemma astream_ends (limit : nat) :
  forall n s e outs s',
    res (astream C limit n s e) = Ok (outs, s') ->
    exists pre nl value,
      outs = (pre ++ [(nl, value)])%list /\
      match nl with
      | planner =>
          exists text calls,
            upd_messages value = [AIMessage text calls] /\
            last_item (messages s') = Ok (AIMessage text calls) /\
            should_continue s' = Ok finish
      | memory_check => pre = [] /\ n = memory_check
      | executor => False
      end.
Proof.
  induction limit as [|limit IH]; intros n s e outs s' H; [simpl in H; discriminate|].
  apply astream_inv in H; destruct H as (value & s1 & next & Hstep & Hnext).
  destruct next as [n'|].
  - destruct Hnext as (outs1 & Hrest & ->).
    destruct (IH _ _ _ _ _ Hrest) as (pre & nl & v & -> & Hend).
    exists ((n, value) :: pre), nl, v; split; [reflexivity|].
    destruct nl; [|assumption|assumption].
    destruct Hend as (-> & ->).
    apply super_step_inv in Hstep; destruct Hstep as (_ & _ & _ & Hroute).
    apply route_edges in Hroute.
    destruct n; [destruct Hroute as [Hr|Hr]; discriminate
                |destruct Hroute as [Hr|Hr]; discriminate
                |discriminate].
  - destruct Hnext as (-> & -> & _).
    exists [], n, value; split; [reflexivity|].
    apply super_step_inv in Hstep; destruct Hstep as (s0 & Hrun & -> & Hroute).
    destruct n; simpl in Hrun, Hroute.
    + auto.
    + apply call_model_inv in Hrun; destruct Hrun as (-> & text & calls & ->).
      exists text, calls; split; [reflexivity|].
      split.
      * unfold apply_update; simpl; apply last_item_app.
      * destruct (should_continue _) as [[|]|]; try discriminate; reflexivity.
    + discriminate.
Qed.

Lemma fold_left_observe_last (pre : list (Node * Update)) (o : Node * Update)
    (acc : string) :
  fold_left observe (pre ++ [o])%list acc = observe (fold_left observe pre acc) o.
Proof. rewrite fold_left_app; reflexivity. Qed.

(** X5. In a stream of [run] (recursion limit 20) that returns after the
    planner ran, the state ends with an assistant message without tool
    calls, and [final_msg], the text [run] answers with, is the content of
    that message: the last response of the model. *)
Theorem final_msg_is_last_response (history : list (string * string))
    (query thread user : string) (e : Env World Store)
    (outs : list (Node * Update)) (s' : AgentState) :
  res (astream C 20 memory_check (initial_state history query thread user) e)
  = Ok (outs, s') ->
  planner_runs outs <> 0%nat ->
  exists text,
    last_item (messages s') = Ok (AIMessage text []) /\
    fold_left observe outs EmptyString = text.
Proof.
  intros H Hruns.
  destruct (astream_steps_bound _ _ _ _ _ _ _ _ H) as (_ & Hb).
  destruct (astream_ends _ _ _ _ _ _ H) as (pre & nl & value & -> & Hend).
  destruct nl; [|destruct Hend as (text & calls & Hu & Hlast & Hfin)|contradiction].
  - destruct Hend as (-> & _); elim Hruns; reflexivity.
  - unfold should_continue in Hfin; rewrite Hlast in Hfin.
    destruct (Z.leb_spec 12 (steps s')); [lia|].
    destruct calls as [|c cs]; [|discriminate].
    exists text; split; [assumption|].
    rewrite fold_left_observe_last; unfold observe; rewrite Hu; reflexivity.
Qed.

End Wiring.

(** ** What a run stores *)

Section Storage.

Context {World Store : Type} (C : Collaborators World Store).

Lemma emits_ret {A} (P : Event -> bool) (a : A) : emits_only P (ret World Store a).
Proof. intros e; reflexivity. Qed.

Lemma emits_raise {A} (P : Event -> bool) (x : exn) :
  emits_only P (@raise World Store A x).
Proof. intros e; reflexivity. Qed.

Lemma emits_lift {A} (P : Event -> bool) (r : Res A) : emits_only P (lift World Store r).
Proof. intros e; reflexivity. Qed.

Lemma emits_emit (P : Event -> bool) (ev : Event) :
  P ev = true -> emits_only P (emit World Store ev).
Proof. intros H e; simpl; rewrite H; reflexivity. Qed.

Lemma emits_call {A} (P : Event -> bool) (f : World -> Res A * World) :
  emits_only P (call World Store f).
Proof. intros e; unfold call; destruct (f (world e)); reflexivity. Qed.

Lemma emits_call_read {A} (P : Event -> bool) (f : Store -> World -> Res A * World) :
  emits_only P (call_read World Store f).
Proof. intros e; unfold call_read; destruct (f (store e) (world e)); reflexivity. Qed.

Lemma emits_bind {A B} (P : Event -> bool) (m : M World Store A)
    (k : A -> M World Store B) :
  emits_only P m -> (forall a, emits_only P (k a)) -> emits_only P (bind World Store m k).
Proof.
  intros Hm Hk e; unfold bind.
  pose proof (Hm e) as Ht.
  destruct (res (m e)) as [a|x]; simpl; [|assumption].
  rewrite forallb_app, Ht; apply Hk.
Qed.

Lemma emits_try {A} (P : Event -> bool) (m : M World Store A)
    (h : exn -> M World Store A) :
  emits_only P m -> (forall x, emits_only P (h x)) ->
  emits_only P (try_except World Store m h).
Proof.
  intros Hm Hh e; unfold try_except.
  pose proof (Hm e) as Ht.
  destruct (res (m e)) as [a|x]; simpl; [assumption|].
  rewrite forallb_app, Ht; apply Hh.
Qed.

Ltac emits_step :=
  first
    [ apply emits_ret | apply emits_raise | apply emits_lift
    | apply emits_call | apply emits_call_read
    | apply emits_emit; reflexivity
    | apply emits_bind; [|intros]
    | apply emits_try; [|intros]
    | match goal with
      | |- emits_only _ (match ?x with _ => _ end) => destruct x
      end ].

Lemma engine_dispatch (query user : string) (tc : ToolCall) (result : option string) :
  emits_only engine_event (dispatch C query user tc result).
Proof.
  unfold dispatch, distill_scrape, retrieve_relevant_context.
  repeat match goal with
         | |- emits_only _ (if ?b then _ else _) => destruct b
         end;
    repeat emits_step.
Qed.

Lemma engine_for_tool_calls (query user : string) (tcs : list ToolCall) :
  forall result outs,
    emits_only engine_event (for_tool_calls C query user tcs result outs).
Proof.
  induction tcs as [|tc rest IH]; intros result outs; cbn [for_tool_calls].
  - apply emits_ret.
  - apply emits_bind; [apply engine_dispatch|].
    intros [r|]; [apply IH | apply emits_raise].
Qed.

Lemma engine_run_node (n : Node) (s : AgentState) :
  emits_only engine_event (run_node C n s).
Proof.
  destruct n; simpl.
  - unfold check_cache, query_memory, retrieve_relevant_context; repeat emits_step.
  - unfold call_model, get_response; repeat emits_step.
  - unfold call_tool; repeat first [ apply engine_for_tool_calls | emits_step ].
Qed.

Lemma engine_astream (limit : nat) :
  forall n s, emits_only engine_event (astream C limit n s).
Proof.
  induction limit as [|limit IH]; intros n s; cbn [astream].
  - apply emits_raise.
  - apply emits_bind.
    + unfold super_step; repeat first [ apply engine_run_node | emits_step ].
    + intros [[value s'] [n'|]];
        [|destruct limit; [apply emits_raise | apply emits_ret]].
      apply emits_bind; [apply IH | intros; apply emits_ret].
Qed.

Lemma engine_research (limit : nat) (query thread user : string) :
  emits_only engine_event (research C limit query thread user).
Proof.
  unfold research, load_conversation;
    repeat first [ apply engine_astream | emits_step ].
Qed.

Lemma engine_no_save (t : list Event) :
  forallb engine_event t = true ->
  filter is_save t = [] /\ existsb is_upsert t = false.
Proof.
  induction t as [|ev t IH]; [auto|]; simpl.
  intros H; apply andb_true_iff in H; destruct H as [Hev Ht].
  destruct (IH Ht) as (Hs & Hu).
  unfold engine_event in Hev; apply negb_true_iff, orb_false_iff in Hev.
  destruct Hev as [-> ->]; auto.
Qed.

(** What [messages_for_storage] makes of a loaded thread. *)
Lemma storage_of_history (history : list (string * string)) :
  messages_for_storage (history_messages history) = filter stored_role history.
Proof.
  induction history as [|[role text] history IH]; [reflexivity|].
  unfold stored_role in *; simpl.
  destruct (String.eqb_spec role "user") as [->|Hu]; simpl; [rewrite IH; reflexivity|].
  destruct (String.eqb_spec role "assistant") as [->|Ha]; simpl; rewrite IH; reflexivity.
Qed.

(** X6. Round trips between the message list and its stored form. Loading
    a stored thread and storing it again keeps exactly the entries whose
    role is ["user"] or ["assistant"], in order; storing a list of user
    messages and assistant messages without tool calls and loading it again
    gives the list back. *)
Theorem storage_round_trip (history : list (string * string))
    (ms : list BaseMessage) :
  forallb plain_message ms = true ->
  messages_for_storage (history_messages history) = filter stored_role history /\
  history_messages (messages_for_storage ms) = ms.
Proof.
  intros Hplain; split; [apply storage_of_history|].
  induction ms as [|m ms IH]; [reflexivity|].
  simpl in Hplain; apply andb_true_iff in Hplain; destruct Hplain as [Hm Hms].
  destruct m as [c|c [|tc tcs]|c|c i]; try discriminate; simpl;
    rewrite (IH Hms); reflexivity.
Qed.

Lemma archive_saves (query thread user : string) (initial : list BaseMessage)
    (final_msg : string) (e : Env World Store) :
  res (archive C query thread user initial final_msg e) = Ok tt ->
  filter is_save (trace (archive C query thread user initial final_msg e))
  = if Py.truthy final_msg
    then [EvSave thread user
            (messages_for_storage (initial ++ [AIMessage final_msg []])%list)]
    else [].
Proof.
  unfold archive.
  destruct (Py.truthy final_msg); [|reflexivity].
  destruct (Py.contains FROM_MEMORY final_msg); cbn [negb].
  - unfold save_conversation, bind, ret, try_except, emit, call; simpl.
    destruct (update_conversation _ _ C thread user _ (world e)) as [[[]|x] w];
      reflexivity.
  - unfold save_to_memory, save_conversation, bind, ret, try_except, emit, call,
      call_write; simpl.
    destruct (embed_query _ _ C query (world e)) as [[v|x] w]; simpl; [|discriminate].
    destruct (index_upsert _ _ C _ v _ _ (store e) w) as [[[]|x] [st w']]; simpl;
      [|discriminate].
    destruct (update_conversation _ _ C thread user _ w') as [[[]|x] w''];
      reflexivity.
Qed.

(** The first phase of [run]: the thread it loaded. *)
Lemma research_loaded (limit : nat) (query thread user : string) (e : Env World Store)
    (initial : list BaseMessage) (existing : list string) (final_msg : string) :
  res (research C limit query thread user e) = Ok (initial, existing, final_msg) ->
  exists history,
    res (load_conversation C thread user e) = Ok history /\
    initial = initial_messages history query.
Proof.
  unfold research; intros H.
  bind_inv H; exists a; split; [assumption|].
  do 2 bind_inv H; injection H as <- _ _; reflexivity.
Qed.

(** X7. What a run that returns persists. When the run produced a final
    message, it saves the thread exactly once, as the user and assistant
    entries of the thread it loaded followed by the new query and the final
    message; gate messages, warnings, tool calls and tool observations are
    not stored. When it produced none, it answers with the apology and
    writes nothing: no conversation is saved and no report is archived. *)
Theorem run_saves_exchange (limit : nat) (query thread user : string)
    (e : Env World Store) (result : RunResult) :
  let o := run_with_limit C limit query thread user e in
  res o = Ok result ->
  exists history final_msg,
    res (load_conversation C thread user e) = Ok history /\
    if Py.truthy final_msg
    then answer result = final_msg /\
         filter is_save (trace o)
         = [EvSave thread user
              (filter stored_role history
               ++ [("user", query); ("assistant", final_msg)])%list]
    else answer result = apology /\
         filter is_save (trace o) = [] /\
         existsb is_upsert (trace o) = false.
Proof.
  intros o H; subst o.
  assert (Hres : exists r, res (research C limit query thread user e) = Ok r).
  { unfold run_with_limit in H; apply bind_ok in H.
    destruct H as (r & Hr & _); eauto. }
  destruct Hres as ([[initial existing] final_msg] & Hres).
  destruct (run_with_limit_inv C _ _ _ _ _ _ _ _ _ H Hres)
    as (e2 & _ & Harch & Hans & Ht & _).
  destruct (research_loaded _ _ _ _ _ _ _ _ Hres) as (history & Hload & ->).
  destruct (engine_no_save _ (engine_research limit query thread user e))
    as (Hnosave & Hnoup).
  pose proof (archive_saves _ _ _ _ _ _ Harch) as Hsave.
  exists history, final_msg; split; [assumption|].
  rewrite Ht, filter_app, Hnosave, Hsave; simpl.
  destruct (Py.truthy final_msg) eqn:Htruthy.
  - split; [assumption|].
    unfold initial_messages, messages_for_storage.
    rewrite !flat_map_app; simpl.
    fold (messages_for_storage (history_messages history)).
    rewrite storage_of_history, <- app_assoc; reflexivity.
  - split; [assumption|]; split; [reflexivity|].
    rewrite existsb_app, Hnoup; simpl.
    unfold archive; rewrite Htruthy; reflexivity.
Qed.

End Storage.

(** ** The gate and the stores, case by case *)

Section GateCases.

Context {World Store : Type} (C : Collaborators World Store).

Lemma strip_truthy_nonempty (text : string) :
  Py.strip_truthy text = true -> Py.truthy text = true.
Proof. destruct text; [discriminate | reflexivity]. Qed.

(** The retrieval never hands back blank text. *)
Lemma retrieve_nonblank (query user : string) (k : nat) (e : Env World Store)
    (c : string) :
  res (retrieve_relevant_context C query user k e) = Ok (Some c) ->
  Py.strip_truthy c = true.
Proof.
  unfold retrieve_relevant_context, try_except, bind, emit, call, ret; simpl.
  destruct (asimilarity_search _ _ C query user k (world e)) as [[[|d ds]|x] w];
    simpl; try discriminate.
  match goal with
  | |- context [if ?b then _ else _] => destruct b eqn:Hs; [|discriminate]
  end.
  intros H; injection H as <-; assumption.
Qed.

Lemma query_memory_trace (query user : string) (t : float) (e : Env World Store) :
  exists rest, trace (query_memory C query user t e) = EvCacheQuery query user :: rest.
Proof.
  unfold query_memory.
  set (k := fun _ : unit => _).
  destruct (bind_run (emit World Store (EvCacheQuery query user)) k e tt eq_refl)
    as (_ & _ & ->).
  simpl; eauto.
Qed.

(** X8. The gate looks the cache and the documents up under the content
    of the first message of the state. In a run this is the run's query
    only when the thread has no stored user or assistant message;
    otherwise it is the content of the oldest stored message. *)
Theorem gate_looks_up_first_message (history : list (string * string))
    (query thread user : string) (e : Env World Store) :
  let key := content (anchor history query) in
  let o := check_cache C (initial_state history query thread user) e in
  (history_messages history = [] -> key = query) /\
  exists rest,
    trace o = EvCacheQuery key user :: rest /\
    forall cached,
      res (query_memory C key user threshold e) = Ok cached ->
      In (EvRetrieve key user) rest.
Proof.
  intros key o; split.
  { subst key; unfold anchor; intros ->; reflexivity. }
  subst o; unfold check_cache.
  set (k1 := fun m : BaseMessage => _).
  destruct (bind_run (lift World Store
                        (first_item (messages (initial_state history query thread user))))
              k1 e _ (anchor_first history query)) as (_ & _ & ->).
  subst k1; cbv beta.
  change (env (lift World Store
                 (first_item (messages (initial_state history query thread user))) e))
    with e.
  change (trace (lift World Store
                   (first_item (messages (initial_state history query thread user))) e))
    with (@nil Event).
  cbn [app]; fold key.
  change (user_id (initial_state history query thread user)) with user.
  set (k2 := fun cached_report : option string => _).
  destruct (query_memory_trace key user threshold e) as (rest & Hq).
  destruct (res (query_memory C key user threshold e)) as [cached|x] eqn:Hres.
  - destruct (bind_run _ k2 e _ Hres) as (_ & _ & ->).
    rewrite Hq; eexists; split; [reflexivity|].
    intros _ _; apply in_or_app; right.
    subst k2; cbv beta.
    set (k3 := fun pdf_context : option string => _).
    destruct (retrieve_returns C key user 5 (env (query_memory C key user threshold e)))
      as (c & Hr & Ht & _).
    destruct (bind_run _ k3 _ _ Hr) as (_ & _ & ->).
    rewrite Ht; left; reflexivity.
  - destruct (bind_raise _ k2 e _ Hres) as (_ & _ & ->).
    rewrite Hq; eexists; split; [reflexivity|]; discriminate.
Qed.

(** X9. The update of the gate, when it returns: the cached report as an
    assistant message when the cache lookup returned a report that is not
    empty, then the retrieved context as a system message when the
    retrieval returned any (it never returns blank text); nothing else, and
    the counter is not set. *)
Theorem gate_update (s s1 : AgentState) (u : Update) (e : Env World Store) :
  res (check_cache C s e) = Ok (s1, u) ->
  exists m0 cached pdf,
    first_item (messages s) = Ok m0 /\
    res (query_memory C (content m0) (user_id s) threshold e) = Ok cached /\
    res (retrieve_relevant_context C (content m0) (user_id s) 5
           (env (query_memory C (content m0) (user_id s) threshold e))) = Ok pdf /\
    s1 = s /\
    upd_steps u = None /\
    upd_messages u
    = ((match cached with
        | Some r => if Py.truthy r then [memory_message r] else []
        | None => []
        end)
       ++ (match pdf with
           | Some c => [documents_message c]
           | None => []
           end))%list.
Proof.
  unfold check_cache; intros H; do 3 bind_inv H.
  injection H as <- <-.
  exists a, a0, a1; repeat split; try assumption.
  unfold context_messages; simpl; f_equal.
  destruct a1 as [c|]; [|reflexivity].
  pose proof (retrieve_nonblank _ _ _ _ _ Ha1) as Hs.
  rewrite Hs, (strip_truthy_nonempty _ Hs); reflexivity.
Qed.

(** X10. The gate ends the run exactly when its update is the cached
    report alone; in every other case (no usable cache hit, or a cache hit
    followed by document context) it hands over to the planner. *)
Theorem gate_ends_iff_cached_alone (history : list (string * string))
    (query thread user : string) (e : Env World Store)
    (value : Update) (s' : AgentState) (next : option Node) :
  res (super_step C memory_check (initial_state history query thread user) e)
  = Ok (value, s', next) ->
  (next = None <-> exists r, upd_messages value = [memory_message r]) /\
  (next <> None -> next = Some planner).
Proof.
  intros H; apply super_step_inv in H; destruct H as (s1 & Hrun & -> & Hroute).
  simpl in Hrun; apply check_cache_inv in Hrun.
  destruct Hrun as (-> & cached & pdf & ->).
  simpl in Hroute.
  destruct (is_it_known _) eqn:Hknown; injection Hroute as <-.
  - split; [|intros Hn; elim Hn; reflexivity].
    split; [intros _|reflexivity].
    apply (known_is_cached (history_messages history) query user thread 0 cached pdf).
    exact Hknown.
  - split; [|reflexivity].
    split; [discriminate|].
    intros (r & Hr); simpl in Hr.
    unfold is_it_known, apply_update in Hknown; simpl in Hknown.
    rewrite Hr, last_item_app in Hknown; discriminate.
Qed.

(** X11. Failures of the conversation store stay inside the memory
    manager: [load_conversation] always returns, with the stored messages
    when the lookup finds the thread and with the empty list when it finds
    none or raises; [save_conversation] always returns. *)
Theorem conversation_store_failures_contained (thread user : string)
    (ms : list (string * string)) (e : Env World Store) :
  (exists history,
     res (load_conversation C thread user e) = Ok history /\
     history = match fst (find_conversation _ _ C thread user (world e)) with
               | Ok (Some stored) => stored
               | _ => []
               end) /\
  res (save_conversation C thread user ms e) = Ok tt.
Proof.
  split.
  - unfold load_conversation, try_except, bind, emit, call, ret; simpl.
    destruct (find_conversation _ _ C thread user (world e)) as [[[stored|]|x] w];
      simpl; eauto.
  - unfold save_conversation, try_except, bind, emit, call, ret; simpl.
    destruct (update_conversation _ _ C thread user ms (world e)) as [[[]|x] w];
      reflexivity.
Qed.

Lemma args_get_missing (args : Args) (key default : string) :
  forallb (fun kv => negb (String.eqb (fst kv) key)) args = true ->
  args_get args key default = default.
Proof.
  induction args as [|[k v] args IH]; [reflexivity|]; simpl.
  intros H; apply andb_true_iff in H; destruct H as [Hk Hrest].
  apply negb_true_iff in Hk; rewrite Hk; auto.
Qed.

(** X12. The capability [query_user_pdfs] never raises and never answers
    with empty text: it asks the retrieval for the ['query'] argument of
    the request, or for the first message of the run when the request has
    no such argument, and answers with the retrieved context, or with a
    fixed sentence when there is none. The distiller is not involved. *)
Theorem query_user_pdfs_answers (original_query user : string) (tc : ToolCall)
    (result : option string) (e : Env World Store) :
  tc_name tc = "query_user_pdfs" ->
  let asked := args_get (tc_args tc) "query" original_query in
  let o := dispatch C original_query user tc result e in
  (forallb (fun kv => negb (String.eqb (fst kv) "query")) (tc_args tc) = true ->
   asked = original_query) /\
  trace o = [EvCapability "query_user_pdfs" (tc_args tc); EvRetrieve asked user] /\
  exists text,
    res o = Ok (Some text) /\
    text <> EmptyString /\
    match res (retrieve_relevant_context C asked user 5 e) with
    | Ok (Some c) => text = c
    | _ => text = "No relevant information found in your uploaded documents."
    end.
Proof.
  intros Hname asked o; split; [apply args_get_missing|].
  subst o; unfold dispatch; rewrite Hname; cbn [String.eqb Ascii.eqb Bool.eqb].
  fold asked.
  destruct (retrieve_returns C asked user 5 e) as (c & Hr & Ht & _).
  unfold bind, emit, ret; simpl.
  rewrite Hr; simpl; rewrite Ht; split; [reflexivity|].
  eexists; split; [reflexivity|].
  destruct c as [c|]; [|split; [discriminate | reflexivity]].
  pose proof (strip_truthy_nonempty _ (retrieve_nonblank _ _ _ _ _ Hr)) as Htr.
  rewrite Htr; split; [|reflexivity].
  destruct c; [discriminate | discriminate].
Qed.

End GateCases.

(** * The capabilities *)





Section CapabilityFacts.

Context {World Store : Type} (T : Toolkit World) (C : Collaborators World Store).

(** X13. The two capabilities of research_tools.py never raise.
    [search_web] answers with one entry per raw result, and with the empty
    list when the search raises; [scrape_url] answers with the page's
    markdown when the crawl succeeds and with [None] when the crawl reports
    failure or raises. *)
Theorem research_tools_contain_failures (query target : string) (n : nat) (w : World) :
  (exists results,
     fst (search_web T query n w) = Ok results /\
     match fst (ddgs_text _ T query n w) with
     | Ok raw => length results = length raw
     | Raise _ => results = []
     end) /\
  (exists page,
     fst (scrape_url T target w) = Ok page /\
     match fst (crawler_arun _ T target w) with
     | Ok crawl => page = if success crawl then Some (markdown crawl) else None
     | Raise _ => page = None
     end).
Proof.
  unfold search_web, scrape_url; split.
  - destruct (ddgs_text _ T query n w) as [[raw|x] w']; simpl; eexists; split;
      try reflexivity.
    rewrite length_map; reflexivity.
  - destruct (crawler_arun _ T target w) as [[crawl|x] w']; simpl;
      [destruct (success crawl)|]; eexists; split; reflexivity.
Qed.

(** X14. [read_pdf_document] never raises: for a path that does not exist
    it answers with an error text naming the path, without calling the
    converter (the world is untouched); a converter failure becomes the
    text ["Error parsing PDF: ..."]. The answer is never empty in those two
    cases. *)
Theorem read_pdf_contains_failures (file_path : string) (w : World) :
  exists text,
    fst (read_pdf T file_path w) = Ok text /\
    if path_exists _ T file_path w
    then match fst (converter_convert _ T file_path w) with
         | Ok converted => text = converted
         | Raise e => text = "Error parsing PDF: " ++ exn_str e /\ text <> EmptyString
         end
    else text = "Error: File " ++ file_path ++ " not found." /\
         text <> EmptyString /\
         snd (read_pdf T file_path w) = w.
Proof.
  unfold read_pdf.
  destruct (path_exists _ T file_path w); simpl.
  - destruct (converter_convert _ T file_path w) as [[converted|x] w']; simpl;
      eexists; split; try reflexivity.
    split; [reflexivity | discriminate].
  - eexists; split; [reflexivity|]; split; [reflexivity|]; split;
      [discriminate | reflexivity].
Qed.





Lemma search_web_returns (query : string) (n : nat) (w : World) :
  exists results w', search_web T query n w = (Ok results, w').
Proof.
  unfold search_web; destruct (ddgs_text _ T query n w) as [[raw|x] w']; eauto.
Qed.

Lemma read_pdf_returns (file_path : string) (w : World) :
  exists text w', read_pdf T file_path w = (Ok text, w').
Proof.
  unfold read_pdf; destruct (negb (path_exists _ T file_path w)); [eauto|].
  destruct (converter_convert _ T file_path w) as [[text|x] w']; eauto.
Qed.

Lemma research_tools_returns (target : string) (w : World) :
  exists page w', scrape_url T target w = (Ok page, w').
Proof.
  unfold scrape_url.
  destruct (crawler_arun _ T target w) as [[crawl|x] w'];
    [destruct (success crawl)|]; eauto.
Qed.


End CapabilityFacts.

(** ** The dispatcher over the repository's capabilities *)

Section ToolkitDispatch.

Context {World Store : Type} (T : Toolkit World) (C : Collaborators World Store).

Lemma toolkit_dispatch_returns (query user : string) (tc : ToolCall)
    (result : option string) (e : Env World Store) :
  well_formed_request tc = true ->
  executes_no_code tc = true ->
  exists r, res (dispatch (with_toolkit T C) query user tc result e) = Ok (Some r).
Proof.
  unfold well_formed_request, executes_no_code, routed, required_argument, dispatch.
  intros H Hcode; apply andb_true_iff in H; destruct H as [Hrouted Harg].
  destruct (String.eqb (tc_name tc) "scrape_site").
  { destruct (args_find (tc_args tc) "url") as [target|] eqn:Ha; [|discriminate].
    destruct (research_tools_returns T target (world e)) as (page & w' & Hp).
    set (raw := match page with Some text => text | None => "None" end).
    destruct (distill_scrape_returns (with_toolkit T C) raw query (mkEnv (store e) w'))
      as (d & Hd & _).
    exists d; unfold bind, emit, call, ret; simpl.
    unfold tool_scrape_site; rewrite Ha, Hp.
    destruct page; simpl;
      fold (distill_scrape (with_toolkit T C) raw query (mkEnv (store e) w'));
      subst raw; rewrite Hd; reflexivity. }
  destruct (String.eqb (tc_name tc) "read_pdf_document").
  { destruct (args_find (tc_args tc) "file_path") as [path|] eqn:Ha; [|discriminate].
    destruct (read_pdf_returns T path (world e)) as (text & w' & Hr).
    destruct (distill_scrape_returns (with_toolkit T C) text query (mkEnv (store e) w'))
      as (d & Hd & _).
    exists d; unfold bind, emit, call, ret; simpl.
    unfold tool_read_pdf_document; rewrite Ha, Hr; simpl.
    fold (distill_scrape (with_toolkit T C) text query (mkEnv (store e) w')).
    rewrite Hd; reflexivity. }
  destruct (String.eqb (tc_name tc) "query_user_pdfs").
  { destruct (retrieve_returns (with_toolkit T C)
                (args_get (tc_args tc) "query" query) user 5 e) as (c & Hr & _).
    eexists; unfold bind, emit, ret; simpl; rewrite Hr; reflexivity. }
  destruct (String.eqb (tc_name tc) "web_search").
  { destruct (args_find (tc_args tc) "query") as [q|] eqn:Ha; [|discriminate].
    destruct (search_web_returns T q 5 (world e)) as (rs & w' & Hr).
    eexists; unfold bind, emit, call, ret; simpl.
    unfold tool_web_search; rewrite Ha, Hr; reflexivity. }
  destruct (String.eqb (tc_name tc) "execute_python"); discriminate.
Qed.

(** The invocations made for such requests return. *)
Lemma toolkit_invocation_returns (tc : ToolCall) (e : Env World Store) :
  well_formed_request tc = true ->
  executes_no_code tc = true ->
  invocation_raises (with_toolkit T C) tc (world e) = false.
Proof.
  intros Hwf Hcode.
  destruct (toolkit_dispatch_returns EmptyString EmptyString tc None e Hwf Hcode)
    as (r & Hr).
  unfold well_formed_request in Hwf; apply andb_true_iff in Hwf.
  destruct Hwf as [Hrouted _].
  pose proof (dispatch_routed_cases (with_toolkit T C) EmptyString EmptyString tc None e
                Hrouted) as Hcases.
  destruct (invocation_raises (with_toolkit T C) tc (world e)); [|reflexivity].
  destruct Hcases as (x & Hx); congruence.
Qed.

Lemma toolkit_invocations_return (query user : string) (tcs : list ToolCall) :
  forallb well_formed_request tcs = true ->
  forallb executes_no_code tcs = true ->
  forall e, invocations_from (with_toolkit T C) query user tcs e = true.
Proof.
  induction tcs as [|tc rest IH]; intros Hwf Hcode e; [reflexivity|].
  simpl in Hwf, Hcode.
  apply andb_true_iff in Hwf; destruct Hwf as [Hwf Hwfs].
  apply andb_true_iff in Hcode; destruct Hcode as [Hcode Hcodes].
  cbn [invocations_from].
  rewrite (toolkit_invocation_returns tc e Hwf Hcode), (IH Hwfs Hcodes); reflexivity.
Qed.

Lemma for_tool_calls_answers_each (query user : string) (tcs : list ToolCall) :
  (forall tc, In tc tcs -> forall result e,
     exists r, res (dispatch (with_toolkit T C) query user tc result e) = Ok (Some r)) ->
  forall result outs e,
  exists new,
    res (for_tool_calls (with_toolkit T C) query user tcs result outs e)
    = Ok (outs ++ new)%list /\
    answers new tcs.
Proof.
  induction tcs as [|tc rest IH]; intros Hall result outs e.
  - exists []; split; [simpl; rewrite app_nil_r; reflexivity | constructor].
  - destruct (Hall tc (or_introl eq_refl) result e) as (r & Hr).
    destruct (for_tool_calls_cons (with_toolkit T C) query user tc rest result outs e r Hr)
      as (Hres & _).
    destruct (IH (fun tc' Hin => Hall tc' (or_intror Hin)) (Some r)
                (outs ++ [ToolMessage r (tc_id tc)])%list
                (env (dispatch (with_toolkit T C) query user tc result e)))
      as (new & Hnew & Hans).
    exists (ToolMessage r (tc_id tc) :: new); split.
    + rewrite Hres, Hnew, <- app_assoc; reflexivity.
    + constructor; [exists r; reflexivity | assumption].
Qed.

(** X17. Over the repository's own search, scraping and PDF capabilities
    the dispatcher cannot fail on well-formed requests that execute no
    code: when every request of the last assistant message names a routed
    capability other than [execute_python] and carries the argument that
    capability requires, [call_tool] returns one observation per request,
    in order and with the request's identifier, whatever the search, the
    crawler and the converter do. *)
Theorem toolkit_dispatcher_total (state : AgentState) (text : string)
    (requests : list ToolCall) (e : Env World Store) :
  last_item (messages state) = Ok (AIMessage text requests) ->
  forallb well_formed_request requests = true ->
  forallb executes_no_code requests = true ->
  one_observation_per_request (with_toolkit T C) state requests e.
Proof.
  intros Hlast Hwf Hcode.
  assert (Hfirst : exists m0, first_item (messages state) = Ok m0).
  { destruct (messages state) as [|m0 ms]; [discriminate | exists m0; reflexivity]. }
  destruct Hfirst as (m0 & Hfirst).
  destruct (for_tool_calls_answers_each (content m0) (user_id state) requests) with
    (result := @None string) (outs := @nil BaseMessage) (e := e) as (new & Hnew & Hans).
  { intros tc Hin result e'; rewrite forallb_forall in Hwf, Hcode.
    apply toolkit_dispatch_returns; auto. }
  exists new; split; [|assumption].
  unfold call_tool, bind, lift, ret; simpl; rewrite Hlast, Hfirst; simpl.
  rewrite Hnew; reflexivity.
Qed.

(** X18. The error results of the two scraping capabilities go through
    the distiller like page content: a scrape that fails reaches the
    distiller as the text ["None"], and a path that does not exist as the
    text ["Error: File ... not found."]; the observation appended is the
    distiller's answer. *)
Theorem scrape_failures_are_distilled (query user : string) (tc : ToolCall)
    (result : option string) (e : Env World Store) (raw argument : string) :
  (tc_name tc = "scrape_site" /\
   args_find (tc_args tc) "url" = Some argument /\
   fst (scrape_url T argument (world e)) = Ok None /\
   raw = "None")
  \/
  (tc_name tc = "read_pdf_document" /\
   args_find (tc_args tc) "file_path" = Some argument /\
   path_exists _ T argument (world e) = false /\
   raw = "Error: File " ++ argument ++ " not found.") ->
  let o := dispatch (with_toolkit T C) query user tc result e in
  trace o = [EvCapability (tc_name tc) (tc_args tc);
             EvDistill (distill_prompt query (Py.slice_to 15000 raw))] /\
  exists e1 d,
    res (distill_scrape (with_toolkit T C) raw query e1) = Ok d /\
    res o = Ok (Some d).
Proof.
  intros H o.
  assert (Hraw : raw_result (with_toolkit T C) tc (world e) = Some raw
                 /\ distilled_capability (tc_name tc) = true).
  { unfold raw_result, distilled_capability.
    destruct H as [(Hn & Ha & Hs & ->)|(Hn & Ha & Hp & ->)]; rewrite Hn;
      cbn [String.eqb Ascii.eqb Bool.eqb orb]; simpl; split; try reflexivity.
    - unfold tool_scrape_site; rewrite Ha.
      destruct (scrape_url T argument (world e)) as [r w']; simpl in Hs; subst r.
      reflexivity.
    - unfold tool_read_pdf_document, read_pdf; rewrite Ha, Hp; reflexivity. }
  destruct Hraw as (Hraw & Hd).
  pose proof (dispatch_returned (with_toolkit T C) query user tc result e raw Hraw) as Hr.
  cbv zeta in Hr; rewrite Hd in Hr.
  destruct Hr as (e1 & d & Hdist & Hres & Ht).
  split; [exact Ht|]; exists e1, d; auto.
Qed.

End ToolkitDispatch.

(** * The chat endpoint *)

Lemma rstrip_nonspace (c : ascii) (rest : string) :
  Py.is_space c = false -> Py.truthy (PyText.rstrip (String c rest)) = true.
Proof.
  intros Hc; cbn [PyText.rstrip].
  destruct (PyText.rstrip rest); [rewrite Hc|]; reflexivity.
Qed.

(** The two readings of "not blank" agree. *)
Lemma strip_truthy_strip (text : string) :
  Py.truthy (PyText.strip text) = Py.strip_truthy text.
Proof.
  unfold PyText.strip; induction text as [|c rest IH]; [reflexivity|].
  cbn [PyText.lstrip Py.strip_truthy].
  destruct (Py.is_space c) eqn:Hc; [assumption | apply rstrip_nonspace; assumption].
Qed.

Lemma not_blank (text : string) :
  Py.truthy text && Py.truthy (PyText.strip text) = Py.strip_truthy text.
Proof.
  rewrite strip_truthy_strip.
  destruct text; [reflexivity|]; reflexivity.
Qed.

Section ServiceFacts.

Context {World Store : Type} (D : Deployment World Store).

Lemma run_answer_nonempty (C : Collaborators World Store) (limit : nat)
    (query thread user : string) (e : Env World Store) (result : RunResult) :
  res (run_with_limit C limit query thread user e) = Ok result ->
  answer result <> EmptyString.
Proof.
  intros H.
  assert (Hres : exists r, res (research C limit query thread user e) = Ok r).
  { unfold run_with_limit in H; apply bind_ok in H.
    destruct H as (r & Hr & _); eauto. }
  destruct Hres as ([[initial existing] final_msg] & Hres).
  destruct (run_with_limit_inv C _ _ _ _ _ _ _ _ _ H Hres) as (e2 & _ & _ & Hans & _).
  rewrite Hans; destruct final_msg; discriminate.
Qed.

Lemma encode_images_sound (generated : list string) :
  forall acc w img,
    In img (fst (encode_images D generated acc w)) ->
    In img acc \/
    (type img = "image/png" /\ In (filename img) (map (basename _ _ D) generated)).
Proof.
  induction generated as [|f rest IH]; intros acc w img; simpl; [auto|].
  destruct (image_exists _ _ D f w).
  - destruct (read_base64 _ _ D f w) as [[b|x] w']; intros H; apply IH in H.
    + destruct H as [H|(Ht & Hin)]; [|auto].
      apply in_app_or in H; destruct H as [H|[<-|[]]]; auto.
    + destruct H as [H|(Ht & Hin)]; auto.
  - intros H; apply IH in H; destruct H as [H|(Ht & Hin)]; auto.
Qed.

(** X19. The endpoint rejects a request before it calls anything: a query
    or a thread identifier that is empty or blank gives status 400, and a
    missing API key or database address gives status 500; the token is not
    decoded, the graph is not constructed, no collaborator is called and
    the environment is as before. *)
Theorem chat_rejects_before_any_call (query thread token : string)
    (e : Env World Store) :
  Py.strip_truthy query = false \/ Py.strip_truthy thread = false \/
  unset (GOOGLE_API_KEY _ _ D) = true \/ unset (PINECONE_API_KEY _ _ D) = true \/
  unset (MONGODB_URI _ _ D) = true ->
  exists code detail,
    chat_endpoint D query thread token e
    = mkCall World Store (Failed (HTTPException code detail)) e [] /\
    (Py.strip_truthy query = false ->
     code = 400 /\ detail = "Query cannot be empty") /\
    (Py.strip_truthy query = true -> Py.strip_truthy thread = false ->
     code = 400 /\ detail = "Thread ID cannot be empty") /\
    (Py.strip_truthy query = true -> Py.strip_truthy thread = true -> code = 500).
Proof.
  intros H; unfold chat_endpoint, chat_body; rewrite !not_blank.
  destruct (Py.strip_truthy query) eqn:Hq; cbn [negb];
    [|eexists _, _; split; [reflexivity|]; repeat split; discriminate].
  destruct (Py.strip_truthy thread) eqn:Ht; cbn [negb];
    [|eexists _, _; split; [reflexivity|]; repeat split; discriminate].
  destruct (unset (GOOGLE_API_KEY _ _ D)) eqn:Hg;
    [eexists _, _; split; [reflexivity|]; repeat split; discriminate|].
  destruct (unset (PINECONE_API_KEY _ _ D)) eqn:Hp;
    [eexists _, _; split; [reflexivity|]; repeat split; discriminate|].
  destruct (unset (MONGODB_URI _ _ D)) eqn:Hm;
    [eexists _, _; split; [reflexivity|]; repeat split; discriminate|].
  destruct H as [H|[H|[H|[H|H]]]]; discriminate.
Qed.

(** X20. The endpoint lets no exception of class [Exception] escape but
    an [HTTPException], with status 400, 401 or 500: whatever the token
    decoder, the construction of the graph, the run of the engine and the
    encoding of the images return or raise, the outcome is an answer,
    which is not empty, or such an [HTTPException]. (The failures of the
    collaborators are the exceptions of class [Exception]; the handlers of
    the endpoint are [except Exception] and leave an exit of the
    interpreter alone.) *)
Theorem chat_raises_only_http (query thread token : string) (e : Env World Store) :
  match outcome (chat_endpoint D query thread token e) with
  | Done response => response_answer response <> EmptyString
  | Failed (HTTPException code _) => code = 400 \/ code = 401 \/ code = 500
  | Failed _ => False
  end.
Proof.
  unfold chat_endpoint, chat_body.
  destruct (negb (Py.truthy query && Py.truthy (PyText.strip query))); [simpl; auto|].
  destruct (negb (Py.truthy thread && Py.truthy (PyText.strip thread))); [simpl; auto|].
  destruct (unset (GOOGLE_API_KEY _ _ D)); [simpl; auto|].
  destruct (unset (PINECONE_API_KEY _ _ D)); [simpl; auto|].
  destruct (unset (MONGODB_URI _ _ D)); [simpl; auto|].
  unfold decode_token.
  destruct (jwt_decode _ _ D token (world e)) as [[claims| | |x] w1]; simpl; auto.
  destruct (args_find claims "user_id") as [user|]; [|simpl; auto].
  destruct (construct _ _ D w1) as [[[]|x] w2]; [|simpl; auto].
  destruct (res (run (graph _ _ D) (PyText.strip query) (PyText.strip thread) user
                   (mkEnv (store e) w2))) as [result|x] eqn:Hrun; [|simpl; auto].
  destruct (encode_images D (generated_files result) [] _) as [imgs w3]; simpl.
  eapply run_answer_nonempty; exact Hrun.
Qed.

(** X21. A failure of the engine becomes status 500: when the request is
    accepted and [run] raises, the endpoint raises an [HTTPException] with
    status 500 and the detail ["Error processing query: "] followed by the
    text of the exception. The engine is run on the stripped query and
    thread identifier, for the user the token names. *)
Theorem chat_engine_failure_is_500 (query thread token : string)
    (e : Env World Store) (claims : Args) (user : string) (w1 w2 : World) (x : exn) :
  Py.strip_truthy query = true ->
  Py.strip_truthy thread = true ->
  unset (GOOGLE_API_KEY _ _ D) = false ->
  unset (PINECONE_API_KEY _ _ D) = false ->
  unset (MONGODB_URI _ _ D) = false ->
  jwt_decode _ _ D token (world e) = (Payload claims, w1) ->
  args_find claims "user_id" = Some user ->
  construct _ _ D w1 = (Ok tt, w2) ->
  let o := run (graph _ _ D) (PyText.strip query) (PyText.strip thread) user
               (mkEnv (store e) w2) in
  res o = Raise x ->
  chat_endpoint D query thread token e
  = mkCall World Store
      (Failed (HTTPException 500 ("Error processing query: " ++ exn_str x)))
      (env o) (trace o).
Proof.
  intros Hq Ht Hg Hp Hm Hjwt Huser Hc o Hrun; subst o.
  unfold chat_endpoint, chat_body; rewrite !not_blank, Hq, Ht, Hg, Hp, Hm.
  cbn [negb]; unfold decode_token; rewrite Hjwt, Huser, Hc, Hrun; reflexivity.
Qed.

(** X22. When the endpoint answers, the request was not blank, the token
    decoded to claims that name a user, and the answer is the answer of
    one run of the engine on the stripped query and thread identifier for
    that user; every image of the response is a PNG named after one of the
    files the run generated. *)
Theorem chat_answers_with_the_run (query thread token : string)
    (e : Env World Store) (response : ChatResponse) :
  outcome (chat_endpoint D query thread token e) = Done response ->
  Py.strip_truthy query = true /\
  Py.strip_truthy thread = true /\
  exists claims user w1 w2 result,
    jwt_decode _ _ D token (world e) = (Payload claims, w1) /\
    args_find claims "user_id" = Some user /\
    construct _ _ D w1 = (Ok tt, w2) /\
    let o := run (graph _ _ D) (PyText.strip query) (PyText.strip thread) user
                 (mkEnv (store e) w2) in
    res o = Ok result /\
    response_answer response = answer result /\
    calls (chat_endpoint D query thread token e) = trace o /\
    forall imgs img,
      images response = Some imgs -> In img imgs ->
      type img = "image/png" /\
      In (filename img) (map (basename _ _ D) (generated_files result)).
Proof.
  unfold chat_endpoint, chat_body; rewrite !not_blank.
  destruct (Py.strip_truthy query); cbn [negb]; [|simpl; discriminate].
  destruct (Py.strip_truthy thread); cbn [negb]; [|simpl; discriminate].
  destruct (unset (GOOGLE_API_KEY _ _ D)); [simpl; discriminate|].
  destruct (unset (PINECONE_API_KEY _ _ D)); [simpl; discriminate|].
  destruct (unset (MONGODB_URI _ _ D)); [simpl; discriminate|].
  unfold decode_token.
  destruct (jwt_decode _ _ D token (world e)) as [[claims| | |x] w1] eqn:Hjwt;
    try (simpl; discriminate).
  destruct (args_find claims "user_id") as [user|] eqn:Huser; [|simpl; discriminate].
  destruct (construct _ _ D w1) as [[[]|x] w2] eqn:Hc; [|simpl; discriminate].
  destruct (res (run (graph _ _ D) (PyText.strip query) (PyText.strip thread) user
                   (mkEnv (store e) w2))) as [result|x] eqn:Hrun;
    [|simpl; discriminate].
  destruct (encode_images D (generated_files result) [] _) as [imgs w3] eqn:Himgs.
  simpl; intros H; injection H as <-.
  split; [reflexivity|]; split; [reflexivity|].
  exists claims, user, w1, w2, result.
  split; [first [reflexivity | assumption]|].
  split; [first [reflexivity | assumption]|].
  split; [first [reflexivity | assumption]|].
  cbv zeta; split; [assumption|]; split; [reflexivity|]; split; [reflexivity|].
  intros imgs' img Himg Hin.
  destruct imgs as [|i0 is0]; simpl in Himg; [discriminate|].
  injection Himg as <-.
  match type of Himgs with
  | encode_images _ _ _ ?w = _ =>
      pose proof (encode_images_sound (generated_files result) [] w img) as Hs
  end.
  rewrite Himgs in Hs; destruct (Hs Hin) as [[]|Hok]; exact Hok.
Qed.

End ServiceFacts.

(** * Scenarios for the further properties *)

Lemma stream_follows_graph_witness :
  let S := scripted search_then_answer [] true true in
  exists outs s',
    res (astream S 20 memory_check (initial_state [] "q" "t" "u") (env0 []))
    = Ok (outs, s') /\
    (stream_shape (map fst outs) = true /\ (length outs <= 20)%nat).
Proof.
  intros S.
  assert (H : exists outs s',
             res (astream S 20 memory_check (initial_state [] "q" "t" "u") (env0 []))
             = Ok (outs, s')) by (eexists _, _; vm_compute; reflexivity).
  destruct H as (outs & s' & H).
  exists outs, s'; split; [exact H|].
  exact (stream_follows_graph S 20 _ _ outs s' H).
Defined.

(** X2 on a model that answers at its ninth call: the stream returns with
    the counter at 9. *)
Lemma stream_planner_bound_witness :
  let S := scripted (search_times 8) [] true true in
  exists outs s',
    res (astream S 20 memory_check (initial_state [] "q" "t" "u") (env0 []))
    = Ok (outs, s') /\
    steps s' = 9 /\
    ((length outs < 20)%nat /\
     steps s' = Z.of_nat (planner_runs outs) /\
     2 * steps s' < Z.of_nat 20 /\
     (20%nat = 20%nat -> steps s' <= 9)).
Proof.
  intros S.
  assert (H : exists outs s',
             res (astream S 20 memory_check (initial_state [] "q" "t" "u") (env0 []))
             = Ok (outs, s') /\ steps s' = 9)
    by (eexists _, _; split; vm_compute; reflexivity).
  destruct H as (outs & s' & H & Hsteps).
  exists outs, s'; split; [exact H|]; split; [exact Hsteps|].
  exact (stream_planner_bound S 20 [] "q" "t" "u" (env0 []) outs s' H).
Defined.

(** A model that answers at its tenth call reaches END in the twentieth
    super-step, and the stream raises. *)
Example tenth_answer_is_past_the_limit :
  let S := scripted (search_times 9) [] true true in
  res (astream S 20 memory_check (initial_state [] "q" "t" "u") (env0 []))
  = Raise (GraphRecursionError (recursion_error_text _ _ S)) /\
  exists outs s',
    res (astream S 21 memory_check (initial_state [] "q" "t" "u") (env0 []))
    = Ok (outs, s') /\ length outs = 20%nat /\ steps s' = 10.
Proof.
  split; [vm_compute; reflexivity|].
  eexists _, _; split; [vm_compute; reflexivity|].
  split; vm_compute; reflexivity.
Qed.

Lemma executor_entered_on_requests_witness :
  let S := scripted search_then_answer [] true true in
  exists value s',
    res (super_step S planner (initial_state [] "q" "t" "u") (env0 []))
    = Ok (value, s', Some executor) /\
    (planner = planner /\
     steps s' < 12 /\
     exists text request requests,
       last_item (messages s') = Ok (AIMessage text (request :: requests))).
Proof.
  intros S.
  assert (H : exists value s',
             res (super_step S planner (initial_state [] "q" "t" "u") (env0 []))
             = Ok (value, s', Some executor)) by (eexists _, _; vm_compute; reflexivity).
  destruct H as (value & s' & H).
  exists value, s'; split; [exact H|].
  exact (executor_entered_on_requests S planner _ _ value s' H).
Defined.

Lemma final_msg_is_last_response_witness :
  let S := scripted search_then_answer [] true true in
  exists outs s',
    res (astream S 20 memory_check (initial_state [] "q" "t" "u") (env0 []))
    = Ok (outs, s') /\
    planner_runs outs <> 0%nat /\
    exists text,
      last_item (messages s') = Ok (AIMessage text []) /\
      fold_left observe outs EmptyString = text.
Proof.
  intros S.
  assert (H : exists outs s',
             res (astream S 20 memory_check (initial_state [] "q" "t" "u") (env0 []))
             = Ok (outs, s') /\ planner_runs outs <> 0%nat)
    by (eexists _, _; split; [vm_compute; reflexivity | vm_compute; discriminate]).
  destruct H as (outs & s' & H & Hruns).
  exists outs, s'; split; [exact H|]; split; [exact Hruns|].
  exact (final_msg_is_last_response S [] "q" "t" "u" (env0 []) outs s' H Hruns).
Defined.

Lemma storage_round_trip_witness :
  forallb plain_message [HumanMessage "old question"; AIMessage "old answer" []] = true /\
  messages_for_storage (history_messages (("system", "note") :: old_thread))
  = filter stored_role (("system", "note") :: old_thread) /\
  history_messages
    (messages_for_storage [HumanMessage "old question"; AIMessage "old answer" []])
  = [HumanMessage "old question"; AIMessage "old answer" []].
Proof.
  split; [reflexivity|].
  exact (storage_round_trip (("system", "note") :: old_thread)
           [HumanMessage "old question"; AIMessage "old answer" []] eq_refl).
Defined.

Lemma run_saves_exchange_witness :
  let S := scripted answer_at_once [] true true in
  let o := run_with_limit S 20 "q" "t" "u" (env0 []) in
  exists result,
    res o = Ok result /\
    exists history final_msg,
      res (load_conversation S "t" "u" (env0 [])) = Ok history /\
      if Py.truthy final_msg
      then answer result = final_msg /\
           filter is_save (trace o)
           = [EvSave "t" "u"
                (filter stored_role history
                 ++ [("user", "q"); ("assistant", final_msg)])%list]
      else answer result = apology /\
           filter is_save (trace o) = [] /\
           existsb is_upsert (trace o) = false.
Proof.
  intros S o.
  assert (H : exists result, res o = Ok result) by (eexists; vm_compute; reflexivity).
  destruct H as (result & H).
  exists result; split; [exact H|].
  exact (run_saves_exchange S 20 "q" "t" "u" (env0 []) result H).
Defined.

Lemma gate_update_witness :
  let S := scripted answer_at_once ["doc"] true true in
  let s := initial_state [] "q" "t" "u" in
  exists s1 u,
    res (check_cache S s (env0 [hit])) = Ok (s1, u) /\
    exists m0 cached pdf,
      first_item (messages s) = Ok m0 /\
      res (query_memory S (content m0) (user_id s) threshold (env0 [hit])) = Ok cached /\
      res (retrieve_relevant_context S (content m0) (user_id s) 5
             (env (query_memory S (content m0) (user_id s) threshold (env0 [hit]))))
      = Ok pdf /\
      s1 = s /\
      upd_steps u = None /\
      upd_messages u
      = ((match cached with
          | Some r => if Py.truthy r then [memory_message r] else []
          | None => []
          end)
         ++ (match pdf with
             | Some c => [documents_message c]
             | None => []
             end))%list.
Proof.
  intros S s.
  assert (H : exists s1 u, res (check_cache S s (env0 [hit])) = Ok (s1, u))
    by (eexists _, _; vm_compute; reflexivity).
  destruct H as (s1 & u & H).
  exists s1, u; split; [exact H|].
  exact (gate_update S s s1 u (env0 [hit]) H).
Defined.

Lemma gate_ends_iff_cached_alone_witness :
  let S := scripted answer_at_once [] true true in
  exists value s' next,
    res (super_step S memory_check (initial_state [] "q" "t" "u") (env0 [hit]))
    = Ok (value, s', next) /\
    next = None /\
    (next = None <-> exists r, upd_messages value = [memory_message r]) /\
    (next <> None -> next = Some planner).
Proof.
  intros S.
  assert (H : exists value s',
             res (super_step S memory_check (initial_state [] "q" "t" "u") (env0 [hit]))
             = Ok (value, s', None)) by (eexists _, _; vm_compute; reflexivity).
  destruct H as (value & s' & H).
  exists value, s', None; split; [exact H|]; split; [reflexivity|].
  exact (gate_ends_iff_cached_alone S [] "q" "t" "u" (env0 [hit]) value s' None H).
Defined.

Lemma query_user_pdfs_answers_witness :
  let S := scripted answer_at_once [] true true in
  tc_name pdfs_call = "query_user_pdfs" /\
  let asked := args_get (tc_args pdfs_call) "query" "q" in
  let o := dispatch S "q" "u" pdfs_call None (env0 []) in
  (forallb (fun kv => negb (String.eqb (fst kv) "query")) (tc_args pdfs_call) = true ->
   asked = "q") /\
  trace o = [EvCapability "query_user_pdfs" (tc_args pdfs_call); EvRetrieve asked "u"] /\
  exists text,
    res o = Ok (Some text) /\
    text <> EmptyString /\
    match res (retrieve_relevant_context S asked "u" 5 (env0 [])) with
    | Ok (Some c) => text = c
    | _ => text = "No relevant information found in your uploaded documents."
    end.
Proof.
  intros S; split; [reflexivity|].
  exact (query_user_pdfs_answers S "q" "u" pdfs_call None (env0 []) eq_refl).
Defined.


(** Code that exits leaves [run_code], and the tool that wraps it, with
    the exit. *)
Example exit_leaves_the_sandbox :
  run_code failing_toolkit "import sys; sys.exit(1)" None 0%nat
  = (Exits "SystemExit", 0%nat) /\
  tool_execute_python failing_toolkit (tc_args exit_call) 0%nat
  = (Exits "SystemExit", 0%nat).
Proof. split; vm_compute; reflexivity. Qed.

Lemma toolkit_dispatcher_total_witness :
  let S := with_toolkit failing_toolkit (scripted search_then_answer [] true true) in
  last_item (messages (asked [search_call; scrape_call]))
  = Ok (AIMessage "Searching" [search_call; scrape_call]) /\
  forallb well_formed_request [search_call; scrape_call] = true /\
  forallb executes_no_code [search_call; scrape_call] = true /\
  one_observation_per_request S (asked [search_call; scrape_call])
    [search_call; scrape_call] (env0 []).
Proof.
  intros S; split; [reflexivity|]; split; [reflexivity|]; split; [reflexivity|].
  exact (toolkit_dispatcher_total failing_toolkit
           (scripted search_then_answer [] true true)
           (asked [search_call; scrape_call]) "Searching"
           [search_call; scrape_call] (env0 []) eq_refl eq_refl eq_refl).
Defined.

Lemma scrape_failures_are_distilled_witness :
  let S := with_toolkit failing_toolkit (scripted search_then_answer [] true true) in
  let o := dispatch S "q" "u" scrape_call None (env0 []) in
  (tc_name scrape_call = "scrape_site" /\
   args_find (tc_args scrape_call) "url" = Some "http://example.org" /\
   fst (scrape_url failing_toolkit "http://example.org" (world (env0 []))) = Ok None /\
   "None" = "None") /\
  trace o = [EvCapability (tc_name scrape_call) (tc_args scrape_call);
             EvDistill (distill_prompt "q" (Py.slice_to 15000 "None"))] /\
  exists e1 d,
    res (distill_scrape S "None" "q" e1) = Ok d /\
    res o = Ok (Some d).
Proof.
  intros S o.
  assert (H : tc_name scrape_call = "scrape_site" /\
              args_find (tc_args scrape_call) "url" = Some "http://example.org" /\
              fst (scrape_url failing_toolkit "http://example.org" (world (env0 [])))
              = Ok None /\
              "None" = "None") by (repeat split; reflexivity).
  split; [exact H|].
  exact (scrape_failures_are_distilled failing_toolkit
           (scripted search_then_answer [] true true)
           "q" "u" scrape_call None (env0 []) "None" "http://example.org"
           (or_introl H)).
Defined.

(** X19 on a query of no-break space, next line and space. *)
Lemma chat_rejects_before_any_call_witness :
  let D := test_deployment answer_at_once in
  Py.strip_truthy blank_query = false /\
  exists code detail,
    chat_endpoint D blank_query "t" "good" (env0 [])
    = mkCall nat (list Match) (Failed (HTTPException code detail)) (env0 []) [] /\
    (Py.strip_truthy blank_query = false ->
     code = 400 /\ detail = "Query cannot be empty") /\
    (Py.strip_truthy blank_query = true -> Py.strip_truthy "t" = false ->
     code = 400 /\ detail = "Thread ID cannot be empty") /\
    (Py.strip_truthy blank_query = true -> Py.strip_truthy "t" = true -> code = 500).
Proof.
  intros D; split; [reflexivity|].
  exact (chat_rejects_before_any_call D blank_query "t" "good" (env0 [])
           (or_introl eq_refl)).
Defined.

(** X21 on a model that never stops searching: the run ends at the
    recursion limit, and the detail carries the text of that error. *)
Lemma chat_engine_failure_is_500_witness :
  let D := test_deployment always_search in
  let x := GraphRecursionError (recursion_error_text _ _ (graph _ _ D)) in
  let o := run (graph _ _ D) (PyText.strip padded_query) (PyText.strip "t") "u"
               (mkEnv (store (env0 [])) 0%nat) in
  PyText.strip padded_query = "q" /\
  res o = Raise x /\
  chat_endpoint D padded_query "t" "good" (env0 [])
  = mkCall nat (list Match)
      (Failed (HTTPException 500 ("Error processing query: " ++ exn_str x)))
      (env o) (trace o).
Proof.
  intros D x o.
  assert (H : res o = Raise x) by (vm_compute; reflexivity).
  split; [reflexivity|]; split; [exact H|].
  exact (chat_engine_failure_is_500 D padded_query "t" "good" (env0 [])
           [("user_id", "u")] "u" 0%nat 0%nat x
           eq_refl eq_refl eq_refl eq_refl eq_refl eq_refl eq_refl eq_refl H).
Defined.

(** X22 on a query between no-break spaces. *)
Lemma chat_answers_with_the_run_witness :
  let D := test_deployment answer_at_once in
  exists response,
    outcome (chat_endpoint D padded_query "t" "good" (env0 [])) = Done response /\
    response_answer response = "Fresh answer" /\
    Py.strip_truthy padded_query = true /\
    Py.strip_truthy "t" = true /\
    exists claims user w1 w2 result,
      jwt_decode _ _ D "good" (world (env0 [])) = (Payload claims, w1) /\
      args_find claims "user_id" = Some user /\
      construct _ _ D w1 = (Ok tt, w2) /\
      let o := run (graph _ _ D) (PyText.strip padded_query) (PyText.strip "t") user
                   (mkEnv (store (env0 [])) w2) in
      res o = Ok result /\
      response_answer response = answer result /\
      calls (chat_endpoint D padded_query "t" "good" (env0 [])) = trace o /\
      forall imgs img,
        images response = Some imgs -> In img imgs ->
        type img = "image/png" /\
        In (filename img) (map (basename _ _ D) (generated_files result)).
Proof.
  intros D.
  assert (H : exists response,
             outcome (chat_endpoint D padded_query "t" "good" (env0 [])) = Done response /\
             response_answer response = "Fresh answer")
    by (eexists; split; vm_compute; reflexivity).
  destruct H as (response & H & Hanswer).
  exists response; split; [exact H|]; split; [exact Hanswer|].
  exact (chat_answers_with_the_run D padded_query "t" "good" (env0 []) response H).
Defined.
